(** * usb_cable_chk.py: a shallow embedding of the USB cable tester

    The tester shells out to diagnostic commands, turns their text output
    into six [ProbeResult]s stored in [test_results], and renders a scored
    table.  The embedding keeps the source's shape:

    - Python [str] values are Rocq strings holding the UTF-8 bytes of the
      text, so the status glyphs are ordinary (multi-byte) literals and
      [==] and [in] are equality and substring search on bytes.  The
      character classes used by the source ([str.isdigit], [str.strip],
      [str.split], [str.lower], the regular expressions) are modelled on
      their ASCII members, which is what the piped commands print;
    - Python [float] is the kernel's binary64 [float];
    - the methods of [USBCableTester] are state-passing functions over a
      [Tester] record, in an error monad for the exceptions that can escape;
    - everything the operating system answers (command outcomes, the sysfs
      tree, clock readings, random bytes) is read from a [World] record. *)

From Stdlib Require Import ZArith Ascii String List Bool Lia Floats Uint63.
From stdpp Require Import gmap strings.

Local Open Scope Z_scope.

(** ** Python text primitives *)

Module Py.

Definition nl : string := String "010"%char "".
Definition esc : string := String "027"%char "".

Definition code (c : ascii) : N := N_of_ascii c.

Definition in_range (lo hi : N) (c : ascii) : bool :=
  ((lo <=? code c) && (code c <=? hi))%N.

(** [str.isspace] on one ASCII character: TAB..CR, FS..US and the blank. *)
Definition is_space (c : ascii) : bool :=
  in_range 9 13 c || in_range 28 31 c || (code c =? 32)%N.

Definition is_digit (c : ascii) : bool := in_range 48 57 c.

Fixpoint forallb_str (p : ascii -> bool) (s : string) : bool :=
  match s with
  | EmptyString => true
  | String c t => p c && forallb_str p t
  end.

(** [s.isdigit()]: at least one character, and all of them digits. *)
Definition isdigit (s : string) : bool :=
  match s with
  | EmptyString => false
  | _ => forallb_str is_digit s
  end.

Definition digit_value (c : ascii) : Z := Z.of_N (code c) - 48.

Fixpoint int_go (acc : Z) (s : string) : Z :=
  match s with
  | EmptyString => acc
  | String c t => int_go (10 * acc + digit_value c) t
  end.

(** [int(s)] for a string of digits. *)
Definition int (s : string) : Z := int_go 0 s.

Definition digit_char (d : Z) : ascii := ascii_of_N (Z.to_N (48 + d)).

Fixpoint digits_go (fuel : nat) (n : Z) (acc : string) : string :=
  match fuel with
  | O => acc
  | S fuel' =>
      let acc' := String (digit_char (n mod 10)) acc in
      if n <? 10 then acc' else digits_go fuel' (n / 10) acc'
  end.

(** [str(n)] for an integer: decimal digits, with a sign when negative.
    A number below [2^k] has at most [k] digits, which bounds the fuel. *)
Definition str (n : Z) : string :=
  let a := Z.abs n in
  let d := digits_go (S (Z.to_nat (Z.log2 a))) a "" in
  if n <? 0 then String "-"%char d else d.

(** [s.startswith(p)] *)
Definition startswith (p s : string) : bool := String.prefix p s.

(** [sub in s] *)
Fixpoint contains (sub s : string) : bool :=
  String.prefix sub s ||
  match s with
  | EmptyString => false
  | String _ t => contains sub t
  end.

Fixpoint drop (n : nat) (s : string) : string :=
  match n, s with
  | O, _ => s
  | S _, EmptyString => EmptyString
  | S n', String _ t => drop n' t
  end.

(** The longest prefix of characters in a class, and what follows it. *)
Fixpoint span (p : ascii -> bool) (s : string) : string * string :=
  match s with
  | EmptyString => (EmptyString, EmptyString)
  | String c t =>
      if p c then let '(a, b) := span p t in (String c a, b)
      else (EmptyString, s)
  end.

Definition lstrip (s : string) : string := snd (span is_space s).

Fixpoint rstrip_by (p : ascii -> bool) (s : string) : string :=
  match s with
  | EmptyString => EmptyString
  | String c t =>
      match rstrip_by p t with
      | EmptyString => if p c then EmptyString else String c EmptyString
      | t' => String c t'
      end
  end.

(** [s.strip()] *)
Definition strip (s : string) : string := rstrip_by is_space (lstrip s).

(** [s.rstrip('/')] *)
Definition rstrip_slash (s : string) : string :=
  rstrip_by (fun c => (code c =? 47)%N) s.

Definition lower_char (c : ascii) : ascii :=
  if in_range 65 90 c then ascii_of_N (code c + 32) else c.

(** [s.lower()] *)
Fixpoint lower (s : string) : string :=
  match s with
  | EmptyString => EmptyString
  | String c t => String (lower_char c) (lower t)
  end.

(** [s.partition(sep)], as an option: the text before and after the first
    occurrence of [sep], if there is one. *)
Fixpoint partition (sep s : string) : option (string * string) :=
  if String.prefix sep s then Some (EmptyString, drop (String.length sep) s)
  else
    match s with
    | EmptyString => None
    | String c t =>
        match partition sep t with
        | Some (a, b) => Some (String c a, b)
        | None => None
        end
    end.

Fixpoint split_go (fuel : nat) (sep s : string) : list string :=
  match fuel with
  | O => [s]
  | S fuel' =>
      match partition sep s with
      | None => [s]
      | Some (a, b) => a :: split_go fuel' sep b
      end
  end.

(** [s.split(sep)] for a non-empty separator.  Each cut removes at least
    one character, so the length of [s] is fuel enough. *)
Definition split (sep s : string) : list string :=
  split_go (String.length s) sep s.

Fixpoint split_ws_go (s : string) : bool * list string :=
  match s with
  | EmptyString => (false, [])
  | String c t =>
      let '(inside, ws) := split_ws_go t in
      if is_space c then (false, ws)
      else
        match inside, ws with
        | true, w :: ws' => (true, String c w :: ws')
        | _, _ => (true, String c EmptyString :: ws)
        end
  end.

(** [s.split()]: the maximal runs of non-blank characters. *)
Definition split_ws (s : string) : list string := snd (split_ws_go s).

(** [len(s)]: code points, i.e. the bytes that are not UTF-8 continuation
    bytes. *)
Fixpoint len (s : string) : Z :=
  match s with
  | EmptyString => 0
  | String c t => (if in_range 128 191 c then 0 else 1) + len t
  end.

Fixpoint spaces (n : nat) : string :=
  match n with
  | O => EmptyString
  | S n' => String " "%char (spaces n')
  end.

(** [" " * n] *)
Definition blanks (n : Z) : string := spaces (Z.to_nat n).

(** [f"{s:<{w}}"] *)
Definition ljust (w : Z) (s : string) : string := s +:+ blanks (w - len s).

(** Removal of a pattern by one left-to-right pass: [skip] counts the
    characters of the current match still to drop, [m] gives the length of
    the match starting at a position, if any. *)
Fixpoint erase_go (m : string -> option nat) (skip : nat) (s : string) : string :=
  match s with
  | EmptyString => EmptyString
  | String c t =>
      match skip with
      | S k => erase_go m k t
      | O =>
          match m s with
          | Some (S k) => erase_go m k t
          | _ => String c (erase_go m O t)
          end
      end
  end.

(** [s.replace(old, "")] *)
Definition remove (old s : string) : string :=
  erase_go (fun r => if String.prefix old r then Some (String.length old) else None) O s.

(** [os.path.basename(p)] *)
Definition basename (p : string) : string :=
  String.rev (fst (span (fun c => negb (code c =? 47)%N) (String.rev p))).

End Py.

(** ** Python floats and their formatting *)

Module PyFloat.

(** [float(n)] for the small non-negative integers the program converts
    (counts, the file size). *)
Definition of_int (n : Z) : float := PrimFloat.of_uint63 (Uint63.of_Z n).

(** The integer nearest to [m * 2^e], ties to even. *)
Definition round_half_even (m e : Z) : Z :=
  if 0 <=? e then m * 2 ^ e
  else
    let d := 2 ^ (- e) in
    let q := m / d in
    match 2 * (m mod d) ?= d with
    | Lt => q
    | Gt => q + 1
    | Eq => if Z.even q then q else q + 1
    end.

(** [f"{x:.0f}"] *)
Definition format_0f (x : float) : string :=
  match Prim2SF x with
  | S754_zero s => if s then "-0" else "0"
  | S754_infinity s => if s then "-inf" else "inf"
  | S754_nan => "nan"
  | S754_finite s m e =>
      (if s then "-" else "") +:+ Py.str (round_half_even (Zpos m) e)
  end.

(** [sum(xs)] on floats: the terms added left to right, starting from 0
    (the accumulation loop of the builtin, without the compensation term
    that recent CPython versions carry along). *)
Definition sum (xs : list float) : float := fold_left PrimFloat.add xs 0%float.

End PyFloat.

(** ** The two regular expressions *)

(** [re.search(r'bcdUSB\s+(\d+\.\d+)', s)], anchored at the head of [s]:
    the character classes of consecutive pieces are disjoint, so the greedy
    reading of each piece is the only one that can match. *)
Definition match_bcdUSB (s : string) : option string :=
  if Py.startswith "bcdUSB" s then
    let '(ws, r1) := Py.span Py.is_space (Py.drop 6 s) in
    let '(d1, r2) := Py.span Py.is_digit r1 in
    match ws, d1, r2 with
    | String _ _, String _ _, String "."%char r3 =>
        match Py.span Py.is_digit r3 with
        | (String c d2, _) => Some (d1 +:+ "." +:+ String c d2)
        | _ => None
        end
    | _, _, _ => None
    end
  else None.

(** The leftmost match, and its group 1. *)
Fixpoint search_bcdUSB (s : string) : option string :=
  match match_bcdUSB s with
  | Some ver => Some ver
  | None =>
      match s with
      | EmptyString => None
      | String _ t => search_bcdUSB t
      end
  end.

(** The length of a match of [\x1B(?:[@-Z\\-_]|\[[0-?]*[ -/]*[@-~])] at the
    head of [s]. *)
Definition match_ansi (s : string) : option nat :=
  match s with
  | String e (String c u) =>
      if negb (Py.code e =? 27)%N then None
      else if Py.in_range 64 90 c || Py.in_range 92 95 c then Some 2%nat
      else if (Py.code c =? 91)%N then
        let '(p, r1) := Py.span (Py.in_range 48 63) u in
        let '(q, r2) := Py.span (Py.in_range 32 47) r1 in
        match r2 with
        | String f _ =>
            if Py.in_range 64 126 f
            then Some (3 + String.length p + String.length q)%nat
            else None
        | EmptyString => None
        end
      else None
  | _ => None
  end.

(** ** Data model *)

(** A probe's outcome, the dict [{"value": ..., "status": ...}]. *)
Record ProbeResult := { value : string; status : string }.

(** [subprocess.CompletedProcess] *)
Record CompletedProcess := {
  args : string;
  returncode : Z;
  stdout : string;
  stderr : string
}.

(** What [subprocess.run(cmd, shell=True, capture_output=True, text=True,
    timeout=t)] does once the shell is started: the command exits within the
    bound, or [TimeoutExpired] is raised. *)
Inductive run_outcome :=
| Exited (rc : Z) (out err : string)
| TimeoutExpired.

(** Everything the machine answers during one run.  Commands are listed by
    call site; the speed test's answers are indexed by the cycle. *)
Record World := {
  (* lsusb -v | grep bcdUSB | tail -3 *)
  lsusb_bcd : run_outcome;
  (* os.walk("/sys/bus/usb/devices"): (root, dirs) of every directory *)
  sysfs_walk : list (string * list string);
  sysfs_exists : string -> bool;
  (* the text of a sysfs file; None when opening or reading it fails *)
  sysfs_read : string -> option string;
  (* dmesg | tail -10 | grep -i usb, then one tail -5 per poll that fits in
     the four-second window *)
  dmesg_base : run_outcome;
  dmesg_polls : list run_outcome;
  lsusb_endpoints : run_outcome;
  lsusb_configs : run_outcome;
  pkill_monitor : run_outcome;
  pkill_daemon : run_outcome;
  gio_mounts : run_outcome;
  (* per speed-test cycle: int(time.time()), os.urandom(...), the three gio
     commands, the file the download leaves at its destination (None: no
     file), and time.time() - start after the integrity check *)
  stamp : nat -> Z;
  urandom : nat -> list Byte.byte;
  upload : nat -> run_outcome;
  download : nat -> run_outcome;
  fetched : nat -> option (list Byte.byte);
  elapsed : nat -> float;
  removal : nat -> run_outcome
}.

(** The tester object and what it has done to the outside: [test_results]
    is the dict of the source; [assigned] lists the keys stored into it, in
    order of assignment; [journal] the messages passed to [log] with their
    status tag; [issued] the commands handed to the shell; [fs] the local
    temp files. *)
Record Tester := {
  test_results : gmap string ProbeResult;
  assigned : list string;
  journal : list (string * string);
  issued : list string;
  fs : gmap string (list Byte.byte)
}.

Definition init : Tester :=
  {| test_results := ∅; assigned := []; journal := []; issued := []; fs := ∅ |}.

(** ** Exceptions and the state monad *)

Inductive exn :=
| IndexError
| KeyError (key : string)
| ZeroDivisionError.

Inductive Result (A : Type) :=
| Ok (a : A)
| Raise (e : exn).
Arguments Ok {A} a.
Arguments Raise {A} e.

Definition M (A : Type) : Type := Tester -> Result (A * Tester).

#[global] Instance M_ret : MRet M := fun A a st => Ok (a, st).

#[global] Instance M_bind : MBind M := fun A B f m st =>
  match m st with
  | Ok (a, st') => f a st'
  | Raise e => Raise e
  end.

Definition raise {A} (e : exn) : M A := fun _ => Raise e.

Definition get_fs : M (gmap string (list Byte.byte)) := fun st => Ok (fs st, st).

Definition with_fs (f : gmap string (list Byte.byte)) (st : Tester) : Tester :=
  {| test_results := test_results st; assigned := assigned st;
     journal := journal st; issued := issued st; fs := f |}.

Definition set_fs (f : gmap string (list Byte.byte)) : M unit := fun st =>
  Ok (tt, with_fs f st).

(** [self.test_results[key] = r] *)
Definition store (key : string) (r : ProbeResult) : M unit := fun st =>
  Ok (tt, {| test_results := <[key := r]> (test_results st);
             assigned := assigned st ++ [key];
             journal := journal st; issued := issued st; fs := fs st |}).

(** [self.log(message, status)]: the line goes to the console and to the log
    file; the journal keeps the message and its tag. *)
Definition log (message tag : string) : M unit := fun st =>
  Ok (tt, {| test_results := test_results st; assigned := assigned st;
             journal := journal st ++ [(tag, message)];
             issued := issued st; fs := fs st |}).

(** The command joins the trace of what was handed to the shell. *)
Definition issue (cmd : string) : M unit := fun st =>
  Ok (tt, {| test_results := test_results st; assigned := assigned st;
             journal := journal st; issued := issued st ++ [cmd]; fs := fs st |}).

(** [self.log_file.write_text("")] *)
Definition truncate_log : M unit := fun st =>
  Ok (tt, {| test_results := test_results st; assigned := assigned st;
             journal := []; issued := issued st; fs := fs st |}).

(** ** [hashlib.sha256]

    FIPS 180-4 on 32-bit words held in [Z], every sum reduced modulo
    [2^32]. *)

Module Sha256.

Definition add32 (a b : Z) : Z := (a + b) mod 2 ^ 32.

Definition rotr (n x : Z) : Z :=
  Z.lor (Z.shiftr x n) (Z.shiftl x (32 - n) mod 2 ^ 32).

Definition Ch (x y z : Z) : Z := Z.lxor (Z.land x y) (Z.land (Z.lnot x) z).

Definition Maj (x y z : Z) : Z :=
  Z.lxor (Z.lxor (Z.land x y) (Z.land x z)) (Z.land y z).

Definition Sigma0 (x : Z) : Z := Z.lxor (Z.lxor (rotr 2 x) (rotr 13 x)) (rotr 22 x).
Definition Sigma1 (x : Z) : Z := Z.lxor (Z.lxor (rotr 6 x) (rotr 11 x)) (rotr 25 x).
Definition sigma0 (x : Z) : Z := Z.lxor (Z.lxor (rotr 7 x) (rotr 18 x)) (Z.shiftr x 3).
Definition sigma1 (x : Z) : Z := Z.lxor (Z.lxor (rotr 17 x) (rotr 19 x)) (Z.shiftr x 10).

(** The constants are given by their definition: the first 32 bits of the
    fractional parts of the cube roots (round constants) and of the square
    roots (initial hash value) of the first primes. *)
Definition is_prime (n : nat) : bool :=
  forallb (fun d => negb (Nat.eqb (n mod d) 0)) (seq 2 (n - 2)).

Definition primes : list Z :=
  Eval vm_compute in map Z.of_nat (List.filter is_prime (seq 2 310)).

(** The integer [k]-th root of [x] by bisection, between [lo] and [hi]. *)
Fixpoint root_go (fuel : nat) (k x lo hi : Z) : Z :=
  match fuel with
  | O => lo
  | S fuel' =>
      let mid := (lo + hi) / 2 in
      if mid ^ k <=? x then root_go fuel' k x mid hi else root_go fuel' k x lo mid
  end.

Definition fraction_bits (k : Z) (p : Z) : Z :=
  root_go 48 k (p * 2 ^ (32 * k)) 0 (2 ^ 40) mod 2 ^ 32.

Definition K : list Z := Eval vm_compute in map (fraction_bits 3) primes.

Definition H0 : list Z := Eval vm_compute in map (fraction_bits 2) (take 8 primes).

Definition word (i : nat) (ws : list Z) : Z := nth i ws 0.

(** One round.  [win] holds the sixteen schedule words from the current one
    on; the next schedule word is appended as the window slides. *)
Definition round (k : Z) (sw : list Z * list Z) : list Z * list Z :=
  let '(s, win) := sw in
  let t1 := add32 (add32 (add32 (add32 (word 7 s) (Sigma1 (word 4 s)))
                                 (Ch (word 4 s) (word 5 s) (word 6 s)))
                          k) (word 0 win) in
  let t2 := add32 (Sigma0 (word 0 s)) (Maj (word 0 s) (word 1 s) (word 2 s)) in
  let next := add32 (add32 (add32 (sigma1 (word 14 win)) (word 9 win))
                           (sigma0 (word 1 win))) (word 0 win) in
  ([ add32 t1 t2; word 0 s; word 1 s; word 2 s;
     add32 (word 3 s) t1; word 4 s; word 5 s; word 6 s ],
   tl win ++ [next]).

Fixpoint be_words (bs : list Z) : list Z :=
  match bs with
  | a :: b :: c :: d :: rest =>
      (a * 2 ^ 24 + b * 2 ^ 16 + c * 2 ^ 8 + d) :: be_words rest
  | _ => []
  end.

Definition compress (s : list Z) (block : list Z) : list Z :=
  let '(s', _) := fold_left (fun sw k => round k sw) K (s, be_words block) in
  zip_with add32 s s'.

Fixpoint blocks (n : nat) (s : list Z) (bs : list Z) : list Z :=
  match n with
  | O => s
  | S n' => blocks n' (compress s (take 64 bs)) (drop 64 bs)
  end.

Definition be_bytes (width : nat) (x : Z) : list Z :=
  map (fun i => (x / 2 ^ (8 * Z.of_nat i)) mod 256) (rev (seq 0 width)).

(** The message, the byte 0x80, zeros up to 56 modulo 64, and the length in
    bits on eight bytes. *)
Definition pad (msg : list Z) : list Z :=
  let l := Z.of_nat (length msg) in
  msg ++ [128] ++ repeat 0 (Z.to_nat ((55 - l) mod 64)) ++ be_bytes 8 (8 * l).

Definition digest (data : list Byte.byte) : list Z :=
  let padded := pad (map (fun b => Z.of_N (Byte.to_N b)) data) in
  blocks (length padded / 64) H0 padded.

Definition hex_digit (d : Z) : ascii :=
  if d <? 10 then ascii_of_N (Z.to_N (48 + d)) else ascii_of_N (Z.to_N (87 + d)).

Definition hex_byte (b : Z) : string :=
  String (hex_digit (b / 16)) (String (hex_digit (b mod 16)) EmptyString).

(** [hashlib.sha256(data).hexdigest()] *)
Definition hexdigest (data : list Byte.byte) : string :=
  fold_right (fun b acc => hex_byte b +:+ acc) EmptyString
             (flat_map (be_bytes 4) (digest data)).

End Sha256.

(** ** The methods of [USBCableTester] *)

Definition TEST_FILE_SIZE : Z := 1024 * 1024.
Definition TEST_CYCLES : nat := 5.

(** [run_cmd(cmd, timeout, check)]; [o] is what [subprocess.run] does with
    the command. *)
Definition run_cmd (o : run_outcome) (cmd : string) (timeout : Z) (check : bool)
  : M CompletedProcess :=
  issue cmd ;;
  match o with
  | Exited rc out err =>
      let result := {| args := cmd; returncode := rc; stdout := out; stderr := err |} in
      (if check && negb (rc =? 0)
       then log ("Command error: " +:+ cmd +:+ Py.nl +:+ err) "FAIL"
       else mret tt) ;;
      mret result
  | TimeoutExpired =>
      log ("Timeout: " +:+ cmd) "FAIL" ;;
      mret {| args := cmd; returncode := 1; stdout := ""; stderr := "Timeout" |}
  end.

(** The value [run_cmd] hands back for an outcome. *)
Definition completed (o : run_outcome) (cmd : string) : CompletedProcess :=
  match o with
  | Exited rc out err => {| args := cmd; returncode := rc; stdout := out; stderr := err |}
  | TimeoutExpired => {| args := cmd; returncode := 1; stdout := ""; stderr := "Timeout" |}
  end.

Definition kill_gvfs (W : World) : M unit :=
  run_cmd (pkill_monitor W) "pkill -f gvfs-mtp-volume-monitor 2>/dev/null" 15 false ;;
  run_cmd (pkill_daemon W) "pkill -f gvfsd-mtp 2>/dev/null" 15 false ;;
  mret tt.

(** The branch of [detect_usb_version] taken on a match: [ver] is group 1. *)
Definition classify_version (ver : string) : ProbeResult :=
  if Py.startswith "2." ver then
    {| value := "USB 2.0"; status := "⭐ (1/3)" |}
  else if Py.contains "3.2" ver || Py.contains "3.20" ver then
    {| value := "USB 3.2 Gen 2x2"; status := "⭐⭐⭐ (3/3)" |}
  else if Py.contains "3.1" ver || Py.contains "3.10" ver then
    {| value := "USB 3.2 Gen 2"; status := "⭐⭐ (2/3)" |}
  else if Py.contains "3.0" ver then
    {| value := "USB 3.2 Gen 1"; status := "⭐⭐ (2/3)" |}
  else
    {| value := "USB " +:+ ver; status := "⚠️" |}.

Definition detect_usb_version (W : World) : M ProbeResult :=
  log "Scanning USB version..." "INFO" ;;
  p ← run_cmd (lsusb_bcd W) "lsusb -v 2>/dev/null | grep -E 'bcdUSB' | tail -3" 15 false;
  let lsusb := stdout p in
  match search_bcdUSB lsusb with
  | Some ver =>
      let r := classify_version ver in
      log ("USB: " +:+ value r +:+ " " +:+ status r) "PASS" ;;
      store "usb_version" r ;;
      mret r
  | None =>
      let r := {| value := "Unknown"; status := "❓" |} in
      store "usb_version" r ;;
      mret r
  end.

Definition bus_dir (d : string) : bool :=
  Py.startswith "1-" d || Py.startswith "2-" d ||
  Py.startswith "3-" d || Py.startswith "4-" d.

Definition usb_devices (W : World) : list string :=
  take 5 (flat_map (fun '(root, dirs) =>
                      map (fun d => root +:+ "/" +:+ d) (filter bus_dir dirs))
                   (sysfs_walk W)).

(** The loop over the candidate devices: the first readable [power/control]
    that says "on" wins; a missing directory or a failed read moves on. *)
Fixpoint scan_power (W : World) (devices : list string) : ProbeResult :=
  match devices with
  | [] => {| value := "500mA"; status := "⭐ (1/3)" |}
  | device_path :: rest =>
      let power_dir := device_path +:+ "/power" in
      if sysfs_exists W power_dir then
        match sysfs_read W (power_dir +:+ "/control") with
        | Some text =>
            if Py.contains "on" (Py.lower (Py.strip text))
            then {| value := "900mA"; status := "⭐⭐ (2/3)" |}
            else scan_power W rest
        | None => scan_power W rest
        end
      else scan_power W rest
  end.

Definition detect_power_sysfs (W : World) : M ProbeResult :=
  log "Checking power delivery..." "INFO" ;;
  let r := scan_power W (usb_devices W) in
  log ("Power: " +:+ value r +:+ " " +:+ status r) "PASS" ;;
  store "power" r ;;
  mret r.

Definition errors : list string := ["disconnect"; "reset"; "over_current"; "error"].

(** The polling loop, one iteration per answer of the window. *)
Fixpoint poll_dmesg (base_dmesg : string) (polls : list run_outcome) (error_count : Z)
  : M Z :=
  match polls with
  | [] => mret error_count
  | o :: later =>
      p ← run_cmd o "dmesg | tail -5 | grep -i usb" 15 false;
      let current := Py.lower (stdout p) in
      let fresh := filter (fun error =>
                             Py.contains error current &&
                             negb (Py.contains error base_dmesg)) errors in
      poll_dmesg base_dmesg later (error_count + Z.of_nat (length fresh))
  end.

Definition usb_stability_test (W : World) : M ProbeResult :=
  log "USB stability test (5s)..." "INFO" ;;
  p ← run_cmd (dmesg_base W) "dmesg | tail -10 | grep -i usb" 15 false;
  let base_dmesg := Py.lower (stdout p) in
  error_count ← poll_dmesg base_dmesg (dmesg_polls W) 0;
  let stability :=
    if error_count =? 0 then "0 Errors" else Py.str error_count +:+ " Errors" in
  let status := if error_count =? 0 then "✅" else "❌" in
  store "stability" {| value := stability; status := status |} ;;
  log ("Stability: " +:+ stability +:+ " " +:+ status) "PASS" ;;
  mret {| value := stability; status := status |}.

Definition check_pinout_data (W : World) : M ProbeResult :=
  log "Checking data pins (D+/D-)..." "INFO" ;;
  p ← run_cmd (lsusb_endpoints W)
        "lsusb -v 2>/dev/null | grep -E 'bEndpointAddress.*(BULK|INTERRUPT)' | tail -5"
        15 false;
  let endpoints := stdout p in
  let pinout_ok := if Py.contains "BULK" endpoints then "OK" else "Power-only?" in
  let status := if Py.contains "BULK" endpoints then "✅" else "⚠️" in
  store "pinout" {| value := pinout_ok; status := status |} ;;
  log ("Data Pins: " +:+ pinout_ok +:+ " " +:+ status) "PASS" ;;
  mret {| value := pinout_ok; status := status |}.

(** [configs], from the command's [stdout] to the parsed count. *)
Definition config_count (out : string) : Z :=
  let configs := Py.strip out in
  if Py.isdigit configs then Py.int configs else 1.

(** The part of [estimate_cable_quality] after the command. *)
Definition quality_of (out : string) : ProbeResult :=
  let configs := config_count out in
  let quality := Py.str configs +:+ " Configs" in
  let status := if configs >=? 2 then "✅" else "⚠️" in
  {| value := quality; status := status |}.

Definition estimate_cable_quality (W : World) : M ProbeResult :=
  log "Analyzing cable quality..." "INFO" ;;
  p ← run_cmd (lsusb_configs W)
        "lsusb -v 2>/dev/null | grep -c 'bConfigurationValue'" 15 false;
  let r := quality_of (stdout p) in
  store "quality" r ;;
  log ("Quality: " +:+ value r +:+ " " +:+ status r) "PASS" ;;
  mret r.

(** [xs[i]] *)
Definition item (xs : list string) (i : nat) : M string :=
  match xs !! i with
  | Some x => mret x
  | None => raise IndexError
  end.

Definition find_mtp_device (W : World) : M (option string) :=
  p ← run_cmd (gio_mounts W) "gio mount -l | grep 'mtp://'" 15 false;
  let gio_mounts := stdout p in
  if decide (gio_mounts = "") then
    log "No MTP device found" "WARN" ;;
    mret None
  else
    after ← item (Py.split "mtp://" gio_mounts) 1;
    quoted ← item (Py.split "'" after) 0;
    first ← item (Py.split_ws quoted) 0;
    let device_path := Py.rstrip_slash first in
    log ("MTP device: mtp://" +:+ device_path) "PASS" ;;
    mret (Some device_path).

(** *** The speed test *)

Definition write_file (path : string) (data : list Byte.byte) : M unit :=
  f ← get_fs; set_fs (<[path := data]> f).

(** What a copy command leaves at its local destination. *)
Definition deliver (path : string) (content : option (list Byte.byte)) : M unit :=
  match content with
  | Some data => write_file path data
  | None => mret tt
  end.

(** [if os.path.exists(f): os.unlink(f)] *)
Definition unlink_if_exists (path : string) : M unit :=
  f ← get_fs;
  match f !! path with
  | Some _ => set_fs (delete path f)
  | None => mret tt
  end.

Definition test_file_name (W : World) (i : nat) : string :=
  "/tmp/test_" +:+ Py.str (stamp W i) +:+ "_" +:+ Py.str (Z.of_nat i) +:+ ".bin".

(** [TEST_FILE_SIZE / (time.time() - start) / 1024 / 1024 * 8]; dividing by
    a zero float raises. *)
Definition speed_of (dt : float) : M float :=
  if (dt =? 0)%float then raise ZeroDivisionError
  else mret (PyFloat.of_int TEST_FILE_SIZE / dt / 1024 / 1024 * 8)%float.

(** The body of [for i in range(self.TEST_CYCLES)]; the accumulator is
    [(success, speeds)]. *)
Definition cycle (W : World) (full_path : string) (i : nat) (acc : Z * list float)
  : M (Z * list float) :=
  let '(success, speeds) := acc in
  let test_file := test_file_name W i in
  let data := urandom W i in
  let expected_hash := Sha256.hexdigest data in
  write_file test_file data ;;
  up ← run_cmd (upload W i)
         ("gio copy '" +:+ test_file +:+ "' '" +:+ full_path +:+ "/'") 30 true;
  acc' ← (if returncode up =? 0 then
            let filename := Py.basename test_file in
            run_cmd (download W i)
              ("gio copy '" +:+ full_path +:+ "/" +:+ filename +:+ "' '" +:+
               test_file +:+ ".check'") 30 false ;;
            deliver (test_file +:+ ".check") (fetched W i) ;;
            f ← get_fs;
            acc' ← match f !! (test_file +:+ ".check") with
                   | Some content =>
                       let actual_hash := Sha256.hexdigest content in
                       if decide (expected_hash = actual_hash) then
                         speed ← speed_of (elapsed W i);
                         mret (success + 1, speeds ++ [speed])
                       else mret acc
                   | None => mret acc
                   end;
            run_cmd (removal W i)
              ("gio remove '" +:+ full_path +:+ "/" +:+ filename +:+ "'") 15 false ;;
            mret acc'
          else mret acc);
  unlink_if_exists test_file ;;
  unlink_if_exists (test_file +:+ ".check") ;;
  mret acc'.

Fixpoint cycles (W : World) (full_path : string) (range : list nat)
  (acc : Z * list float) : M (Z * list float) :=
  match range with
  | [] => mret acc
  | i :: later => acc' ← cycle W full_path i acc; cycles W full_path later acc'
  end.

(** [sum(speeds)/len(speeds) if speeds else 0] *)
Definition average (speeds : list float) : float :=
  match speeds with
  | [] => 0%float
  | _ => (PyFloat.sum speeds / PyFloat.of_int (Z.of_nat (length speeds)))%float
  end.

Definition speed_rating (avg_speed : float) : string :=
  if (400 <? avg_speed)%float then "⭐⭐⭐ (3/3)"
  else if (200 <? avg_speed)%float then "⭐⭐ (2/3)"
  else if (50 <? avg_speed)%float then "⭐ (1/3)"
  else "⚠️".

(** The lines after the loop: from [(success, speeds)] to the result. *)
Definition speed_result (acc : Z * list float) : ProbeResult :=
  let '(success, speeds) := acc in
  let avg_speed := average speeds in
  let speed_str :=
    PyFloat.format_0f avg_speed +:+ "Mbps (" +:+ Py.str success +:+ "/5)" in
  {| value := speed_str; status := speed_rating avg_speed |}.

Definition transfer_speed_test (W : World) (device_name : string) : M ProbeResult :=
  log "Transfer speed test..." "INFO" ;;
  let root_folder := "Interner%20gemeinsamer%20Speicher" in
  let test_folder := "DCIM" in
  let full_path := "mtp://" +:+ device_name +:+ "/" +:+ root_folder +:+ "/" +:+ test_folder in
  acc ← cycles W full_path (seq 0 TEST_CYCLES) (0, []);
  let r := speed_result acc in
  store "speed" r ;;
  log ("Speed: " +:+ value r +:+ " " +:+ status r) "PASS" ;;
  mret r.

(** [f"{speeds[-1]:.0f}Mbps" if speeds else "FAIL"] *)
Definition speed_display (speeds : list float) : string :=
  match last speeds with
  | Some speed => PyFloat.format_0f speed +:+ "Mbps"
  | None => "FAIL"
  end.

(** What the loop prints, one line per cycle: the counter [f"  {i+1}/5 "]
    at the start of the cycle, completed by [speed_display] at its end. *)
Fixpoint progress (W : World) (full_path : string) (range : list nat)
  (acc : Z * list float) : M (list string) :=
  match range with
  | [] => mret []
  | i :: later =>
      acc' ← cycle W full_path i acc;
      let line := "  " +:+ Py.str (Z.of_nat i + 1) +:+ "/5 " +:+ speed_display (snd acc') in
      lines ← progress W full_path later acc';
      mret (line :: lines)
  end.

(** *** The report *)

(** The colour codes: colorama's [Fore] when it can be imported, the
    [DummyColor] of the source otherwise. *)
Record Palette := {
  GREEN : string;
  RED : string;
  YELLOW : string;
  CYAN : string;
  RESET : string
}.

Definition DummyColor : Palette :=
  {| GREEN := ""; RED := ""; YELLOW := ""; CYAN := ""; RESET := "" |}.

(** Modelled from colorama's AnsiFore codes (the package is not part of the
    repository). *)
Definition colorama : Palette :=
  {| GREEN := Py.esc +:+ "[32m"; RED := Py.esc +:+ "[31m";
     YELLOW := Py.esc +:+ "[33m"; CYAN := Py.esc +:+ "[36m";
     RESET := Py.esc +:+ "[39m" |}.

(** *** The lines of [log]

    [log] looks its status tag up in a table of emoji, prints a line with
    the time stamp in cyan and appends the same line, without the colour
    codes, to the log file.  The time stamp is what
    [datetime.now().strftime] returned. *)
Definition emojis : gmap string string :=
  list_to_map [ ("PASS", "✅ "); ("FAIL", "❌ "); ("WARN", "⚠️  "); ("INFO", "ℹ️  ") ].

(** [{...}.get(status, default)] *)
Definition emoji (status : string) : string := default "➡️ " (emojis !! status).

Definition colored_msg (Fore : Palette) (timestamp message status : string) : string :=
  CYAN Fore +:+ "[" +:+ timestamp +:+ "]" +:+ RESET Fore +:+ " " +:+
  emoji status +:+ message.

(** The line written to the log file. *)
Definition log_line (timestamp message status : string) : string :=
  "[" +:+ timestamp +:+ "] " +:+ emoji status +:+ message +:+ Py.nl.

Definition _format_status (Fore : Palette) (status : string) : string :=
  if decide (status = "⭐⭐⭐ (3/3)") then YELLOW Fore +:+ "⭐⭐⭐ (3/3)" +:+ RESET Fore
  else if decide (status = "⭐⭐ (2/3)") then YELLOW Fore +:+ "⭐⭐ (2/3)" +:+ RESET Fore
  else if decide (status = "⭐ (1/3)") then YELLOW Fore +:+ "⭐ (1/3)" +:+ RESET Fore
  else if decide (status = "✅") then GREEN Fore +:+ "✅" +:+ RESET Fore
  else if decide (status = "⚠️") then YELLOW Fore +:+ "⚠️" +:+ RESET Fore
  else if decide (status = "❌") then RED Fore +:+ "❌" +:+ RESET Fore
  else if decide (status = "❓") then YELLOW Fore +:+ "❓" +:+ RESET Fore
  else status.

Definition _strip_ansi (text : string) : string := Py.erase_go match_ansi O text.

Definition widths : gmap string Z :=
  list_to_map [ ("✅", 2); ("⚠️", 1); ("❌", 2); ("❓", 2);
                ("⭐ (1/3)", 8); ("⭐⭐ (2/3)", 10); ("⭐⭐⭐ (3/3)", 12) ].

Definition _get_status_width (status : string) : Z :=
  let clean := _strip_ansi status in
  default (Py.len clean) (widths !! clean).

Definition passing : list string := ["✅"; "⭐ (1/3)"; "⭐⭐ (2/3)"; "⭐⭐⭐ (3/3)"].

(** [self.test_results[key]] *)
Definition result_of (key : string) : M ProbeResult := fun st =>
  match test_results st !! key with
  | Some r => Ok (r, st)
  | None => Raise (KeyError key)
  end.

(** The list [tests]: parameter label, value, status. *)
Definition tests : M (list (string * string * string)) :=
  v ← result_of "usb_version";
  p ← result_of "power";
  s ← result_of "speed";
  t ← result_of "stability";
  d ← result_of "pinout";
  q ← result_of "quality";
  mret [ ("USB Version", value v, status v);
         ("Power Delivery", value p, status p);
         ("Data Speed", value s, status s);
         ("Stability", value t, status t);
         ("Data Pins (D+/D-)", value d, status d);
         ("Cable Quality", value q, status q) ].

Definition param_width : Z := 20.
Definition value_width : Z := 20.
Definition status_width : Z := 12.

Definition top_border : string :=
  "┌──────────────────────┬──────────────────────┬──────────────┐".
Definition separator : string :=
  "├──────────────────────┼──────────────────────┼──────────────┤".
Definition bottom_border : string :=
  "└──────────────────────┴──────────────────────┴──────────────┘".
Definition rule : string :=
  "============================================================".

Definition header : string :=
  "│ " +:+ Py.ljust param_width "PARAMETER" +:+ " │ " +:+
  Py.ljust value_width "RESULT" +:+ " │ " +:+
  Py.ljust status_width "STATUS" +:+ " │".

Definition table_row (param value formatted_status : string) (visual_width : Z) : string :=
  let padding := Py.blanks (status_width - visual_width) in
  "│ " +:+ Py.ljust param_width param +:+ " │ " +:+
  Py.ljust value_width value +:+ " │ " +:+ formatted_status +:+ padding +:+ " │".

(** A row of the console table. *)
Definition console_row (Fore : Palette) (t : string * string * string) : string :=
  let '(param, value, status) := t in
  let formatted_status := _format_status Fore status in
  let clean_status := _strip_ansi formatted_status in
  table_row param value formatted_status (_get_status_width clean_status).

(** The status as the log file's copy of the table shows it: formatted, then
    [.replace(Fore.YELLOW, "").replace(Fore.GREEN, "").replace(Fore.RED, "")
    .replace(Fore.RESET, "")]. *)
Definition plain_status (Fore : Palette) (status : string) : string :=
  Py.remove (RESET Fore) (Py.remove (RED Fore) (Py.remove (GREEN Fore)
    (Py.remove (YELLOW Fore) (_format_status Fore status)))).

(** A row of the log file's copy, colour codes removed. *)
Definition log_row (Fore : Palette) (t : string * string * string) : string :=
  let '(param, value, status) := t in
  let formatted_status := plain_status Fore status in
  table_row param value formatted_status (_get_status_width formatted_status).

(** [passed_count] after the loop over [tests]. *)
Definition count_passed (ts : list (string * string * string)) : Z :=
  fold_left (fun passed_count '(_, _, status) =>
               if bool_decide (status ∈ passing) then passed_count + 1 else passed_count)
            ts 0.

(** [(passed_count / 6) * 100] *)
Definition percentage_of (passed_count : Z) : float :=
  (PyFloat.of_int passed_count / 6 * 100)%float.

(** The lines of the [if percentage >= 85: ... elif ... else ...]. *)
Definition verdict (Fore : Palette) (percentage : float) : list string :=
  if (85 <=? percentage)%float then
    [GREEN Fore +:+ "🎖️ USB-IF PREMIUM CERTIFIED" +:+ RESET Fore]
  else if (67 <=? percentage)%float then
    [YELLOW Fore +:+ "⭐ USB CERTIFIED" +:+ RESET Fore]
  else
    [RED Fore +:+ "⚠️ POWER-ONLY CABLE DETECTED" +:+ RESET Fore;
     "   → RECOMMENDED: USB-IF certified cables"].

Record Report := {
  passed_count : Z;
  percentage : float;
  console : list string;
  logfile : list string
}.

Definition overall (passed_count : Z) (percentage : float) : string :=
  "OVERALL: " +:+ Py.str passed_count +:+ "/6 TESTS PASSED (" +:+
  PyFloat.format_0f percentage +:+ "%)".

Definition print_perfect_table (Fore : Palette) : M Report :=
  ts ← tests;
  let passed_count := count_passed ts in
  let percentage := percentage_of passed_count in
  mret {| passed_count := passed_count;
          percentage := percentage;
          console :=
            [Py.nl +:+ rule; "🏆 USB-A ↔  C CERTIFICATION TEST"; rule;
             top_border; header; separator] ++
            map (console_row Fore) ts ++
            [bottom_border; Py.nl +:+ "📊 " +:+ overall passed_count percentage] ++
            verdict Fore percentage;
          logfile :=
            [Py.nl +:+ rule; "USB-A ↔  C CERTIFICATION TEST"; rule;
             top_border; header; separator] ++
            map (log_row Fore) ts ++
            [bottom_border; overall passed_count percentage] |}.

(** *** The whole run *)

Definition unavailable : ProbeResult := {| value := "No MTP"; status := "❓" |}.

(** [run_complete_test]; the banner lines and the wait for ENTER leave no
    trace in the tester. *)
Definition run_complete_test (W : World) (Fore : Palette) : M Report :=
  truncate_log ;;
  detect_usb_version W ;;
  detect_power_sysfs W ;;
  usb_stability_test W ;;
  check_pinout_data W ;;
  estimate_cable_quality W ;;
  kill_gvfs W ;;
  device_name ← find_mtp_device W;
  match device_name with
  | Some name =>
      if decide (name = "") then store "speed" unavailable
      else transfer_speed_test W name ;; mret tt
  | None => store "speed" unavailable
  end ;;
  print_perfect_table Fore.

(** [main]: a fresh tester runs the complete test. *)
Definition main (W : World) (Fore : Palette) : Result (Report * Tester) :=
  run_complete_test W Fore init.

(** ** Vocabulary of the statements *)

(** The seven status strings of the source. *)
Definition statuses : list string :=
  ["✅"; "❌"; "⚠️"; "❓"; "⭐ (1/3)"; "⭐⭐ (2/3)"; "⭐⭐⭐ (3/3)"].

(** The six keys of [test_results]. *)
Definition metric_keys : list string :=
  ["usb_version"; "power"; "speed"; "stability"; "pinout"; "quality"].

(** The [stdout] that [run_cmd] hands back for an outcome. *)
Definition output (o : run_outcome) : string := stdout (completed o "").

(** The exit code that [run_cmd] hands back for an outcome. *)
Definition exit_code (o : run_outcome) : Z := returncode (completed o "").

(** The lines [run_cmd] logs for an outcome. *)
Definition complaints (o : run_outcome) (cmd : string) (check : bool)
  : list (string * string) :=
  match o with
  | Exited rc _ err =>
      if check && negb (rc =? 0)
      then [("FAIL", "Command error: " +:+ cmd +:+ Py.nl +:+ err)] else []
  | TimeoutExpired => [("FAIL", "Timeout: " +:+ cmd)]
  end.

(** The version result for a bus listing: the classified first match of the
    bcdUSB pattern, or "Unknown". *)
Definition version_of (lsusb : string) : ProbeResult :=
  match search_bcdUSB lsusb with
  | Some ver => classify_version ver
  | None => {| value := "Unknown"; status := "❓" |}
  end.

(** What device discovery returns in a world (it does not depend on the
    tester it starts from). *)
Definition discovered (W : World) : Result (option string) :=
  match find_mtp_device W init with
  | Ok (device, _) => Ok device
  | Raise e => Raise e
  end.

(** A step that leaves the dict and its assignment trace alone. *)
Definition same_record (st st' : Tester) : Prop :=
  test_results st' = test_results st /\ assigned st' = assigned st.

(** A step that assigns [r] to [key], once, and nothing else. *)
Definition stores (key : string) (r : ProbeResult) (st st' : Tester) : Prop :=
  test_results st' = <[key := r]> (test_results st) /\
  assigned st' = assigned st ++ [key] /\
  fs st' = fs st.

(** The path the download of cycle [i] writes to. *)
Definition check_file_name (W : World) (i : nat) : string :=
  test_file_name W i +:+ ".check".

(** The integrity check of cycle [i] read off the world: the upload exits
    with 0, the download leaves a file, and its digest is the digest of the
    bytes sent. *)
Definition cycle_ok (W : World) (i : nat) : bool :=
  (exit_code (upload W i) =? 0) &&
  match fetched W i with
  | Some content =>
      bool_decide (Sha256.hexdigest (urandom W i) = Sha256.hexdigest content)
  | None => false
  end.

(** The three commands of cycle [i]. *)
Definition upload_cmd (W : World) (full_path : string) (i : nat) : string :=
  "gio copy '" +:+ test_file_name W i +:+ "' '" +:+ full_path +:+ "/'".

Definition download_cmd (W : World) (full_path : string) (i : nat) : string :=
  "gio copy '" +:+ full_path +:+ "/" +:+ Py.basename (test_file_name W i) +:+
  "' '" +:+ test_file_name W i +:+ ".check'".

Definition remove_cmd (W : World) (full_path : string) (i : nat) : string :=
  "gio remove '" +:+ full_path +:+ "/" +:+ Py.basename (test_file_name W i) +:+ "'".

(** What is at the check path of cycle [i] when the hash is taken: the file
    the download left, or else whatever was there before. *)
Definition downloaded (W : World) (i : nat) (st : Tester) : option (list Byte.byte) :=
  match fetched W i with
  | Some content => Some content
  | None => fs st !! check_file_name W i
  end.

(** The tester after cycle [i]: the commands issued and the lines logged
    for them, and both temp files gone. *)
Definition after_cycle (W : World) (full_path : string) (i : nat) (st : Tester) : Tester :=
  let ran := exit_code (upload W i) =? 0 in
  {| test_results := test_results st;
     assigned := assigned st;
     journal :=
       journal st ++ complaints (upload W i) (upload_cmd W full_path i) true ++
       (if ran then
          complaints (download W i) (download_cmd W full_path i) false ++
          complaints (removal W i) (remove_cmd W full_path i) false
        else []);
     issued :=
       issued st ++ upload_cmd W full_path i ::
       (if ran then [download_cmd W full_path i; remove_cmd W full_path i] else []);
     fs := delete (check_file_name W i) (delete (test_file_name W i) (fs st)) |}.

(** The speed a cycle reports when the division is defined. *)
Definition cycle_speed (W : World) (i : nat) : float :=
  (PyFloat.of_int TEST_FILE_SIZE / elapsed W i / 1024 / 1024 * 8)%float.

(** The world [W] with another answer for what the download of cycle [i]
    leaves behind. *)
Definition with_fetched (W : World) (i : nat) (content : option (list Byte.byte)) : World :=
  {| lsusb_bcd := lsusb_bcd W; sysfs_walk := sysfs_walk W;
     sysfs_exists := sysfs_exists W; sysfs_read := sysfs_read W;
     dmesg_base := dmesg_base W; dmesg_polls := dmesg_polls W;
     lsusb_endpoints := lsusb_endpoints W; lsusb_configs := lsusb_configs W;
     pkill_monitor := pkill_monitor W; pkill_daemon := pkill_daemon W;
     gio_mounts := gio_mounts W;
     stamp := stamp W; urandom := urandom W; upload := upload W;
     download := download W;
     fetched := fun j => if decide (j = i) then content else fetched W j;
     elapsed := elapsed W; removal := removal W |}.

(** The world [W] with another answer of [gio mount -l | grep 'mtp://']. *)
Definition with_gio_mounts (W : World) (o : run_outcome) : World :=
  {| lsusb_bcd := lsusb_bcd W; sysfs_walk := sysfs_walk W;
     sysfs_exists := sysfs_exists W; sysfs_read := sysfs_read W;
     dmesg_base := dmesg_base W; dmesg_polls := dmesg_polls W;
     lsusb_endpoints := lsusb_endpoints W; lsusb_configs := lsusb_configs W;
     pkill_monitor := pkill_monitor W; pkill_daemon := pkill_daemon W;
     gio_mounts := o;
     stamp := stamp W; urandom := urandom W; upload := upload W;
     download := download W; fetched := fetched W;
     elapsed := elapsed W; removal := removal W |}.

(** The outcome of a step, without the tester it leaves. *)
Definition outcome {A} (r : Result (A * Tester)) : Result A :=
  match r with
  | Ok (a, _) => Ok a
  | Raise e => Raise e
  end.

(** The error words one poll adds to the count: those found in its output
    and not in the baseline. *)
Definition fresh_errors (base_dmesg : string) (o : run_outcome) : list string :=
  filter (fun error => Py.contains error (Py.lower (output o)) &&
                       negb (Py.contains error base_dmesg)) errors.

(** The stability result for an error count. *)
Definition stability_of (error_count : Z) : ProbeResult :=
  {| value := if error_count =? 0 then "0 Errors" else Py.str error_count +:+ " Errors";
     status := if error_count =? 0 then "✅" else "❌" |}.

(** The error count of a world: the fresh words of all its polls. *)
Definition stability_count (W : World) : Z :=
  Z.of_nat (length (flat_map (fresh_errors (Py.lower (output (dmesg_base W))))
                             (dmesg_polls W))).

(** A candidate device whose [power/control] exists, can be read and says
    "on". *)
Definition power_on (W : World) (device_path : string) : bool :=
  let power_dir := device_path +:+ "/power" in
  sysfs_exists W power_dir &&
  match sysfs_read W (power_dir +:+ "/control") with
  | Some text => Py.contains "on" (Py.lower (Py.strip text))
  | None => false
  end.

(** The pinout result for the endpoint listing. *)
Definition pinout_of (endpoints : string) : ProbeResult :=
  {| value := if Py.contains "BULK" endpoints then "OK" else "Power-only?";
     status := if Py.contains "BULK" endpoints then "✅" else "⚠️" |}.

(** A text the bcdUSB pattern could still grow into: the keyword, then
    blanks to the end. *)
Definition open_match (s : string) : bool :=
  Py.startswith "bcdUSB" s && Py.forallb_str Py.is_space (Py.drop 6 s).

Definition is_quote (c : ascii) : bool := (Py.code c =? 39)%N.

Definition is_slash (c : ascii) : bool := (Py.code c =? 47)%N.

(** A text that stays one piece inside single quotes in a shell command:
    no blank and no single quote. *)
Definition bare_word (s : string) : bool :=
  Py.forallb_str (fun c => negb (Py.is_space c) && negb (is_quote c)) s.

(** The host part of an MTP URI as the mount list shows it: no blank, no
    single quote and no slash. *)
Definition host_name (s : string) : bool :=
  Py.forallb_str (fun c => negb (Py.is_space c) && negb (is_quote c) && negb (is_slash c)) s.

(** The folder the speed test copies to on a device. *)
Definition speed_path (device_name : string) : string :=
  "mtp://" +:+ device_name +:+ "/" +:+ "Interner%20gemeinsamer%20Speicher" +:+ "/" +:+ "DCIM".

(** The commands cycle [i] hands to the shell. *)
Definition cycle_commands (W : World) (full_path : string) (i : nat) : list string :=
  upload_cmd W full_path i ::
  (if exit_code (upload W i) =? 0
   then [download_cmd W full_path i; remove_cmd W full_path i] else []).

(** A cycle that verifies while the clock has not advanced: its speed is a
    division by zero. *)
Definition stalls (W : World) (i : nat) : bool :=
  cycle_ok W i && (elapsed W i =? 0)%float.

(** The progress line of cycle [i] once the counted speeds are [speeds]. *)
Definition progress_line (i : nat) (speeds : list float) : string :=
  "  " +:+ Py.str (Z.of_nat i + 1) +:+ "/5 " +:+ speed_display speeds.

(** A text without the escape character. *)
Definition esc_free (s : string) : bool :=
  Py.forallb_str (fun c => negb (Py.code c =? 27)%N) s.

(** A metric key the record does not hold. *)
Definition missing (st : Tester) (key : string) : bool :=
  bool_decide (test_results st !! key = None).

(** The rows of the table for six results. *)
Definition rows_of (v p s t d q : ProbeResult) : list (string * string * string) :=
  [ ("USB Version", value v, status v);
    ("Power Delivery", value p, status p);
    ("Data Speed", value s, status s);
    ("Stability", value t, status t);
    ("Data Pins (D+/D-)", value d, status d);
    ("Cable Quality", value q, status q) ].

(** The record after the five unconditional probes, over what it held. *)
Definition five_probes (W : World) (held : gmap string ProbeResult)
  : gmap string ProbeResult :=
  <["quality" := quality_of (output (lsusb_configs W))]>
  (<["pinout" := pinout_of (output (lsusb_endpoints W))]>
  (<["stability" := stability_of (stability_count W)]>
  (<["power" := scan_power W (usb_devices W)]>
  (<["usb_version" := version_of (output (lsusb_bcd W))]> held)))).

(** The commands of a run up to device discovery, in the order issued. *)
Definition probe_commands (W : World) : list string :=
  ["lsusb -v 2>/dev/null | grep -E 'bcdUSB' | tail -3";
   "dmesg | tail -10 | grep -i usb"] ++
  repeat "dmesg | tail -5 | grep -i usb" (length (dmesg_polls W)) ++
  ["lsusb -v 2>/dev/null | grep -E 'bEndpointAddress.*(BULK|INTERRUPT)' | tail -5";
   "lsusb -v 2>/dev/null | grep -c 'bConfigurationValue'";
   "pkill -f gvfs-mtp-volume-monitor 2>/dev/null";
   "pkill -f gvfsd-mtp 2>/dev/null"].

(** [run_complete_test] from the discovery step on. *)
Definition finish (W : World) (Fore : Palette) : M Report :=
  device_name ← find_mtp_device W;
  match device_name with
  | Some name =>
      if decide (name = "") then store "speed" unavailable
      else transfer_speed_test W name ;; mret tt
  | None => store "speed" unavailable
  end ;;
  print_perfect_table Fore.

(** A run from a fresh tester that ends with the sentinel under "speed". *)
Definition ends_without_speed (W : World) (Fore : Palette) : Prop :=
  exists rep st,
    main W Fore = Ok (rep, st) /\
    print_perfect_table Fore st = Ok (rep, st) /\
    test_results st = <["speed" := unavailable]> (five_probes W ∅) /\
    issued st = probe_commands W ++ ["gio mount -l | grep 'mtp://'"].

(** The lines a run can log: progress and results, the missing-device
    warning, and the two complaints of [run_cmd]. *)
Definition known_line (line : string * string) : Prop :=
  let '(tag, message) := line in
  tag = "INFO" \/ tag = "PASS" \/
  (tag = "WARN" /\ message = "No MTP device found") \/
  (tag = "FAIL" /\
   exists cmd, message = "Timeout: " +:+ cmd \/
               exists err, message = "Command error: " +:+ cmd +:+ Py.nl +:+ err).

(** A step that only adds such lines to the log. *)
Definition logs_known (st st' : Tester) : Prop :=
  exists lines, journal st' = journal st ++ lines /\ Forall known_line lines.

(** The world [W] with other kernel messages. *)
Definition with_dmesg (W : World) (base : run_outcome) (polls : list run_outcome) : World :=
  {| lsusb_bcd := lsusb_bcd W; sysfs_walk := sysfs_walk W;
     sysfs_exists := sysfs_exists W; sysfs_read := sysfs_read W;
     dmesg_base := base; dmesg_polls := polls;
     lsusb_endpoints := lsusb_endpoints W; lsusb_configs := lsusb_configs W;
     pkill_monitor := pkill_monitor W; pkill_daemon := pkill_daemon W;
     gio_mounts := gio_mounts W;
     stamp := stamp W; urandom := urandom W; upload := upload W;
     download := download W; fetched := fetched W;
     elapsed := elapsed W; removal := removal W |}.

(** The world [W] with other answers to the uploads. *)
Definition with_upload (W : World) (answers : nat -> run_outcome) : World :=
  {| lsusb_bcd := lsusb_bcd W; sysfs_walk := sysfs_walk W;
     sysfs_exists := sysfs_exists W; sysfs_read := sysfs_read W;
     dmesg_base := dmesg_base W; dmesg_polls := dmesg_polls W;
     lsusb_endpoints := lsusb_endpoints W; lsusb_configs := lsusb_configs W;
     pkill_monitor := pkill_monitor W; pkill_daemon := pkill_daemon W;
     gio_mounts := gio_mounts W;
     stamp := stamp W; urandom := urandom W; upload := answers;
     download := download W; fetched := fetched W;
     elapsed := elapsed W; removal := removal W |}.

(** ** Sample worlds *)

(** The three bytes "sent" in cycle [i]. *)
Definition payload (i : nat) : list Byte.byte :=
  [Byte.x55; default Byte.x00 (Byte.of_N (N.of_nat i)); Byte.xaa].

(** A phone on a working cable.  Cycle 1's upload times out, cycle 2 comes
    back with one byte changed, cycle 3's download leaves no file; cycles 0
    and 4 verify, at 512 and 256 Mbps. *)
Definition bench : World :=
  {| lsusb_bcd :=
       Exited 0 ("  bcdUSB               2.00" +:+ Py.nl +:+
                 "  bcdUSB               3.10" +:+ Py.nl) "";
     sysfs_walk := [("/sys/bus/usb/devices", ["1-1"; "usb1"])];
     sysfs_exists := fun p => bool_decide (p = "/sys/bus/usb/devices/1-1/power");
     sysfs_read := fun p =>
       if decide (p = "/sys/bus/usb/devices/1-1/power/control")
       then Some ("on" +:+ Py.nl) else None;
     dmesg_base := Exited 0 "usb 1-1: new high-speed USB device" "";
     dmesg_polls := repeat (Exited 0 "usb 1-1: new high-speed USB device" "") 8;
     lsusb_endpoints := Exited 0 "bEndpointAddress 0x81 EP 1 IN BULK" "";
     lsusb_configs := Exited 0 ("3" +:+ Py.nl) "";
     pkill_monitor := Exited 1 "" "";
     pkill_daemon := Exited 1 "" "";
     gio_mounts :=
       Exited 0 ("Mount(0): Pixel -> mtp://Google_Pixel_1234/" +:+ Py.nl) "";
     stamp := fun i => 1700000000 + Z.of_nat i;
     urandom := payload;
     upload := fun i => if decide (i = 1%nat) then TimeoutExpired else Exited 0 "" "";
     download := fun _ => Exited 0 "" "";
     fetched := fun i =>
       if decide (i = 2%nat) then Some (payload 7)
       else if decide (i = 3%nat) then None
       else Some (payload i);
     elapsed := fun i => if decide (i = 0%nat) then 0.015625%float else 0.03125%float;
     removal := fun _ => Exited 0 "" "" |}.

(** The folder the speed test copies to on that phone. *)
Definition bench_path : string :=
  "mtp://Google_Pixel_1234/Interner%20gemeinsamer%20Speicher/DCIM".

(** The same machine with no phone mounted: [grep] prints nothing. *)
Definition no_phone : World := with_gio_mounts bench (Exited 1 "" "").

(** The same machine when the mount list holds an MTP URI with nothing after
    the scheme. *)
Definition bare_uri : World :=
  with_gio_mounts bench (Exited 0 ("Mount(0): Phone -> mtp://" +:+ Py.nl) "").

(** A tester whose six probes have reported, five of them passing. *)
Definition five_of_six : Tester :=
  {| test_results :=
       <["usb_version" := {| value := "USB 3.2 Gen 2"; status := "⭐⭐ (2/3)" |}]>
       (<["power" := {| value := "900mA"; status := "⭐⭐ (2/3)" |}]>
       (<["speed" := unavailable]>
       (<["stability" := {| value := "0 Errors"; status := "✅" |}]>
       (<["pinout" := {| value := "OK"; status := "✅" |}]>
       (<["quality" := {| value := "2 Configs"; status := "✅" |}]> ∅)))));
     assigned := []; journal := []; issued := []; fs := ∅ |}.

(** The bench right after the cable was plugged in again: the baseline
    already holds the four error words, and every poll still shows the
    disconnect. *)
Definition replugged : World :=
  with_dmesg bench
    (Exited 0 ("usb 1-1: USB disconnect, device number 4" +:+ Py.nl +:+
               "usb 1-1: reset high-speed USB device number 5" +:+ Py.nl +:+
               "usb usb1-port1: over_current change" +:+ Py.nl +:+
               "usb 1-1: device descriptor read/64, error -71" +:+ Py.nl) "")
    (repeat (Exited 0 "usb 1-1: USB Disconnect, device number 5" "") 8).

(** The bench with a phone that refuses every upload. *)
Definition locked_phone : World :=
  with_upload bench (fun _ => Exited 1 "" "gio: Permission denied").

(** A machine where no command answers in time and sysfs lists nothing. *)
Definition unplugged : World :=
  {| lsusb_bcd := TimeoutExpired;
     sysfs_walk := [("/sys/bus/usb/devices", [])];
     sysfs_exists := fun _ => false;
     sysfs_read := fun _ => None;
     dmesg_base := TimeoutExpired;
     dmesg_polls := repeat TimeoutExpired 2;
     lsusb_endpoints := TimeoutExpired;
     lsusb_configs := TimeoutExpired;
     pkill_monitor := TimeoutExpired;
     pkill_daemon := TimeoutExpired;
     gio_mounts := TimeoutExpired;
     stamp := fun _ => 0;
     urandom := fun _ => [];
     upload := fun _ => TimeoutExpired;
     download := fun _ => TimeoutExpired;
     fetched := fun _ => None;
     elapsed := fun _ => 1%float;
     removal := fun _ => TimeoutExpired |}.

(** A tester whose six probes have reported, four of them passing. *)
Definition four_of_six : Tester :=
  {| test_results :=
       <["usb_version" := {| value := "USB 2.0"; status := "⭐ (1/3)" |}]>
       (<["power" := {| value := "500mA"; status := "⭐ (1/3)" |}]>
       (<["speed" := unavailable]>
       (<["stability" := {| value := "0 Errors"; status := "✅" |}]>
       (<["pinout" := {| value := "Power-only?"; status := "⚠️" |}]>
       (<["quality" := {| value := "2 Configs"; status := "✅" |}]> ∅)))));
     assigned := []; journal := []; issued := []; fs := ∅ |}.

(** * Properties *)

(** ** The embedding on sample inputs *)

Example search_first_match :
  search_bcdUSB ("  bcdUSB               2.00" +:+ Py.nl +:+
                 "  bcdUSB               3.10" +:+ Py.nl) = Some "2.00".
Proof. reflexivity. Qed.

Example search_needs_blank_and_fraction :
  search_bcdUSB "bcdUSB2.00" = None /\ search_bcdUSB "bcdUSB 12." = None /\
  search_bcdUSB "bcdUSB 12.x bcdUSB  3.20" = Some "3.20".
Proof. repeat split. Qed.

Example split_on_scheme :
  Py.split "mtp://" "Mount(0): Pixel -> mtp://Google_Pixel_1234/" =
  ["Mount(0): Pixel -> "; "Google_Pixel_1234/"].
Proof. reflexivity. Qed.

Example split_on_blanks :
  Py.split_ws ("  Google_Pixel_1234/ " +:+ Py.nl) = ["Google_Pixel_1234/"] /\
  Py.split_ws Py.nl = [].
Proof. split; reflexivity. Qed.

Example strip_coloured_status :
  _strip_ansi (Py.esc +:+ "[33m⭐⭐ (2/3)" +:+ Py.esc +:+ "[39m") = "⭐⭐ (2/3)" /\
  _strip_ansi (Py.esc +:+ "[33") = Py.esc +:+ "[33".
Proof. split; reflexivity. Qed.

Example replace_is_leftmost :
  Py.remove "aa" "aaa" = "a" /\ Py.remove "" "abc" = "abc".
Proof. split; reflexivity. Qed.

Example format_rounds_half_to_even :
  PyFloat.format_0f 0.5 = "0" /\ PyFloat.format_0f 1.5 = "2" /\
  PyFloat.format_0f 2.5 = "2" /\ PyFloat.format_0f (100 / 6 * 5) = "83".
Proof. repeat split. Qed.

Example widths_count_code_points :
  Py.len "⭐⭐ (2/3)" = 8 /\ Py.len "⚠️" = 2 /\ String.length "⚠️" = 6%nat.
Proof. repeat split. Qed.

Example discovery_on_the_bench :
  exists st, find_mtp_device bench init = Ok (Some "Google_Pixel_1234", st).
Proof. eexists. vm_compute. reflexivity. Qed.

(** ** SHA-256 on the standard test vectors *)

Example sha256_empty :
  Sha256.hexdigest [] =
  "e3b0c44298fc1c149afbf4c8996fb92427ae41e4649b934ca495991b7852b855".
Proof. vm_compute. reflexivity. Qed.

Example sha256_abc :
  Sha256.hexdigest (String.list_byte_of_string "abc") =
  "ba7816bf8f01cfea414140de5dae2223b00361a396177a9cb410ff61f20015ad".
Proof. vm_compute. reflexivity. Qed.

(** Two blocks: the 56 bytes of the FIPS 180-4 example. *)
Example sha256_two_blocks :
  Sha256.hexdigest
    (String.list_byte_of_string
       "abcdbcdecdefdefgefghfghighijhijkijkljklmklmnlmnomnopnopq") =
  "248d6a61d20638b8e5c026930c3e6039a33ce45964ff2167f6ecedd419db06c1".
Proof. vm_compute. reflexivity. Qed.

Example sha256_round_constants :
  nth 0 Sha256.K 0 = 0x428a2f98 /\ nth 63 Sha256.K 0 = 0xc67178f2 /\
  nth 0 Sha256.H0 0 = 0x6a09e667 /\ nth 7 Sha256.H0 0 = 0x5be0cd19.
Proof. repeat split. Qed.

(** ** Python text primitives *)

Module PyFacts.
Import Py.

Lemma app_cons (c : ascii) (s t : string) : String c s +:+ t = String c (s +:+ t).
Proof. reflexivity. Qed.

Lemma length_app (s t : string) :
  String.length (s +:+ t) = (String.length s + String.length t)%nat.
Proof. induction s as [|c s IH]; [reflexivity|]. rewrite app_cons. cbn. lia. Qed.


Lemma digit_char_is_digit (d : Z) : 0 <= d < 10 -> is_digit (digit_char d) = true.
Proof.
  intros Hd. assert (d = 0 \/ d = 1 \/ d = 2 \/ d = 3 \/ d = 4 \/
                     d = 5 \/ d = 6 \/ d = 7 \/ d = 8 \/ d = 9) as Hcases by lia.
  repeat destruct Hcases as [-> | Hcases]; try subst d; reflexivity.
Qed.


Lemma digits_go_all_digits (fuel : nat) (n : Z) (acc : string) :
  0 <= n -> forallb_str is_digit (digits_go fuel n acc) = forallb_str is_digit acc.
Proof.
  revert n acc. induction fuel as [|fuel IH]; intros n acc Hn; [reflexivity|].
  cbn [digits_go].
  assert (Hd : is_digit (digit_char (n mod 10)) = true)
    by (apply digit_char_is_digit, Z.mod_pos_bound; lia).
  destruct (n <? 10).
  - cbn [forallb_str]. by rewrite Hd.
  - rewrite IH by (apply Z.div_pos; lia). cbn [forallb_str]. by rewrite Hd.
Qed.






Lemma rstrip_by_snoc (p : ascii -> bool) (s : string) (x : ascii) :
  forallb_str (fun c => negb (p c)) s = true -> p x = true ->
  rstrip_by p (s +:+ String x "") = s.
Proof.
  intros Hs Hx. induction s as [|c s IH].
  - change (rstrip_by p (String x "") = ""). cbn. by rewrite Hx.
  - cbn [forallb_str] in Hs. apply andb_true_iff in Hs as [Hc Hs].
    rewrite app_cons. cbn [rstrip_by]. rewrite IH by exact Hs.
    destruct s; [|reflexivity]. by destruct (p c).
Qed.

Lemma forallb_str_impl (p q : ascii -> bool) (s : string) :
  (forall c, p c = true -> q c = true) ->
  forallb_str p s = true -> forallb_str q s = true.
Proof.
  intros Hpq. induction s as [|c s IH]; [done|]. cbn.
  intros [Hc Hs]%andb_true_iff. by rewrite (Hpq c Hc), IH.
Qed.


Lemma prefix_length (a s : string) :
  String.prefix a s = true -> (String.length a <= String.length s)%nat.
Proof.
  revert s. induction a as [|c a IH]; intros s H; [cbn; lia|].
  destruct s as [|c' s]; [discriminate|]. cbn in H.
  destruct (ascii_dec c c'); [|discriminate]. apply IH in H. cbn. lia.
Qed.

Lemma drop_length (n : nat) (s : string) :
  String.length (drop n s) = (String.length s - n)%nat.
Proof.
  revert s. induction n as [|n IH]; intros s; [cbn; lia|].
  destruct s as [|c s]; [reflexivity|]. cbn. apply IH.
Qed.

(** A cut at a non-empty separator leaves a shorter text to split. *)
Lemma partition_shorter (sep s a b : string) :
  sep <> EmptyString -> partition sep s = Some (a, b) ->
  (String.length b < String.length s)%nat.
Proof.
  intros Hsep. revert a. induction s as [|c s IH]; intros a.
  - cbn. destruct sep; [done|discriminate].
  - cbn [partition]. destruct (String.prefix sep (String c s)) eqn:Hp.
    + intros [= _ <-]. rewrite drop_length. apply prefix_length in Hp.
      destruct sep; [done|]. cbn in *. lia.
    + destruct (partition sep s) as [[a' b']|]; [|discriminate].
      intros [= _ <-]. specialize (IH a' eq_refl). cbn. lia.
Qed.

(** [split] never runs out of fuel: more fuel gives the same pieces. *)
Lemma split_go_enough (sep s : string) (n m : nat) :
  sep <> EmptyString ->
  (String.length s <= n)%nat -> (String.length s <= m)%nat ->
  split_go n sep s = split_go m sep s.
Proof.
  intros Hsep. revert m s. induction n as [|n IH]; intros m s Hn Hm.
  - destruct s; [|cbn in Hn; lia]. destruct m; [reflexivity|]. cbn.
    destruct sep; [done|reflexivity].
  - destruct m as [|m].
    + destruct s; [|cbn in Hm; lia]. cbn. destruct sep; [done|reflexivity].
    + cbn [split_go]. destruct (partition sep s) as [[a b]|] eqn:Hcut; [|reflexivity].
      apply partition_shorter in Hcut; [|exact Hsep]. f_equal. apply IH; lia.
Qed.

Lemma span_class (p : ascii -> bool) (s a b : string) :
  span p s = (a, b) -> forallb_str p a = true.
Proof.
  revert a b. induction s as [|c s IH]; intros a b; cbn [span].
  - by intros [= <- <-].
  - destruct (p c) eqn:Hc; [|by intros [= <- <-]].
    destruct (span p s) as [a' b']. intros [= <- <-]. cbn.
    by rewrite Hc, (IH a' b' eq_refl).
Qed.

(** The tokens the version probe classifies: digits, a dot, digits. *)
Lemma search_bcdUSB_token (s ver : string) :
  search_bcdUSB s = Some ver ->
  exists major minor,
    ver = major +:+ "." +:+ minor /\ isdigit major = true /\ isdigit minor = true.
Proof.
  induction s as [|c s IH]; cbn [search_bcdUSB].
  - cbn. discriminate.
  - destruct (match_bcdUSB (String c s)) as [tok|] eqn:Hm; [|exact IH].
    intros [= ->]. unfold match_bcdUSB in Hm.
    destruct (startswith "bcdUSB" (String c s)); [|discriminate].
    destruct (span is_space _) as [ws r1].
    destruct (span is_digit r1) as [d1 r2] eqn:H1.
    destruct ws; [discriminate|]. destruct d1 as [|c1 d1]; [discriminate|].
    destruct r2 as [|dot r3]; [discriminate|].
    destruct (ascii_dec dot "."%char) as [->|Hdot].
    + destruct (span is_digit r3) as [d2 r4] eqn:H2.
      destruct d2 as [|c2 d2]; [discriminate|]. injection Hm as <-.
      exists (String c1 d1), (String c2 d2). split; [reflexivity|].
      apply span_class in H1, H2. split; assumption.
    + destruct dot as [[] [] [] [] [] [] [] []]; try discriminate. done.
Qed.

End PyFacts.

(** ** The monad *)

Lemma bind_unfold {A B} (m : M A) (f : A -> M B) (st : Tester) :
  (m ≫= f) st = match m st with Ok (a, st') => f a st' | Raise e => Raise e end.
Proof. reflexivity. Qed.

Lemma bind_Ok {A B} (m : M A) (f : A -> M B) (st st2 : Tester) (b : B) :
  (m ≫= f) st = Ok (b, st2) ->
  exists a st1, m st = Ok (a, st1) /\ f a st1 = Ok (b, st2).
Proof.
  rewrite bind_unfold. destruct (m st) as [[a st1]|e]; [eauto | discriminate].
Qed.

Lemma same_record_refl st : same_record st st.
Proof. split; reflexivity. Qed.

Lemma same_record_trans st1 st2 st3 :
  same_record st1 st2 -> same_record st2 st3 -> same_record st1 st3.
Proof. intros [? ?] [? ?]; split; congruence. Qed.

(** ** The command runner *)

(** [run_cmd] as one state update: the command joins [issued], and a line is
    logged for a timeout or for a failed command run with [check]. *)
Lemma run_cmd_unfold o cmd timeout check st :
  run_cmd o cmd timeout check st =
  Ok (completed o cmd,
      {| test_results := test_results st; assigned := assigned st;
         journal := journal st ++ complaints o cmd check;
         issued := issued st ++ [cmd]; fs := fs st |}).
Proof.
  unfold run_cmd, issue, log, complaints; destruct o as [rc out err|]; cbn.
  - destruct (check && negb (rc =? 0)); cbn; rewrite ?app_nil_r; reflexivity.
  - reflexivity.
Qed.

Lemma log_unfold message tag st :
  log message tag st =
  Ok (tt, {| test_results := test_results st; assigned := assigned st;
             journal := journal st ++ [(tag, message)];
             issued := issued st; fs := fs st |}).
Proof. reflexivity. Qed.

Lemma store_unfold key r st :
  store key r st =
  Ok (tt, {| test_results := <[key := r]> (test_results st);
             assigned := assigned st ++ [key];
             journal := journal st; issued := issued st; fs := fs st |}).
Proof. reflexivity. Qed.

Lemma stdout_completed o cmd : stdout (completed o cmd) = output o.
Proof. destruct o; reflexivity. Qed.

Lemma returncode_completed o cmd : returncode (completed o cmd) = exit_code o.
Proof. destruct o; reflexivity. Qed.

Lemma write_file_unfold path data st :
  write_file path data st = Ok (tt, with_fs (<[path := data]> (fs st)) st).
Proof. reflexivity. Qed.

Lemma unlink_unfold path st :
  unlink_if_exists path st = Ok (tt, with_fs (delete path (fs st)) st).
Proof.
  unfold unlink_if_exists, get_fs, set_fs. rewrite bind_unfold.
  destruct (fs st !! path) eqn:E; [reflexivity|].
  rewrite delete_id by exact E. destruct st; reflexivity.
Qed.

(** Symbolic execution of a straight-line piece of the tester. *)
Ltac exec :=
  repeat first
    [ rewrite bind_unfold
    | rewrite run_cmd_unfold
    | rewrite log_unfold
    | rewrite store_unfold
    | rewrite unlink_unfold
    | rewrite write_file_unfold
    | progress cbn [mret M_ret test_results assigned journal issued fs with_fs] ].


(** ** Substring search *)

Lemma prefix_trans (a b s : string) :
  String.prefix a b = true -> String.prefix b s = true -> String.prefix a s = true.
Proof.
  revert b s. induction a as [|c a IH]; intros b s Hab Hbs; [destruct s; reflexivity|].
  destruct b as [|c' b]; [discriminate|]. destruct s as [|c'' s]; [discriminate|].
  cbn in *. destruct (ascii_dec c c'); [|discriminate].
  destruct (ascii_dec c' c''); [|discriminate]. subst.
  destruct (ascii_dec c'' c''); [|congruence]. eauto.
Qed.

Lemma contains_unfold (sub s : string) :
  Py.contains sub s =
  String.prefix sub s ||
  match s with EmptyString => false | String _ t => Py.contains sub t end.
Proof. destruct s; reflexivity. Qed.

(** A text that contains [b] contains every prefix of [b]. *)
Lemma contains_prefix (a b s : string) :
  String.prefix a b = true -> Py.contains b s = true -> Py.contains a s = true.
Proof.
  intros Hab.
  induction s as [|c s IH]; rewrite (contains_unfold a), (contains_unfold b);
    intros H; apply orb_true_iff in H as [H|H]; apply orb_true_iff;
    eauto using prefix_trans; discriminate.
Qed.

Lemma contains_longer_false (a b s : string) :
  String.prefix a b = true -> Py.contains a s = false -> Py.contains b s = false.
Proof.
  intros Hab Ha. destruct (Py.contains b s) eqn:Hb; [|reflexivity].
  rewrite (contains_prefix a b s Hab Hb) in Ha. discriminate.
Qed.

(** ** The version probe *)

Lemma detect_usb_version_unfold W st :
  exists st', 
    detect_usb_version W st =
    Ok (version_of (output (lsusb_bcd W)), st') /\
    test_results st' =
      <["usb_version" :=
          version_of (output (lsusb_bcd W))]> (test_results st) /\
    assigned st' = assigned st ++ ["usb_version"] /\
    fs st' = fs st.
Proof.
  unfold detect_usb_version. exec. rewrite stdout_completed.
  unfold version_of. destruct (search_bcdUSB _) as [ver|]; exec; eexists; repeat split.
Qed.

(** C3 (amended): the version result is a function of the matched token.
    A token that starts with "2." gives "USB 2.0" at tier 1; otherwise a
    token that contains "3.2" gives "USB 3.2 Gen 2x2" at tier 3; otherwise
    one that contains "3.1" gives "USB 3.2 Gen 2" at tier 2; otherwise one
    that contains "3.0" gives "USB 3.2 Gen 1" at tier 2; any other token
    gives "USB " followed by the raw token, with the warn status.  So "2.01",
    "3.20", "3.10" and "3.0" classify as the specification lists them.  Without a
    match of the bcdUSB pattern the result is "Unknown" with the unknown
    glyph, and the probe stores what it returns. *)
Theorem version_classification_by_token :
  (forall ver, Py.startswith "2." ver = true ->
     classify_version ver = {| value := "USB 2.0"; status := "⭐ (1/3)" |}) /\
  classify_version "2.01" = {| value := "USB 2.0"; status := "⭐ (1/3)" |} /\
  classify_version "3.20" = {| value := "USB 3.2 Gen 2x2"; status := "⭐⭐⭐ (3/3)" |} /\
  classify_version "3.10" = {| value := "USB 3.2 Gen 2"; status := "⭐⭐ (2/3)" |} /\
  classify_version "3.0" = {| value := "USB 3.2 Gen 1"; status := "⭐⭐ (2/3)" |} /\
  (forall ver, Py.startswith "2." ver = false -> Py.contains "3.2" ver = true ->
     classify_version ver = {| value := "USB 3.2 Gen 2x2"; status := "⭐⭐⭐ (3/3)" |}) /\
  (forall ver, Py.startswith "2." ver = false -> Py.contains "3.2" ver = false ->
     Py.contains "3.1" ver = true ->
     classify_version ver = {| value := "USB 3.2 Gen 2"; status := "⭐⭐ (2/3)" |}) /\
  (forall ver, Py.startswith "2." ver = false -> Py.contains "3.2" ver = false ->
     Py.contains "3.1" ver = false -> Py.contains "3.0" ver = true ->
     classify_version ver = {| value := "USB 3.2 Gen 1"; status := "⭐⭐ (2/3)" |}) /\
  (forall ver, Py.startswith "2." ver = false -> Py.contains "3.2" ver = false ->
     Py.contains "3.1" ver = false -> Py.contains "3.0" ver = false ->
     classify_version ver = {| value := "USB " +:+ ver; status := "⚠️" |}) /\
  (forall W st, exists r st',
     detect_usb_version W st = Ok (r, st') /\
     test_results st' !! "usb_version" = Some r /\
     r = version_of (output (lsusb_bcd W))) /\
  (forall lsusb ver, search_bcdUSB lsusb = Some ver ->
                     version_of lsusb = classify_version ver) /\
  (forall lsusb, search_bcdUSB lsusb = None ->
                 version_of lsusb = {| value := "Unknown"; status := "❓" |}).
Proof.
  unfold classify_version.
  split; [intros ver ->; reflexivity|].
  do 4 (split; [reflexivity|]).
  split; [intros ver -> ->; reflexivity|].
  split.
  { intros ver -> H2 H1. rewrite H2, H1.
    rewrite (contains_longer_false "3.2" "3.20") by (reflexivity || assumption).
    reflexivity. }
  split.
  { intros ver -> H2 H1 H0. rewrite H2, H1, H0.
    rewrite (contains_longer_false "3.2" "3.20") by (reflexivity || assumption).
    rewrite (contains_longer_false "3.1" "3.10") by (reflexivity || assumption).
    reflexivity. }
  split.
  { intros ver -> H2 H1 H0. rewrite H2, H1, H0.
    rewrite (contains_longer_false "3.2" "3.20") by (reflexivity || assumption).
    rewrite (contains_longer_false "3.1" "3.10") by (reflexivity || assumption).
    reflexivity. }
  split.
  { intros W st. destruct (detect_usb_version_unfold W st) as (st' & Hrun & Hres & _).
    eexists _, st'. split; [exact Hrun|]. split; [|reflexivity].
    rewrite Hres. apply lookup_insert_eq. }
  unfold version_of. split; [by intros lsusb ver ->|by intros lsusb ->].
Qed.

(** C3, as stated, fails on tokens outside the listed ones: "3.25" is none of
    "3.20", "3.10", "3.0" and has no "2." prefix, yet it is reported as
    "USB 3.2 Gen 2x2" at tier 3; and "1.10", which falls through every test,
    is reported as "USB 1.10", not as the raw token. *)
Lemma version_other_token_counterexample :
  search_bcdUSB "bcdUSB 3.25" = Some "3.25" /\
  Py.startswith "2." "3.25" = false /\
  "3.25" <> "3.20" /\ "3.25" <> "3.10" /\ "3.25" <> "3.0" /\
  classify_version "3.25" = {| value := "USB 3.2 Gen 2x2"; status := "⭐⭐⭐ (3/3)" |} /\
  classify_version "3.25" <> {| value := "3.25"; status := "⚠️" |} /\
  search_bcdUSB "bcdUSB 1.10" = Some "1.10" /\
  classify_version "1.10" = {| value := "USB 1.10"; status := "⚠️" |} /\
  value (classify_version "1.10") <> "1.10".
Proof. repeat split; try reflexivity; discriminate. Qed.

(** ** The speed test *)

Lemma name_not_check (s : string) : s <> s +:+ ".check".
Proof.
  intros H. apply (f_equal String.length) in H.
  rewrite PyFacts.length_app in H. cbn in H. lia.
Qed.

Lemma cleaned_after_download (f : gmap string (list Byte.byte)) tf cf d c :
  delete cf (delete tf (<[cf := c]> (<[tf := d]> f))) = delete cf (delete tf f).
Proof.
  apply map_eq; intros k.
  destruct (decide (k = cf)) as [->|]; [by rewrite !lookup_delete_eq|].
  rewrite !(lookup_delete_ne _ cf) by done.
  destruct (decide (k = tf)) as [->|]; [by rewrite !lookup_delete_eq|].
  rewrite !(lookup_delete_ne _ tf) by done.
  by rewrite !lookup_insert_ne.
Qed.

Lemma cleaned_after_upload (f : gmap string (list Byte.byte)) tf cf d :
  delete cf (delete tf (<[tf := d]> f)) = delete cf (delete tf f).
Proof. by rewrite delete_insert_eq. Qed.

Lemma cycle_unfold W path i success speeds st :
  cycle W path i (success, speeds) st =
  if exit_code (upload W i) =? 0 then
    match downloaded W i st with
    | Some content =>
        if decide (Sha256.hexdigest (urandom W i) = Sha256.hexdigest content) then
          if (elapsed W i =? 0)%float then Raise ZeroDivisionError
          else Ok ((success + 1, speeds ++ [cycle_speed W i]), after_cycle W path i st)
        else Ok ((success, speeds), after_cycle W path i st)
    | None => Ok ((success, speeds), after_cycle W path i st)
    end
  else Ok ((success, speeds), after_cycle W path i st).
Proof.
  unfold cycle. rewrite bind_unfold, write_file_unfold.
  rewrite bind_unfold, run_cmd_unfold, returncode_completed.
  fold (upload_cmd W path i) (download_cmd W path i) (remove_cmd W path i).
  fold (check_file_name W i).
  unfold after_cycle, downloaded, deliver, get_fs.
  destruct (exit_code (upload W i) =? 0).
  - assert (Hne : test_file_name W i <> check_file_name W i) by apply name_not_check.
    destruct (fetched W i) as [content|]; exec.
    + rewrite lookup_insert_eq.
      destruct (decide _); exec.
      * unfold speed_of. destruct (elapsed W i =? 0)%float; exec; [reflexivity|].
        rewrite cleaned_after_download, <- !app_assoc. reflexivity.
      * rewrite cleaned_after_download, <- !app_assoc. reflexivity.
    + rewrite lookup_insert_ne by exact Hne.
      destruct (fs st !! check_file_name W i) as [content|]; exec.
      * destruct (decide _); exec.
        -- unfold speed_of. destruct (elapsed W i =? 0)%float; exec; [reflexivity|].
           rewrite cleaned_after_upload, <- !app_assoc. reflexivity.
        -- rewrite cleaned_after_upload, <- !app_assoc. reflexivity.
      * rewrite cleaned_after_upload, <- !app_assoc. reflexivity.
  - exec. rewrite cleaned_after_upload, app_nil_r. reflexivity.
Qed.

Lemma cycle_Ok W path i acc st acc' st' :
  cycle W path i acc st = Ok (acc', st') -> st' = after_cycle W path i st.
Proof.
  destruct acc as [success speeds]. rewrite cycle_unfold.
  repeat case_match; congruence.
Qed.

Lemma fetched_with_fetched W i content : fetched (with_fetched W i content) i = content.
Proof. cbn. by rewrite decide_True. Qed.

(** C4: a cycle run where no stale file sits at the check path and the
    clock has advanced returns, and it is counted (success incremented, its
    speed appended) if and only if the upload exited with 0, the download
    left a file, and the SHA-256 digest of that file equals the digest of the
    bytes sent.  A file with another digest leaves exactly the tester that a
    missing file leaves: same counters, same log, no further diagnostic. *)
Theorem cycle_counted_iff_digest_matches (W : World) (full_path : string) (i : nat)
    (success : Z) (speeds : list float) (st : Tester) :
  fs st !! check_file_name W i = None ->
  (elapsed W i =? 0)%float = false ->
  (exists acc' st',
     cycle W full_path i (success, speeds) st = Ok (acc', st') /\
     (acc' = (success + 1, speeds ++ [cycle_speed W i]) \/ acc' = (success, speeds)) /\
     (acc' = (success + 1, speeds ++ [cycle_speed W i]) <->
      exit_code (upload W i) = 0 /\
      exists D, fetched W i = Some D /\
                Sha256.hexdigest D = Sha256.hexdigest (urandom W i))) /\
  (forall D, fetched W i = Some D ->
             Sha256.hexdigest D <> Sha256.hexdigest (urandom W i) ->
             cycle W full_path i (success, speeds) st =
             cycle (with_fetched W i None) full_path i (success, speeds) st).
Proof.
  intros Hclean Hdt. split.
  - rewrite cycle_unfold, Hdt. unfold downloaded. rewrite Hclean.
    assert (Hfresh : (success + 1, speeds ++ [cycle_speed W i]) <> (success, speeds)).
    { intros H. injection H as H _. lia. }
    destruct (exit_code (upload W i) =? 0) eqn:Hup.
    + apply Z.eqb_eq in Hup.
      destruct (fetched W i) as [D|] eqn:HD.
      * destruct (decide _) as [Heq|Hne]; eexists _, _; (split; [reflexivity|]).
        -- split; [by left|]. split; [|done]. intros _. split; [done|]. by exists D.
        -- split; [by right|]. split; [by intros H; destruct Hfresh|].
           intros (_ & D' & [= <-] & HD'). congruence.
      * eexists _, _; split; [reflexivity|]. split; [by right|].
        split; [by intros H; destruct Hfresh|]. by intros (_ & D' & [=] & _).
    + apply Z.eqb_neq in Hup. eexists _, _; split; [reflexivity|]. split; [by right|].
      split; [by intros H; destruct Hfresh|]. by intros (? & _).
  - intros D HD Hne. rewrite !cycle_unfold.
    change (after_cycle (with_fetched W i None) full_path i st)
      with (after_cycle W full_path i st).
    change (exit_code (upload (with_fetched W i None) i)) with (exit_code (upload W i)).
    unfold downloaded.
    change (check_file_name (with_fetched W i None) i) with (check_file_name W i).
    rewrite fetched_with_fetched, HD, Hclean.
    rewrite decide_False by congruence. reflexivity.
Qed.



(** With an empty temp directory the integrity check is [cycle_ok]. *)
Lemma cycle_clean W path i success speeds st :
  fs st = ∅ ->
  cycle W path i (success, speeds) st =
  if cycle_ok W i then
    if (elapsed W i =? 0)%float then Raise ZeroDivisionError
    else Ok ((success + 1, speeds ++ [cycle_speed W i]), after_cycle W path i st)
  else Ok ((success, speeds), after_cycle W path i st).
Proof.
  intros Hfs. rewrite cycle_unfold. unfold downloaded, cycle_ok.
  rewrite Hfs, lookup_empty.
  destruct (exit_code (upload W i) =? 0); [|reflexivity].
  destruct (fetched W i) as [content|]; [|reflexivity].
  cbn [andb]. destruct (decide _) as [Heq|Hne].
  - by rewrite bool_decide_eq_true_2.
  - by rewrite bool_decide_eq_false_2.
Qed.

Lemma after_cycle_clean W path i st : fs st = ∅ -> fs (after_cycle W path i st) = ∅.
Proof. intros Hfs. unfold after_cycle; cbn. by rewrite Hfs, !delete_empty. Qed.

(** The four exit paths on the sample world: cycle 0 is counted, cycle 1's
    upload fails, cycle 2's digest differs, cycle 3's download leaves no
    file.  None leaves a temp file. *)
Example bench_exit_paths :
  (exists st', cycle bench bench_path 0 (0, []) init = Ok ((1, [512%float]), st') /\
               fs st' = ∅) /\
  (exists st', cycle bench bench_path 1 (0, []) init = Ok ((0, []), st') /\
               fs st' = ∅) /\
  (exists st', cycle bench bench_path 2 (0, []) init = Ok ((0, []), st') /\
               fs st' = ∅) /\
  (exists st', cycle bench bench_path 3 (0, []) init = Ok ((0, []), st') /\
               fs st' = ∅).
Proof.
  repeat split; eexists; (split; [rewrite cycle_unfold; vm_compute; reflexivity|]);
    reflexivity.
Qed.

(** So the loop is a filter: the cycles that pass [cycle_ok] contribute
    their speed, in order, and the others nothing. *)
Lemma cycles_unfold W path range success speeds st :
  fs st = ∅ ->
  (forall i, In i range -> cycle_ok W i = true -> (elapsed W i =? 0)%float = false) ->
  exists st',
    cycles W path range (success, speeds) st =
    Ok ((success + Z.of_nat (length (List.filter (cycle_ok W) range)),
         speeds ++ map (cycle_speed W) (List.filter (cycle_ok W) range)), st') /\
    fs st' = ∅ /\ same_record st st'.
Proof.
  revert success speeds st.
  induction range as [|i range IH]; intros success speeds st Hfs Hdt.
  - exists st. cbn. rewrite Z.add_0_r, app_nil_r. repeat split; done.
  - cbn [cycles List.filter]. rewrite bind_unfold, cycle_clean by exact Hfs.
    assert (Hrest : forall j, In j range -> cycle_ok W j = true ->
                              (elapsed W j =? 0)%float = false)
      by (intros j Hj; apply Hdt; by right).
    specialize (Hdt i (or_introl eq_refl)).
    pose proof (after_cycle_clean W path i st Hfs) as Hafter.
    destruct (cycle_ok W i).
    + rewrite Hdt by reflexivity.
      destruct (IH (success + 1) (speeds ++ [cycle_speed W i]) _ Hafter Hrest)
        as (st' & -> & ? & ?).
      exists st'. cbn [length map]. rewrite <- app_assoc. cbn [app].
      split; [do 3 f_equal; lia|]. split; [done|].
      apply (same_record_trans _ (after_cycle W path i st)); [by split|done].
    + destruct (IH success speeds _ Hafter Hrest) as (st' & -> & ? & ?).
      exists st'. split; [done|]. split; [done|].
      apply (same_record_trans _ (after_cycle W path i st)); [by split|done].
Qed.

Lemma cycles_Ok W path range acc st acc' st' :
  cycles W path range acc st = Ok (acc', st') -> same_record st st'.
Proof.
  revert acc st. induction range as [|i range IH]; intros acc st H.
  - injection H as _ <-. apply same_record_refl.
  - cbn [cycles] in H. apply bind_Ok in H as (acc1 & st1 & H1 & H2).
    apply cycle_Ok in H1 as ->. apply IH in H2.
    apply (same_record_trans _ (after_cycle W path i st)); [by split|done].
Qed.

Lemma speed_rating_cases (avg_speed : float) :
  In (speed_rating avg_speed) ["⭐⭐⭐ (3/3)"; "⭐⭐ (2/3)"; "⭐ (1/3)"; "⚠️"].
Proof. unfold speed_rating. repeat case_match; cbn; tauto. Qed.

(** Whenever the speed test returns, it has assigned its result to "speed",
    once, and the status is a star tier or the warn glyph. *)
Lemma transfer_speed_test_Ok W device st r st' :
  transfer_speed_test W device st = Ok (r, st') ->
  test_results st' = <["speed" := r]> (test_results st) /\
  assigned st' = assigned st ++ ["speed"] /\
  In (status r) ["⭐⭐⭐ (3/3)"; "⭐⭐ (2/3)"; "⭐ (1/3)"; "⚠️"].
Proof.
  unfold transfer_speed_test. rewrite bind_unfold. cbn [log].
  intros H. apply bind_Ok in H as (acc & st1 & Hloop & H).
  apply cycles_Ok in Hloop as [Hres Hkeys]. cbn in Hres, Hkeys.
  cbn in H. injection H as <- <-. cbn. rewrite Hres, Hkeys.
  repeat split. destruct acc. apply speed_rating_cases.
Qed.

(** C7: started with an empty temp directory, in a world whose clock
    advances during the verified cycles, the speed test returns; its average
    is taken over the speeds of the cycles that passed the integrity check
    and of no other ([sum/len] of exactly those, 0 when there is none); the
    status is tier 3 above 400, tier 2 above 200, tier 1 above 50 and the
    warn glyph otherwise; and the value reads "<average>Mbps (<successes>/5)",
    the number of successes being the number of such cycles. *)
Theorem speed_aggregate_over_verified_cycles (W : World) (device_name : string)
    (st : Tester) :
  fs st = ∅ ->
  (forall i, (i < 5)%nat -> cycle_ok W i = true -> (elapsed W i =? 0)%float = false) ->
  let good := List.filter (cycle_ok W) [0; 1; 2; 3; 4]%nat in
  let speeds := map (cycle_speed W) good in
  let avg_speed :=
    match speeds with
    | [] => 0%float
    | _ => (PyFloat.sum speeds / PyFloat.of_int (Z.of_nat (length speeds)))%float
    end in
  let rating :=
    if (400 <? avg_speed)%float then "⭐⭐⭐ (3/3)"
    else if (200 <? avg_speed)%float then "⭐⭐ (2/3)"
    else if (50 <? avg_speed)%float then "⭐ (1/3)"
    else "⚠️" in
  let r := {| value := PyFloat.format_0f avg_speed +:+ "Mbps (" +:+
                       Py.str (Z.of_nat (length good)) +:+ "/5)";
              status := rating |} in
  exists st',
    transfer_speed_test W device_name st = Ok (r, st') /\
    test_results st' !! "speed" = Some r.
Proof.
  intros Hfs Hdt good speeds avg_speed rating r.
  unfold transfer_speed_test. rewrite bind_unfold. cbn [log].
  rewrite bind_unfold.
  edestruct (cycles_unfold W) as (st1 & -> & _ & _); [| |].
  3: { cbn. eexists. split; [reflexivity|]. cbn. apply lookup_insert_eq. }
  - exact Hfs.
  - intros i Hi. apply Hdt. cbn in Hi. lia.
Qed.

(** ** The unconditional probes *)

Lemma detect_power_sysfs_unfold W st :
  exists st',
    detect_power_sysfs W st = Ok (scan_power W (usb_devices W), st') /\
    stores "power" (scan_power W (usb_devices W)) st st'.
Proof.
  unfold detect_power_sysfs. exec. eexists. split; [reflexivity|]. by repeat split.
Qed.

Lemma scan_power_cases W devices :
  scan_power W devices = {| value := "500mA"; status := "⭐ (1/3)" |} \/
  scan_power W devices = {| value := "900mA"; status := "⭐⭐ (2/3)" |}.
Proof. induction devices as [|d ds IH]; cbn; repeat case_match; auto. Qed.

Lemma poll_dmesg_unfold base polls error_count st :
  exists n st',
    poll_dmesg base polls error_count st = Ok (n, st') /\
    same_record st st' /\ fs st' = fs st.
Proof.
  revert error_count st. induction polls as [|o polls IH]; intros error_count st.
  - exists error_count, st. repeat split.
  - cbn [poll_dmesg]. exec.
    edestruct IH as (n & st' & -> & [Hres Hkeys] & Hfs).
    exists n, st'. split; [reflexivity|]. cbn in *. by repeat split.
Qed.

Lemma usb_stability_test_unfold W st :
  exists r st',
    usb_stability_test W st = Ok (r, st') /\ stores "stability" r st st' /\
    (r = {| value := "0 Errors"; status := "✅" |} \/
     exists n, n <> 0 /\ r = {| value := Py.str n +:+ " Errors"; status := "❌" |}).
Proof.
  unfold usb_stability_test. exec.
  edestruct poll_dmesg_unfold as (n & st1 & -> & [Hres Hkeys] & Hfs).
  cbn in Hres, Hkeys, Hfs. exec. eexists _, _. split; [reflexivity|]. cbn.
  rewrite Hres, Hkeys, Hfs. split; [by repeat split|].
  destruct (n =? 0) eqn:Hn; [by left|]. right. exists n. split; [lia|done].
Qed.

Lemma check_pinout_data_unfold W st :
  exists r st',
    check_pinout_data W st = Ok (r, st') /\ stores "pinout" r st st' /\
    (r = {| value := "OK"; status := "✅" |} \/
     r = {| value := "Power-only?"; status := "⚠️" |}).
Proof.
  unfold check_pinout_data. exec. eexists _, _. split; [reflexivity|].
  cbn. split; [by repeat split|]. case_match; auto.
Qed.

Lemma estimate_cable_quality_unfold W st :
  exists st',
    estimate_cable_quality W st = Ok (quality_of (output (lsusb_configs W)), st') /\
    stores "quality" (quality_of (output (lsusb_configs W))) st st'.
Proof.
  unfold estimate_cable_quality. exec. rewrite stdout_completed.
  eexists. split; [reflexivity|]. by repeat split.
Qed.

Lemma quality_status out :
  status (quality_of out) = if config_count out >=? 2 then "✅" else "⚠️".
Proof. reflexivity. Qed.



(** ** Device discovery *)

Lemma item_Ok xs i x st st' : item xs i st = Ok (x, st') -> st' = st.
Proof. unfold item. destruct (xs !! i); [|discriminate]. by intros [= _ <-]. Qed.

Lemma item_unfold xs i st :
  item xs i st = match xs !! i with Some x => Ok (x, st) | None => Raise IndexError end.
Proof. unfold item. by destruct (xs !! i). Qed.

Lemma find_mtp_device_discovered W st :
  match find_mtp_device W st with
  | Ok (device, _) => discovered W = Ok device
  | Raise e => discovered W = Raise e
  end.
Proof.
  unfold discovered, find_mtp_device. exec. rewrite !stdout_completed.
  destruct (decide (output (gio_mounts W) = "")); exec; [reflexivity|].
  rewrite !item_unfold. destruct (_ !! 1%nat); [exec|reflexivity].
  rewrite !item_unfold. destruct (_ !! 0%nat); [exec|reflexivity].
  rewrite !item_unfold. destruct (_ !! 0%nat); [exec|reflexivity].
  reflexivity.
Qed.

Lemma find_mtp_device_Ok W st device st' :
  find_mtp_device W st = Ok (device, st') ->
  same_record st st' /\ fs st' = fs st /\
  discovered W = Ok device /\
  (output (gio_mounts W) = "" -> device = None).
Proof.
  intros Hrun. pose proof (find_mtp_device_discovered W st) as Hd.
  rewrite Hrun in Hd. revert Hrun.
  unfold find_mtp_device. exec. rewrite stdout_completed.
  destruct (decide (output (gio_mounts W) = "")) as [Hnone|Hsome].
  - exec. intros [= <- <-]. by repeat split.
  - intros H.
    apply bind_Ok in H as (a & st1 & H1 & H). apply item_Ok in H1 as ->.
    apply bind_Ok in H as (b & st2 & H2 & H). apply item_Ok in H2 as ->.
    apply bind_Ok in H as (c & st3 & H3 & H). apply item_Ok in H3 as ->.
    revert H. exec. intros [= <- <-]. by repeat split.
Qed.

Lemma find_mtp_device_none W st :
  output (gio_mounts W) = "" -> exists st', find_mtp_device W st = Ok (None, st').
Proof.
  intros Hnone. unfold find_mtp_device. exec. rewrite stdout_completed, Hnone.
  exec. eauto.
Qed.

(** A non-empty mount list without the scheme has one piece only, and the
    index 1 raises. *)
Lemma find_mtp_device_without_scheme W st :
  output (gio_mounts W) <> "" ->
  Py.partition "mtp://" (output (gio_mounts W)) = None ->
  find_mtp_device W st = Raise IndexError.
Proof.
  intros Hsome Hcut. unfold find_mtp_device. exec. rewrite stdout_completed.
  rewrite decide_False by exact Hsome. exec. rewrite item_unfold.
  unfold Py.split. destruct (output (gio_mounts W)) as [|c out]; [done|].
  cbn [String.length Py.split_go]. by rewrite Hcut.
Qed.

(** C9 (the code departs from the specification): the mount list of
    [bare_uri] is one line that [grep 'mtp://'] lets through, an MTP URI with
    nothing after the scheme.  On it the discovery step does not return:
    [split()] yields no word, the index raises IndexError, and the run ends
    there without a report.  On an empty list the step does return None; on
    a non-empty one without the scheme it raises as well. *)
Theorem discovery_raises_on_bare_uri :
  output (gio_mounts bare_uri) = "Mount(0): Phone -> mtp://" +:+ Py.nl /\
  Py.contains "mtp://" (output (gio_mounts bare_uri)) = true /\
  (forall st, find_mtp_device bare_uri st = Raise IndexError) /\
  (forall Fore, run_complete_test bare_uri Fore init = Raise IndexError) /\
  (forall W st, output (gio_mounts W) = "" ->
                exists st', find_mtp_device W st = Ok (None, st')) /\
  (forall W st, output (gio_mounts W) <> "" ->
                Py.partition "mtp://" (output (gio_mounts W)) = None ->
                find_mtp_device W st = Raise IndexError).
Proof.
  split; [reflexivity|]. split; [reflexivity|].
  split; [intros st; unfold find_mtp_device; exec; reflexivity|].
  split; [intros Fore; vm_compute; reflexivity|].
  split; [apply find_mtp_device_none|].
  apply find_mtp_device_without_scheme.
Qed.

(** ** The report *)

Lemma result_of_Ok key st r st' :
  result_of key st = Ok (r, st') -> test_results st !! key = Some r /\ st' = st.
Proof. unfold result_of. destruct (_ !! _); [|discriminate]. by intros [= <- <-]. Qed.

Lemma tests_unfold st v p s t d q :
  test_results st !! "usb_version" = Some v ->
  test_results st !! "power" = Some p ->
  test_results st !! "speed" = Some s ->
  test_results st !! "stability" = Some t ->
  test_results st !! "pinout" = Some d ->
  test_results st !! "quality" = Some q ->
  tests st =
  Ok ([ ("USB Version", value v, status v);
        ("Power Delivery", value p, status p);
        ("Data Speed", value s, status s);
        ("Stability", value t, status t);
        ("Data Pins (D+/D-)", value d, status d);
        ("Cable Quality", value q, status q) ], st).
Proof.
  intros Hv Hp Hs Ht Hd Hq. unfold tests, result_of.
  rewrite !bind_unfold, Hv. cbn. rewrite !bind_unfold, Hp. cbn.
  rewrite !bind_unfold, Hs. cbn. rewrite !bind_unfold, Ht. cbn.
  rewrite !bind_unfold, Hd. cbn. rewrite !bind_unfold, Hq. reflexivity.
Qed.

Lemma print_perfect_table_Ok Fore st rep st' :
  print_perfect_table Fore st = Ok (rep, st') -> st' = st.
Proof.
  unfold print_perfect_table, tests. intros H.
  apply bind_Ok in H as (ts & st1 & H1 & H).
  repeat (apply bind_Ok in H1 as (? & ? & [_ ->]%result_of_Ok & H1)).
  injection H1 as _ <-. by injection H as _ <-.
Qed.

(** ** The whole run *)

Lemma statuses_of_stars s :
  In s ["⭐⭐⭐ (3/3)"; "⭐⭐ (2/3)"; "⭐ (1/3)"; "⚠️"] -> In s statuses.
Proof. cbn. intuition. Qed.

Lemma classify_version_status ver : In (status (classify_version ver)) statuses.
Proof. unfold classify_version. repeat case_match; cbn; tauto. Qed.

Lemma version_of_status lsusb : In (status (version_of lsusb)) statuses.
Proof.
  unfold version_of. destruct (search_bcdUSB lsusb); [apply classify_version_status|].
  cbn; tauto.
Qed.

Lemma scan_power_status W devices : In (status (scan_power W devices)) statuses.
Proof. destruct (scan_power_cases W devices) as [-> | ->]; cbn; tauto. Qed.

Lemma quality_of_status out : In (status (quality_of out)) statuses.
Proof. rewrite quality_status. case_match; cbn; tauto. Qed.

(** A completed run has gone through the six assignments, in this order,
    each with one of the seven statuses, and the report was drawn from the
    record they left. *)
Lemma run_complete_test_Ok W Fore rep st :
  run_complete_test W Fore init = Ok (rep, st) ->
  exists v p t d q s,
    test_results st =
      <["speed" := s]> (<["quality" := q]> (<["pinout" := d]>
        (<["stability" := t]> (<["power" := p]> (<["usb_version" := v]> ∅))))) /\
    assigned st = ["usb_version"; "power"; "stability"; "pinout"; "quality"; "speed"] /\
    Forall (fun r => In (status r) statuses) [v; p; t; d; q; s] /\
    (discovered W = Ok None \/ discovered W = Ok (Some "") -> s = unavailable) /\
    print_perfect_table Fore st = Ok (rep, st).
Proof.
  unfold run_complete_test. rewrite bind_unfold. cbn [truncate_log].
  rewrite bind_unfold.
  match goal with |- context [detect_usb_version W ?s0] =>
    destruct (detect_usb_version_unfold W s0) as (st1 & -> & Hr1 & Hk1 & _) end.
  rewrite bind_unfold.
  destruct (detect_power_sysfs_unfold W st1) as (st2 & -> & Hr2 & Hk2 & _).
  rewrite bind_unfold.
  destruct (usb_stability_test_unfold W st2) as (t & st3 & -> & (Hr3 & Hk3 & _) & Ht).
  rewrite bind_unfold.
  destruct (check_pinout_data_unfold W st3) as (d & st4 & -> & (Hr4 & Hk4 & _) & Hd).
  rewrite bind_unfold.
  destruct (estimate_cable_quality_unfold W st4) as (st5 & -> & Hr5 & Hk5 & _).
  unfold kill_gvfs. exec.
  match goal with |- context [find_mtp_device W ?st] => set (st6 := st) end.
  assert (Hr6 : test_results st6 = test_results st5) by reflexivity.
  assert (Hk6 : assigned st6 = assigned st5) by reflexivity.
  clearbody st6. cbn in Hr1, Hk1.
  intros H. destruct (find_mtp_device W st6) as [[device st7]|e] eqn:Hfind;
    [|discriminate].
  apply find_mtp_device_Ok in Hfind as ([Hr7 Hk7] & _ & Hfound & _).
  exists (version_of (output (lsusb_bcd W))), (scan_power W (usb_devices W)), t, d,
         (quality_of (output (lsusb_configs W))).
  assert (Hrec : test_results st7 =
                 <["quality" := quality_of (output (lsusb_configs W))]>
                   (<["pinout" := d]> (<["stability" := t]>
                     (<["power" := scan_power W (usb_devices W)]>
                       (<["usb_version" := version_of (output (lsusb_bcd W))]> ∅)))))
    by congruence.
  assert (Hkeys : assigned st7 = ["usb_version"; "power"; "stability"; "pinout"; "quality"]).
  { rewrite Hk7, Hk6, Hk5, Hk4, Hk3, Hk2, Hk1. reflexivity. }
  assert (Hfive : Forall (fun r => In (status r) statuses)
                    [ version_of (output (lsusb_bcd W));
                      scan_power W (usb_devices W); t; d;
                      quality_of (output (lsusb_configs W)) ]).
  { constructor; [apply version_of_status|].
    constructor; [apply scan_power_status|].
    constructor; [destruct Ht as [-> | (n & _ & ->)]; cbn; tauto|].
    constructor; [destruct Hd as [-> | ->]; cbn; tauto|].
    constructor; [apply quality_of_status|]. constructor. }
  clear Hr1 Hk1 Hr2 Hk2 Hr3 Hk3 Hr4 Hk4 Hr5 Hk5 Hr6 Hk6 Hr7 Hk7 Ht Hd.
  assert (Hsentinel : forall rep st,
            (store "speed" unavailable ≫= fun _ => print_perfect_table Fore) st7
              = Ok (rep, st) ->
            test_results st = <["speed" := unavailable]> (test_results st7) /\
            assigned st = assigned st7 ++ ["speed"] /\
            print_perfect_table Fore st = Ok (rep, st)).
  { intros rep' st'. exec. intros Hp.
    pose proof (print_perfect_table_Ok _ _ _ _ Hp) as ->. by repeat split. }
  assert (Hstatus6 : forall s, In (status s) statuses ->
            Forall (fun r => In (status r) statuses)
              [ version_of (output (lsusb_bcd W));
                scan_power W (usb_devices W); t; d;
                quality_of (output (lsusb_configs W)); s ]).
  { intros s Hs. apply Forall_app with (l1 := [_; _; _; _; _]) (l2 := [s]).
    split; [exact Hfive|]. constructor; [exact Hs|constructor]. }
  cbn beta iota in H.
  destruct device as [name|].
  - destruct (decide (name = "")) as [_|Hname].
    + apply Hsentinel in H as (Hr & Hk & Hp). exists unavailable.
      rewrite Hr, Hk, Hrec, Hkeys. repeat split; try done.
      apply Hstatus6. cbn; tauto.
    + apply bind_Ok in H as ([] & st8 & Hspeed & Hp).
      apply bind_Ok in Hspeed as (s & st9 & Hspeed & [= <-]).
      apply transfer_speed_test_Ok in Hspeed as (Hr & Hk & Hs).
      pose proof (print_perfect_table_Ok _ _ _ _ Hp) as ->.
      exists s. rewrite Hr, Hk, Hrec, Hkeys. repeat split; try done.
      * apply Hstatus6. by apply statuses_of_stars.
      * rewrite Hfound. intros [[=] | [= ->]]. done.
  - apply Hsentinel in H as (Hr & Hk & Hp). exists unavailable.
    rewrite Hr, Hk, Hrec, Hkeys. repeat split; try done.
    apply Hstatus6. cbn; tauto.
Qed.


(** ** The aggregator *)

Lemma count_passed_from (ts : list (string * string * string)) (n : Z) :
  fold_left (fun passed_count '(_, _, status) =>
               if bool_decide (status ∈ passing) then passed_count + 1 else passed_count)
            ts n =
  n + Z.of_nat (length (List.filter
                          (fun '(_, _, status) => bool_decide (status ∈ passing)) ts)).
Proof.
  revert n. induction ts as [|[[param value] status] ts IH]; intros n; cbn.
  - lia.
  - rewrite IH. destruct (bool_decide (status ∈ passing)); cbn; lia.
Qed.

(** The two threshold tests for each possible count. *)
Lemma thresholds_by_count (n : Z) :
  0 <= n <= 6 ->
  (n = 6 -> (85 <=? percentage_of n)%float = true) /\
  (n = 5 -> (85 <=? percentage_of n)%float = false /\
            (67 <=? percentage_of n)%float = true) /\
  (n <= 4 -> (85 <=? percentage_of n)%float = false /\
             (67 <=? percentage_of n)%float = false).
Proof.
  intros Hn.
  assert (n = 0 \/ n = 1 \/ n = 2 \/ n = 3 \/ n = 4 \/ n = 5 \/ n = 6) as Hcases by lia.
  repeat destruct Hcases as [-> | Hcases]; try subst n;
    vm_compute; repeat split; intros; congruence.
Qed.

Lemma print_perfect_table_unfold Fore st v p s t d q :
  test_results st !! "usb_version" = Some v ->
  test_results st !! "power" = Some p ->
  test_results st !! "speed" = Some s ->
  test_results st !! "stability" = Some t ->
  test_results st !! "pinout" = Some d ->
  test_results st !! "quality" = Some q ->
  exists rep,
    print_perfect_table Fore st = Ok (rep, st) /\
    passed_count rep =
      Z.of_nat (length (List.filter (fun r => bool_decide (status r ∈ passing))
                                    [v; p; s; t; d; q])) /\
    percentage rep = percentage_of (passed_count rep) /\
    exists above, console rep = above ++ verdict Fore (percentage rep).
Proof.
  intros Hv Hp Hs Ht Hd Hq. unfold print_perfect_table.
  rewrite bind_unfold, (tests_unfold st v p s t d q) by assumption.
  eexists. split; [reflexivity|]. cbn [passed_count percentage console].
  split; [|split; [reflexivity|]].
  - unfold count_passed. rewrite count_passed_from. cbn [List.filter].
    destruct (bool_decide (status v ∈ passing)), (bool_decide (status p ∈ passing)),
      (bool_decide (status s ∈ passing)), (bool_decide (status t ∈ passing)),
      (bool_decide (status d ∈ passing)), (bool_decide (status q ∈ passing));
      reflexivity.
  - eexists. rewrite !app_assoc. reflexivity.
Qed.

(** C1: for every record that holds the six metrics, the aggregator returns;
    its [passed_count] is the number of the six results whose status is in
    the passing set, which holds the pass glyph and the three star tiers and
    none of the warn, fail and unknown glyphs; its percentage is
    [passed_count / 6 * 100]; and the line that closes the console report is
    the top tier when the percentage is at least 85, the mid tier when it is
    at least 67, the bottom tier otherwise.  So six passes give the top tier,
    five (83%) the mid tier, and four or fewer, three among them, the bottom
    tier. *)
Theorem aggregator_counts_and_ranks (Fore : Palette) (st : Tester)
    (v p s t d q : ProbeResult) :
  test_results st !! "usb_version" = Some v ->
  test_results st !! "power" = Some p ->
  test_results st !! "speed" = Some s ->
  test_results st !! "stability" = Some t ->
  test_results st !! "pinout" = Some d ->
  test_results st !! "quality" = Some q ->
  let passes := fun r : ProbeResult => bool_decide (status r ∈ passing) in
  let n := Z.of_nat (length (List.filter passes [v; p; s; t; d; q])) in
  let top := [GREEN Fore +:+ "🎖️ USB-IF PREMIUM CERTIFIED" +:+ RESET Fore] in
  let mid := [YELLOW Fore +:+ "⭐ USB CERTIFIED" +:+ RESET Fore] in
  let bottom := [RED Fore +:+ "⚠️ POWER-ONLY CABLE DETECTED" +:+ RESET Fore;
                 "   → RECOMMENDED: USB-IF certified cables"] in
  (exists rep,
     print_perfect_table Fore st = Ok (rep, st) /\
     passed_count rep = n /\
     percentage rep = (PyFloat.of_int n / 6 * 100)%float /\
     (exists above, console rep = above ++ verdict Fore (percentage rep)) /\
     verdict Fore (percentage rep) =
       (if (85 <=? percentage rep)%float then top
        else if (67 <=? percentage rep)%float then mid else bottom) /\
     (n = 6 -> verdict Fore (percentage rep) = top) /\
     (n = 5 -> verdict Fore (percentage rep) = mid /\
               PyFloat.format_0f (percentage rep) = "83") /\
     (n <= 4 -> verdict Fore (percentage rep) = bottom) /\
     (n = 3 -> verdict Fore (percentage rep) = bottom /\
               PyFloat.format_0f (percentage rep) = "50")) /\
  (forall r, passes r = true <->
             status r = "✅" \/ status r = "⭐ (1/3)" \/
             status r = "⭐⭐ (2/3)" \/ status r = "⭐⭐⭐ (3/3)") /\
  ("⚠️" ∉ passing) /\ ("❌" ∉ passing) /\ ("❓" ∉ passing).
Proof.
  intros Hv Hp Hs Ht Hd Hq passes n top mid bottom. split.
  - destruct (print_perfect_table_unfold Fore st v p s t d q)
      as (rep & Hrun & Hcount & Hpct & Hlast); try assumption.
    exists rep. fold passes in Hcount. fold n in Hcount.
    assert (Hrange : 0 <= n <= 6).
    { subst n. split; [lia|]. pose proof (filter_length passes [v; p; s; t; d; q]) as Hl.
      cbn [length] in Hl. lia. }
    destruct (thresholds_by_count n Hrange) as (H6 & H5 & H4).
    clearbody n. rewrite Hpct, Hcount. unfold verdict. fold top mid bottom.
    split; [exact Hrun|]. split; [reflexivity|]. split; [reflexivity|].
    split; [rewrite <- Hcount, <- Hpct; exact Hlast|]. split; [reflexivity|].
    split; [intros Hn; by rewrite (H6 Hn)|].
    split.
    { intros Hn. destruct (H5 Hn) as [-> ->]. split; [reflexivity|].
      rewrite Hn. reflexivity. }
    split; [intros Hn; by destruct (H4 Hn) as [-> ->]|].
    intros Hn. destruct (H4 ltac:(lia)) as [-> ->]. split; [reflexivity|].
    rewrite Hn. reflexivity.
  - split.
    + intros r. unfold passes. rewrite bool_decide_eq_true. unfold passing.
      rewrite !elem_of_cons, elem_of_nil. tauto.
    + unfold passing. rewrite !elem_of_cons, !elem_of_nil.
      repeat split; intros H; repeat destruct H as [H|H]; discriminate || done.
Qed.

(** ** The renderer's tables *)

(** Each of the seven statuses is formatted by a branch of its own, comes
    back unchanged once the colour codes are stripped, and has an entry in
    the width table, under either palette. *)
Lemma seven_statuses_render (P : Palette) (s : string) :
  In s statuses -> P = DummyColor \/ P = colorama ->
  exists w,
    widths !! s = Some w /\
    _strip_ansi (_format_status P s) = s /\
    _get_status_width (_strip_ansi (_format_status P s)) = w /\
    plain_status P s = s /\
    _get_status_width (plain_status P s) = w /\
    _format_status colorama s <> s.
Proof.
  intros Hs HP. cbn in Hs.
  destruct HP as [-> | ->];
    repeat (destruct Hs as [<- | Hs]; [eexists; repeat split; vm_compute; done|]);
    destruct Hs.
Qed.

Lemma lookup_six (v p t d q s : ProbeResult) (key : string) (r : ProbeResult) :
  (<["speed" := s]> (<["quality" := q]> (<["pinout" := d]>
     (<["stability" := t]> (<["power" := p]>
        (<["usb_version" := v]> (∅ : gmap string ProbeResult))))))) !! key = Some r ->
  In r [v; p; t; d; q; s].
Proof.
  rewrite !lookup_insert. repeat case_decide; rewrite ?lookup_empty;
    intros [= <-]; cbn; tauto.
Qed.

(** C10: every status that can be stored is one of the seven glyph strings
    of the source (seven distinct strings).  Each of the five unconditional
    probes returns and stores such a status, the speed test does so whenever
    it returns, and the unavailable sentinel carries one; hence every status
    in the record of a completed run is one of the seven.  For each of the
    seven the formatter takes one of its explicit branches (under colorama
    the result differs from the bare status, which the fall-through would
    return), stripping the colour codes gives the status back, and the width
    table has an entry for it, so the console row and the log row both get
    their width from the table and not from the length fall-back. *)
Theorem record_statuses_are_the_seven_glyphs :
  length statuses = 7%nat /\ NoDup statuses /\
  (forall W st, exists r st',
     detect_usb_version W st = Ok (r, st') /\
     stores "usb_version" r st st' /\ In (status r) statuses) /\
  (forall W st, exists r st',
     detect_power_sysfs W st = Ok (r, st') /\
     stores "power" r st st' /\ In (status r) statuses) /\
  (forall W st, exists r st',
     usb_stability_test W st = Ok (r, st') /\
     stores "stability" r st st' /\ In (status r) statuses) /\
  (forall W st, exists r st',
     check_pinout_data W st = Ok (r, st') /\
     stores "pinout" r st st' /\ In (status r) statuses) /\
  (forall W st, exists r st',
     estimate_cable_quality W st = Ok (r, st') /\
     stores "quality" r st st' /\ In (status r) statuses) /\
  (forall W device_name st r st',
     transfer_speed_test W device_name st = Ok (r, st') ->
     test_results st' = <["speed" := r]> (test_results st) /\
     In (status r) statuses) /\
  In (status unavailable) statuses /\
  (forall W Fore rep st,
     run_complete_test W Fore init = Ok (rep, st) ->
     forall key r, test_results st !! key = Some r -> In (status r) statuses) /\
  (forall s P,
     In s statuses -> P = DummyColor \/ P = colorama ->
     exists w,
       widths !! s = Some w /\
       _strip_ansi (_format_status P s) = s /\
       _get_status_width (_strip_ansi (_format_status P s)) = w /\
       plain_status P s = s /\
       _get_status_width (plain_status P s) = w /\
       _format_status colorama s <> s).
Proof.
  split; [reflexivity|]. split.
  { apply (bool_decide_unpack _). vm_compute. exact I. }
  split.
  { intros W st. destruct (detect_usb_version_unfold W st) as (st' & Hrun & Hst).
    eexists _, st'. split; [exact Hrun|]. split; [exact Hst|].
    apply version_of_status. }
  split.
  { intros W st. destruct (detect_power_sysfs_unfold W st) as (st' & Hrun & Hst).
    eexists _, st'. split; [exact Hrun|]. split; [exact Hst|].
    apply scan_power_status. }
  split.
  { intros W st.
    destruct (usb_stability_test_unfold W st) as (r & st' & Hrun & Hst & Hr).
    exists r, st'. split; [exact Hrun|]. split; [exact Hst|].
    destruct Hr as [-> | (n & _ & ->)]; cbn; tauto. }
  split.
  { intros W st.
    destruct (check_pinout_data_unfold W st) as (r & st' & Hrun & Hst & Hr).
    exists r, st'. split; [exact Hrun|]. split; [exact Hst|].
    destruct Hr as [-> | ->]; cbn; tauto. }
  split.
  { intros W st. destruct (estimate_cable_quality_unfold W st) as (st' & Hrun & Hst).
    eexists _, st'. split; [exact Hrun|]. split; [exact Hst|].
    apply quality_of_status. }
  split.
  { intros W device_name st r st' Hrun.
    apply transfer_speed_test_Ok in Hrun as (Hrec & _ & Hr).
    split; [exact Hrec|]. by apply statuses_of_stars. }
  split; [cbn; tauto|].
  split.
  { intros W Fore rep st H key r Hr.
    apply run_complete_test_Ok in H
      as (v & p & t & d & q & s & Hrec & _ & Hall & _ & _).
    rewrite Hrec in Hr. apply lookup_six in Hr.
    rewrite Forall_forall in Hall. apply Hall, list_elem_of_In, Hr. }
  intros s P. apply seven_statuses_render.
Qed.

(** ** The statements at the sample worlds *)

(** Five passing probes and the unavailable speed: 5/6, 83%, mid tier. *)
Lemma aggregator_counts_and_ranks_witness :
  exists rep,
    print_perfect_table DummyColor five_of_six = Ok (rep, five_of_six) /\
    passed_count rep = 5 /\
    PyFloat.format_0f (percentage rep) = "83" /\
    verdict DummyColor (percentage rep) = ["⭐ USB CERTIFIED"].
Proof.
  destruct (aggregator_counts_and_ranks DummyColor five_of_six
              {| value := "USB 3.2 Gen 2"; status := "⭐⭐ (2/3)" |}
              {| value := "900mA"; status := "⭐⭐ (2/3)" |}
              unavailable
              {| value := "0 Errors"; status := "✅" |}
              {| value := "OK"; status := "✅" |}
              {| value := "2 Configs"; status := "✅" |})
    as [(rep & Hrun & Hn & _ & _ & _ & _ & H5 & _) _];
    try (vm_compute; reflexivity).
  exists rep. split; [exact Hrun|]. split; [exact Hn|].
  destruct (H5 eq_refl) as [Hmid H83]. split; [exact H83|exact Hmid].
Defined.


(** With the phone, the speed result of the sample world has a status of
    the table, and its row gets its width from the table. *)
Lemma record_statuses_are_the_seven_glyphs_witness :
  exists rep st r w,
    run_complete_test bench colorama init = Ok (rep, st) /\
    test_results st !! "speed" = Some r /\
    In (status r) statuses /\
    widths !! status r = Some w /\
    _get_status_width (_strip_ansi (_format_status colorama (status r))) = w.
Proof.
  assert (exists rep st r, run_complete_test bench colorama init = Ok (rep, st) /\
                           test_results st !! "speed" = Some r)
    as (rep & st & r & Hrun & Hr)
    by (eexists _, _, _; split; vm_compute; reflexivity).
  destruct record_statuses_are_the_seven_glyphs
    as (_ & _ & _ & _ & _ & _ & _ & _ & _ & Hall & Hrender).
  pose proof (Hall bench colorama rep st Hrun "speed" r Hr) as Hin.
  destruct (Hrender (status r) colorama Hin (or_intror eq_refl))
    as (w & Hw & _ & Hwidth & _).
  exists rep, st, r, w. repeat split; assumption.
Defined.

(** Cycle 2 of the sample world: one byte differs, the cycle is not counted,
    and the tester is the one a missing file would have left. *)
Lemma cycle_counted_iff_digest_matches_witness :
  fetched bench 2 = Some (payload 7) /\
  urandom bench 2 = payload 2 /\
  (exists st', cycle bench bench_path 2 (0, []) init = Ok ((0, []), st')) /\
  cycle bench bench_path 2 (0, []) init =
  cycle (with_fetched bench 2 None) bench_path 2 (0, []) init.
Proof.
  destruct (cycle_counted_iff_digest_matches bench bench_path 2 0 [] init)
    as [(acc' & st' & Hrun & Hcases & Hiff) Hsame];
    [vm_compute; reflexivity | vm_compute; reflexivity |].
  split; [reflexivity|]. split; [reflexivity|]. split.
  - exists st'. destruct Hcases as [Hcounted | ->]; [|exact Hrun].
    apply Hiff in Hcounted as (_ & D & HD & Hdigest).
    injection HD as <-. vm_compute in Hdigest. discriminate Hdigest.
  - apply (Hsame (payload 7)); [reflexivity|]. vm_compute. discriminate.
Defined.

(** The speed test of the sample world: cycles 0 and 4 verify, at 512 and
    256 Mbps, and the result is their mean with 2 successes out of 5. *)
Lemma speed_aggregate_over_verified_cycles_witness :
  List.filter (cycle_ok bench) [0; 1; 2; 3; 4]%nat = [0; 4]%nat /\
  map (cycle_speed bench) [0; 4]%nat = [512%float; 256%float] /\
  exists st',
    transfer_speed_test bench "Google_Pixel_1234" init =
    Ok ({| value := "384Mbps (2/5)"; status := "⭐⭐ (2/3)" |}, st').
Proof.
  split; [vm_compute; reflexivity|]. split; [vm_compute; reflexivity|].
  destruct (speed_aggregate_over_verified_cycles bench "Google_Pixel_1234" init)
    as (st' & Hrun & _).
  - reflexivity.
  - intros i Hi _. do 5 (destruct i as [|i]; [vm_compute; reflexivity|]). lia.
  - exists st'. rewrite Hrun. f_equal.
Defined.


(** * Further properties of the tester *)

(** ** More on Python text *)

Lemma forallb_str_app p s t :
  Py.forallb_str p (s +:+ t) = Py.forallb_str p s && Py.forallb_str p t.
Proof.
  induction s as [|c s IH]; [reflexivity|].
  rewrite PyFacts.app_cons. cbn [Py.forallb_str]. by rewrite IH, andb_assoc.
Qed.

Lemma str_app_assoc (a b c : string) : (a +:+ b) +:+ c = a +:+ b +:+ c.
Proof. induction a as [|x a IH]; [reflexivity|]. rewrite !PyFacts.app_cons. by rewrite IH. Qed.

Lemma str_app_nil_l (s : string) : "" +:+ s = s.
Proof. reflexivity. Qed.

Lemma app_empty_r (t : string) : t +:+ "" = t.
Proof. induction t as [|c t IH]; [reflexivity|]. by rewrite PyFacts.app_cons, IH. Qed.

Lemma prefix_eqb (a : ascii) (s : string) (b : ascii) (t : string) :
  String.prefix (String a s) (String b t) = Ascii.eqb a b && String.prefix s t.
Proof.
  change (String.prefix (String a s) (String b t))
    with (if ascii_dec a b then String.prefix s t else false).
  destruct (ascii_dec a b) as [->|Hne]; [by rewrite Ascii.eqb_refl|].
  by apply Ascii.eqb_neq in Hne as ->.
Qed.

Lemma prefix_nil (s : string) : String.prefix "" s = true.
Proof. by destruct s. Qed.

Lemma prefix_of_nil (a : ascii) (s : string) : String.prefix (String a s) "" = false.
Proof. reflexivity. Qed.

Lemma contains_false_cons sub c s :
  Py.contains sub (String c s) = false ->
  String.prefix sub (String c s) = false /\ Py.contains sub s = false.
Proof. rewrite contains_unfold. apply orb_false_iff. Qed.

(** An occurrence cannot run over a character the pattern does not hold. *)
Lemma prefix_cut (sep u : string) (c : ascii) (t : string) :
  Py.forallb_str (fun d => negb (Ascii.eqb d c)) sep = true ->
  String.prefix sep (u +:+ String c t) = true -> String.prefix sep u = true.
Proof.
  revert u. induction sep as [|a sep IH]; intros u Hsep H; [apply prefix_nil|].
  cbn [Py.forallb_str] in Hsep. apply andb_true_iff in Hsep as [Ha Hsep].
  destruct u as [|b u].
  - rewrite str_app_nil_l, prefix_eqb in H. apply andb_true_iff in H as [H _].
    rewrite H in Ha. discriminate.
  - rewrite PyFacts.app_cons, prefix_eqb in H. rewrite prefix_eqb.
    apply andb_true_iff in H as [-> H]. by apply IH.
Qed.

Lemma prefix_app (a s x : string) :
  String.prefix a s = true -> String.prefix a (s +:+ x) = true.
Proof.
  revert s. induction a as [|c a IH]; intros s H; [by destruct (s +:+ x)|].
  destruct s as [|d s]; [discriminate|]. rewrite PyFacts.app_cons. cbn in H |- *.
  destruct (ascii_dec c d); [by apply IH|discriminate].
Qed.

Lemma drop_app (n : nat) (s x : string) :
  (n <= String.length s)%nat -> Py.drop n (s +:+ x) = Py.drop n s +:+ x.
Proof.
  revert s. induction n as [|n IH]; intros s Hn; [reflexivity|].
  destruct s as [|c s]; [cbn in Hn; lia|]. rewrite PyFacts.app_cons. cbn [Py.drop].
  apply IH. cbn in Hn. lia.
Qed.

Lemma span_app_stop (p : ascii -> bool) (s a b x : string) (c : ascii) :
  Py.span p s = (a, String c b) -> Py.span p (s +:+ x) = (a, String c b +:+ x).
Proof.
  revert a. induction s as [|d s IH]; intros a; [discriminate|].
  rewrite PyFacts.app_cons. cbn [Py.span]. destruct (p d).
  - destruct (Py.span p s) as [a' b'] eqn:Hs. intros [= <- ->].
    by rewrite (IH a' eq_refl).
  - intros [= <- <- <-]. reflexivity.
Qed.

Lemma span_app_all (p : ascii -> bool) (s a x : string) (c : ascii) :
  Py.span p s = (a, "") -> p c = false ->
  Py.span p (s +:+ String c x) = (a, String c x).
Proof.
  intros Hs Hc. revert a Hs. induction s as [|d s IH]; intros a.
  - intros [= <-]. change ("" +:+ String c x) with (String c x). cbn [Py.span].
    by rewrite Hc.
  - rewrite PyFacts.app_cons. cbn [Py.span]. destruct (p d); [|discriminate].
    destruct (Py.span p s) as [a' b'] eqn:Hs. intros [= <- ->].
    by rewrite (IH a' eq_refl).
Qed.

Lemma span_all (p : ascii -> bool) (s a : string) :
  Py.span p s = (a, "") -> Py.forallb_str p s = true.
Proof.
  revert a. induction s as [|d s IH]; intros a; [done|].
  cbn [Py.span Py.forallb_str]. destruct (p d); [|discriminate].
  destruct (Py.span p s) as [a' b'] eqn:Hs. intros [= <- ->]. by rewrite (IH a' eq_refl).
Qed.

Lemma span_nil_head (p : ascii -> bool) (s b : string) :
  Py.span p s = ("", b) -> b = s.
Proof.
  destruct s as [|c s]; cbn [Py.span]; [by intros [= <-]|].
  destruct (p c); [|by intros [= <-]]. by destruct (Py.span p s).
Qed.

Lemma span_nil_app (p : ascii -> bool) (c : ascii) (s x : string) :
  Py.span p (String c s) = ("", String c s) ->
  Py.span p (String c s +:+ x) = ("", String c s +:+ x).
Proof.
  rewrite PyFacts.app_cons. cbn [Py.span]. destruct (p c); [|done].
  by destruct (Py.span p s).
Qed.

Lemma last_map {A B} (f : A -> B) (l : list A) :
  last (map f l) = match last l with Some x => Some (f x) | None => None end.
Proof.
  induction l as [|x l IH]; [reflexivity|].
  destruct l as [|y l]; [reflexivity|]. exact IH.
Qed.

(** ** The stability probe *)

Lemma poll_dmesg_count base polls error_count st :
  exists st',
    poll_dmesg base polls error_count st =
    Ok (error_count + Z.of_nat (length (flat_map (fresh_errors base) polls)), st') /\
    same_record st st' /\ fs st' = fs st /\
    issued st' = issued st ++ repeat "dmesg | tail -5 | grep -i usb" (length polls) /\
    journal st' = journal st ++
      flat_map (fun o => complaints o "dmesg | tail -5 | grep -i usb" false) polls.
Proof.
  revert error_count st. induction polls as [|o polls IH]; intros error_count st.
  - exists st. cbn. rewrite Z.add_0_r, !app_nil_r. repeat split.
  - cbn [poll_dmesg]. exec. rewrite stdout_completed.
    fold (fresh_errors base o).
    edestruct IH as (st' & -> & [Hres Hkeys] & Hfs & Hcmds & Hlog).
    cbn [test_results assigned journal issued fs] in Hres, Hkeys, Hfs, Hcmds, Hlog.
    exists st'. split.
    + cbn [flat_map]. rewrite length_app, Nat2Z.inj_add. do 2 f_equal. lia.
    + cbn [flat_map length repeat]. rewrite Hcmds, Hlog, <- !app_assoc. by repeat split.
Qed.

Lemma usb_stability_test_count W st :
  exists st',
    usb_stability_test W st =
    Ok (stability_of (Z.of_nat (length (flat_map
          (fresh_errors (Py.lower (output (dmesg_base W)))) (dmesg_polls W)))), st') /\
    stores "stability"
      (stability_of (Z.of_nat (length (flat_map
          (fresh_errors (Py.lower (output (dmesg_base W)))) (dmesg_polls W))))) st st' /\
    issued st' = issued st ++ "dmesg | tail -10 | grep -i usb" ::
                 repeat "dmesg | tail -5 | grep -i usb" (length (dmesg_polls W)).
Proof.
  unfold usb_stability_test. exec. rewrite stdout_completed.
  edestruct poll_dmesg_count as (st1 & -> & [Hres Hkeys] & Hfs & Hcmds & _).
  cbn [test_results assigned journal issued fs] in Hres, Hkeys, Hfs, Hcmds.
  rewrite Z.add_0_l. exec. eexists. split; [reflexivity|].
  cbn [test_results assigned journal issued fs]. unfold stores.
  cbn [test_results assigned journal issued fs].
  rewrite Hres, Hkeys, Hfs, Hcmds, <- app_assoc. by repeat split.
Qed.

Lemma fresh_errors_bound base o : (length (fresh_errors base o) <= 4)%nat.
Proof.
  unfold fresh_errors. 
  etransitivity; [apply length_filter|]. reflexivity.
Qed.

Lemma flat_map_bound {A B} (f : A -> list B) (k : nat) (xs : list A) :
  (forall x, (length (f x) <= k)%nat) ->
  (length (flat_map f xs) <= k * length xs)%nat.
Proof.
  intros Hf. induction xs as [|x xs IH]; cbn; [lia|].
  rewrite length_app. specialize (Hf x). lia.
Qed.

Lemma fresh_errors_silent base o : output o = "" -> fresh_errors base o = [].
Proof. intros Ho. unfold fresh_errors. rewrite Ho. reflexivity. Qed.

Lemma flat_map_repeat {A B} (f : A -> list B) (x : A) (k : nat) :
  length (flat_map f (repeat x k)) = (k * length (f x))%nat.
Proof. induction k as [|k IH]; cbn; [reflexivity|]. rewrite length_app. lia. Qed.

(** X1: the stability probe always returns, and its error count is the number
    of (poll, error word) pairs such that the word occurs in the poll's
    lowered output and not in the lowered baseline.  The count is 0 ("0
    Errors", pass glyph) or positive ("<n> Errors", fail glyph), at most four
    per poll; polls that print nothing (or time out) add nothing; and a line
    that stays in the kernel log is counted again by every poll that sees it:
    [k] identical polls give [k] times the count of one.  The probe issues
    the baseline command and then one poll command per poll. *)
Theorem stability_counts_fresh_words_per_poll (W : World) (st : Tester) :
  let base_dmesg := Py.lower (output (dmesg_base W)) in
  let n := Z.of_nat (length (flat_map (fresh_errors base_dmesg) (dmesg_polls W))) in
  (exists st',
     usb_stability_test W st =
     Ok ({| value := if n =? 0 then "0 Errors" else Py.str n +:+ " Errors";
            status := if n =? 0 then "✅" else "❌" |}, st') /\
     issued st' = issued st ++ "dmesg | tail -10 | grep -i usb" ::
                  repeat "dmesg | tail -5 | grep -i usb" (length (dmesg_polls W))) /\
  0 <= n <= 4 * Z.of_nat (length (dmesg_polls W)) /\
  (Forall (fun o => output o = "") (dmesg_polls W) -> n = 0) /\
  (forall o k, dmesg_polls W = repeat o k ->
               n = Z.of_nat k * Z.of_nat (length (fresh_errors base_dmesg o))).
Proof.
  intros base_dmesg n. split; [|split; [|split]].
  - destruct (usb_stability_test_count W st) as (st' & Hrun & _ & Hcmds).
    exists st'. split; [exact Hrun|exact Hcmds].
  - subst n. split; [lia|].
    pose proof (flat_map_bound (fresh_errors base_dmesg) 4 (dmesg_polls W)
                  (fresh_errors_bound base_dmesg)). lia.
  - intros Hsilent. subst n. induction Hsilent as [|o polls Ho _ IH]; [reflexivity|].
    cbn [flat_map]. rewrite (fresh_errors_silent _ _ Ho). exact IH.
  - intros o k Hpolls. subst n. rewrite Hpolls, flat_map_repeat. lia.
Qed.

Lemma fresh_errors_masked base o :
  (forall error, In error errors -> Py.contains error base = true) ->
  fresh_errors base o = [].
Proof.
  intros Hbase. unfold fresh_errors, errors.
  repeat (rewrite filter_cons_False;
          [|rewrite Hbase by (cbn; tauto); rewrite andb_false_r; exact id]).
  reflexivity.
Qed.

(** X2: an error word that the baseline already holds is never counted, in
    any poll.  So when the baseline holds all four words, the probe reports
    "0 Errors" with the pass glyph whatever the polls show. *)
Theorem baseline_words_are_never_counted (W : World) (st : Tester) :
  let base_dmesg := Py.lower (output (dmesg_base W)) in
  (forall error o, Py.contains error base_dmesg = true ->
                   ~ In error (fresh_errors base_dmesg o)) /\
  ((forall error, In error errors -> Py.contains error base_dmesg = true) ->
   exists st',
     usb_stability_test W st = Ok ({| value := "0 Errors"; status := "✅" |}, st')).
Proof.
  intros base_dmesg. split.
  - intros error o Hbase Hin.
    apply list_elem_of_In, list_elem_of_filter in Hin as [Hfresh _].
    rewrite Hbase, andb_false_r in Hfresh. exact Hfresh.
  - intros Hbase. destruct (usb_stability_test_count W st) as (st' & Hrun & _).
    exists st'. rewrite Hrun. do 2 f_equal.
    replace (flat_map _ _) with (@nil string); [reflexivity|].
    clear Hrun. induction (dmesg_polls W) as [|o polls IH]; [reflexivity|].
    cbn [flat_map]. rewrite fresh_errors_masked by exact Hbase. exact IH.
Qed.

(** ** The power probe *)

Lemma scan_power_existsb W devices :
  scan_power W devices =
  if existsb (power_on W) devices
  then {| value := "900mA"; status := "⭐⭐ (2/3)" |}
  else {| value := "500mA"; status := "⭐ (1/3)" |}.
Proof.
  induction devices as [|d ds IH]; [reflexivity|].
  cbn [scan_power existsb]. unfold power_on at 1. cbn zeta.
  destruct (sysfs_exists W _); [|exact IH]. cbn [andb].
  destruct (sysfs_read W _) as [text|]; [|exact IH].
  destruct (Py.contains "on" _); [reflexivity|exact IH].
Qed.

Lemma usb_devices_candidates W :
  Forall (fun device_path =>
            exists root dirs d,
              In (root, dirs) (sysfs_walk W) /\ In d dirs /\ bus_dir d = true /\
              device_path = root +:+ "/" +:+ d)
         (usb_devices W).
Proof.
  unfold usb_devices. apply Forall_take.
  induction (sysfs_walk W) as [|[root dirs] walk IH]; [constructor|].
  cbn [flat_map]. apply Forall_app. split.
  - clear IH. apply Forall_forall. intros p Hp.
    apply list_elem_of_In, in_map_iff in Hp as (d & <- & Hd).
    apply list_elem_of_In, list_elem_of_filter in Hd as [Hbus Hd].
    exists root, dirs, d. split; [by left|]. split; [by apply list_elem_of_In|].
    split; [by apply Is_true_eq_true|reflexivity].
  - eapply Forall_impl; [exact IH|]. cbn. intros p (root' & dirs' & d & Hin & ?).
    exists root', dirs', d. split; [by right|done].
Qed.

(** X3: the power probe always returns; it reports "900mA" at tier 2 exactly
    when one of its candidate devices has a [power] directory whose [control]
    file can be read and holds "on" (in any case, blanks stripped), and
    "500mA" at tier 1 otherwise, a missing directory or an unreadable file
    being skipped.  The candidates are at most five, each a directory
    [root/d] of the walk whose name starts with "1-", "2-", "3-" or "4-". *)
Theorem power_probe_reads_first_five_candidates (W : World) (st : Tester) :
  let r := if existsb (power_on W) (usb_devices W)
           then {| value := "900mA"; status := "⭐⭐ (2/3)" |}
           else {| value := "500mA"; status := "⭐ (1/3)" |} in
  (exists st',
     detect_power_sysfs W st = Ok (r, st') /\
     test_results st' !! "power" = Some r) /\
  (length (usb_devices W) <= 5)%nat /\
  Forall (fun device_path =>
            exists root dirs d,
              In (root, dirs) (sysfs_walk W) /\ In d dirs /\ bus_dir d = true /\
              device_path = root +:+ "/" +:+ d)
         (usb_devices W).
Proof.
  intros r. split; [|split].
  - destruct (detect_power_sysfs_unfold W st) as (st' & Hrun & Hres & _).
    exists st'. subst r. rewrite <- scan_power_existsb. split; [exact Hrun|].
    rewrite Hres. apply lookup_insert_eq.
  - unfold usb_devices. rewrite length_take. lia.
  - apply usb_devices_candidates.
Qed.

(** ** The version probe: the first match is final *)

Lemma match_bcdUSB_extends (s rest ver : string) :
  match_bcdUSB s = Some ver -> match_bcdUSB (s +:+ Py.nl +:+ rest) = Some ver.
Proof.
  unfold match_bcdUSB, Py.startswith.
  destruct (String.prefix "bcdUSB" s) eqn:Hp; [|discriminate].
  rewrite (prefix_app _ _ _ Hp), drop_app by (by apply PyFacts.prefix_length in Hp).
  destruct (Py.span Py.is_space (Py.drop 6 s)) as [ws r1] eqn:Hws.
  destruct (Py.span Py.is_digit r1) as [d1 r2] eqn:Hd1.
  destruct ws as [|w ws]; [discriminate|]. destruct d1 as [|c1 d1]; [discriminate|].
  destruct r2 as [|dot r3]; [discriminate|].
  destruct r1 as [|e r1]; [discriminate|].
  rewrite (span_app_stop _ _ _ _ _ _ Hws), (span_app_stop _ _ _ _ _ _ Hd1).
  rewrite PyFacts.app_cons.
  destruct (ascii_dec dot ".") as [->|Hdot].
  2: { destruct dot as [[] [] [] [] [] [] [] []]; try discriminate. done. }
  destruct (Py.span Py.is_digit r3) as [d2 r4] eqn:Hd2.
  destruct d2 as [|c2 d2]; [discriminate|]. intros [= <-].
  destruct r4 as [|f r4].
  - change (Py.nl +:+ rest) with (String "010" rest).
    by rewrite (span_app_all _ _ _ _ _ Hd2).
  - by rewrite (span_app_stop _ _ _ _ _ _ Hd2).
Qed.

Lemma match_bcdUSB_closed (s rest : string) :
  match_bcdUSB s = None -> open_match s = false ->
  match_bcdUSB (s +:+ Py.nl +:+ rest) = None.
Proof.
  unfold match_bcdUSB, open_match, Py.startswith.
  destruct (String.prefix "bcdUSB" s) eqn:Hp.
  2: { intros _ _.
       destruct (String.prefix "bcdUSB" (s +:+ Py.nl +:+ rest)) eqn:Hp'; [|done].
       change (Py.nl +:+ rest) with (String "010" rest) in Hp'.
       apply prefix_cut in Hp'; [congruence|reflexivity]. }
  rewrite (prefix_app _ _ _ Hp), drop_app by (by apply PyFacts.prefix_length in Hp).
  cbn [andb]. generalize (Py.drop 6 s). clear s Hp. intros s.
  change (Py.nl +:+ rest) with (String "010" rest).
  destruct (Py.span Py.is_space s) as [ws r1] eqn:Hws.
  destruct r1 as [|e r1].
  { intros _ Hopen. apply span_all in Hws. congruence. }
  rewrite (span_app_stop _ _ _ _ _ _ Hws).
  destruct (Py.span Py.is_digit (String e r1)) as [d1 r2] eqn:Hd1.
  intros Hnone _.
  destruct r2 as [|dot r3].
  { rewrite (span_app_all _ _ _ _ _ Hd1) by reflexivity.
    destruct ws; [done|]. by destruct d1. }
  rewrite (span_app_stop _ _ _ _ _ _ Hd1).
  destruct ws as [|w ws]; [done|]. destruct d1 as [|c1 d1]; [done|].
  rewrite PyFacts.app_cons.
  destruct (ascii_dec dot ".") as [->|Hdot].
  2: { destruct dot as [[] [] [] [] [] [] [] []]; try done. }
  destruct (Py.span Py.is_digit r3) as [d2 r4] eqn:Hd2.
  destruct d2 as [|c2 d2]; [|discriminate].
  pose proof (span_nil_head _ _ _ Hd2) as ->. destruct r3 as [|f r3].
  - reflexivity.
  - by rewrite (span_nil_app _ _ _ _ Hd2).
Qed.

Lemma search_without_b (s : string) :
  Py.forallb_str (fun c => negb (Ascii.eqb "b" c)) s = true -> search_bcdUSB s = None.
Proof.
  induction s as [|c s IH]; [reflexivity|].
  cbn [Py.forallb_str]. intros [Hc Hs]%andb_true_iff. apply negb_true_iff in Hc.
  cbn [search_bcdUSB]. unfold match_bcdUSB at 1, Py.startswith.
  rewrite prefix_eqb, Hc. cbn [andb]. by apply IH.
Qed.

Lemma open_match_tail (c : ascii) (s : string) :
  open_match (String c s) = true -> search_bcdUSB s = None.
Proof.
  unfold open_match, Py.startswith. intros [Hp Hws]%andb_true_iff.
  apply search_without_b.
  do 5 (destruct s as [|? s]; [rewrite ?prefix_eqb in Hp;
        repeat (apply andb_true_iff in Hp as [_ Hp]); discriminate Hp|]).
  do 6 (rewrite prefix_eqb in Hp; apply andb_true_iff in Hp as [? Hp]).
  repeat match goal with
         | E : Ascii.eqb _ ?x = true |- _ => apply Ascii.eqb_eq in E; subst x
         end.
  cbn [Py.drop] in Hws. cbn [Py.forallb_str].
  change (negb (Ascii.eqb "b" "c")) with true. change (negb (Ascii.eqb "b" "d")) with true.
  change (negb (Ascii.eqb "b" "U")) with true. change (negb (Ascii.eqb "b" "S")) with true.
  change (negb (Ascii.eqb "b" "B")) with true. cbn [andb].
  revert Hws. apply PyFacts.forallb_str_impl. intros x Hx.
  destruct (Ascii.eqb_spec "b" x) as [<-|]; [discriminate Hx|reflexivity].
Qed.

(** The first match is final: a new line and more text after it do not
    change what the search finds. *)
Lemma search_bcdUSB_app (s rest ver : string) :
  search_bcdUSB s = Some ver -> search_bcdUSB (s +:+ Py.nl +:+ rest) = Some ver.
Proof.
  induction s as [|c s IH]; [discriminate|].
  cbn [search_bcdUSB]. rewrite PyFacts.app_cons. cbn [search_bcdUSB].
  rewrite <- PyFacts.app_cons.
  destruct (match_bcdUSB (String c s)) as [v|] eqn:Hm.
  - intros [= <-]. by rewrite (match_bcdUSB_extends _ rest _ Hm).
  - intros Hs. rewrite match_bcdUSB_closed; [by apply IH|exact Hm|].
    destruct (open_match (String c s)) eqn:Hopen; [|reflexivity].
    apply open_match_tail in Hopen. congruence.
Qed.

(** X4: when the bus listing starts with a text that holds a match of the
    bcdUSB pattern and goes on after a line break, the version probe
    classifies the token of that first match: nothing after the line break
    changes the result that is returned and stored. *)
Theorem first_match_decides_the_version (W : World) (st : Tester)
    (head rest ver : string) :
  output (lsusb_bcd W) = head +:+ Py.nl +:+ rest ->
  search_bcdUSB head = Some ver ->
  exists st',
    detect_usb_version W st = Ok (classify_version ver, st') /\
    test_results st' !! "usb_version" = Some (classify_version ver).
Proof.
  intros Hout Hhead.
  destruct (detect_usb_version_unfold W st) as (st' & Hrun & Hres & _).
  exists st'. rewrite Hrun, Hres, lookup_insert_eq, Hout.
  unfold version_of. by rewrite (search_bcdUSB_app _ rest _ Hhead).
Qed.

(** ** Device discovery *)

Lemma partition_quote s :
  match Py.partition "'" s with
  | Some (a, b) => Py.forallb_str (fun c => negb (is_quote c)) a = true /\
                   s = a +:+ "'" +:+ b
  | None => Py.forallb_str (fun c => negb (is_quote c)) s = true
  end.
Proof.
  induction s as [|c s IH]; [reflexivity|].
  cbn [Py.partition String.prefix].
  destruct (ascii_dec "'" c) as [<-|Hc].
  - destruct s; cbn; done.
  - destruct (Py.partition "'" s) as [[a b]|].
    + destruct IH as [Ha ->]. split; [|reflexivity].
      cbn [Py.forallb_str]. rewrite Ha, andb_true_r.
      unfold is_quote, Py.code. apply negb_true_iff, N.eqb_neq. intros H.
      apply Hc. apply (f_equal ascii_of_N) in H. by rewrite ascii_N_embedding in H.
    + cbn [Py.forallb_str]. rewrite IH, andb_true_r.
      unfold is_quote, Py.code. apply negb_true_iff, N.eqb_neq. intros H.
      apply Hc. apply (f_equal ascii_of_N) in H. by rewrite ascii_N_embedding in H.
Qed.

Lemma split_head_quote s x :
  Py.split "'" s !! 0%nat = Some x ->
  Py.forallb_str (fun c => negb (is_quote c)) x = true.
Proof.
  unfold Py.split. destruct s as [|c s]; [by intros [= <-]|].
  cbn [String.length Py.split_go].
  pose proof (partition_quote (String c s)) as H.
  destruct (Py.partition "'" (String c s)) as [[a b]|]; intros [= <-]; [apply H|exact H].
Qed.

Lemma split_ws_go_class (p : ascii -> bool) s :
  Py.forallb_str p s = true ->
  Forall (fun w => w <> "" /\
                   Py.forallb_str (fun c => negb (Py.is_space c) && p c) w = true)
         (snd (Py.split_ws_go s)).
Proof.
  induction s as [|c s IH]; [constructor|].
  cbn [Py.forallb_str Py.split_ws_go]. intros [Hc Hs]%andb_true_iff.
  specialize (IH Hs). destruct (Py.split_ws_go s) as [inside ws]. cbn [snd] in IH.
  destruct (Py.is_space c) eqn:Hsp; [exact IH|].
  assert (Hone : Py.forallb_str (fun c => negb (Py.is_space c) && p c)
                   (String c "") = true) by (cbn; by rewrite Hsp, Hc).
  destruct inside, ws as [|w ws]; cbn [snd].
  - constructor; [done|constructor].
  - inversion IH as [|? ? [_ Hw] Hws]; subst. constructor; [|exact Hws].
    split; [done|]. cbn [Py.forallb_str]. by rewrite Hsp, Hc, Hw.
  - constructor; [done|constructor].
  - constructor; [done|exact IH].
Qed.

Lemma rstrip_by_class (p q : ascii -> bool) s :
  Py.forallb_str q s = true -> Py.forallb_str q (Py.rstrip_by p s) = true.
Proof.
  induction s as [|c s IH]; [done|]. cbn [Py.forallb_str Py.rstrip_by].
  intros [Hc Hs]%andb_true_iff. specialize (IH Hs).
  destruct (Py.rstrip_by p s) as [|c' s'].
  - destruct (p c); cbn; [done|by rewrite Hc].
  - cbn [Py.forallb_str] in *. by rewrite Hc, IH.
Qed.

Lemma rstrip_by_idem (p : ascii -> bool) s :
  Py.rstrip_by p (Py.rstrip_by p s) = Py.rstrip_by p s.
Proof.
  induction s as [|c s IH]; [done|]. cbn [Py.rstrip_by].
  destruct (Py.rstrip_by p s) as [|c' s'] eqn:E.
  - destruct (p c) eqn:Hc; [done|]. cbn. by rewrite Hc.
  - cbn [Py.rstrip_by] in *. by rewrite IH.
Qed.

Lemma find_mtp_device_word W st name st' :
  find_mtp_device W st = Ok (Some name, st') ->
  exists after quoted first,
    Py.split "mtp://" (output (gio_mounts W)) !! 1%nat = Some after /\
    Py.split "'" after !! 0%nat = Some quoted /\
    Py.split_ws quoted !! 0%nat = Some first /\
    name = Py.rstrip_slash first /\
    journal st' = journal st ++
      complaints (gio_mounts W) "gio mount -l | grep 'mtp://'" false ++
      [("PASS", "MTP device: mtp://" +:+ name)] /\
    issued st' = issued st ++ ["gio mount -l | grep 'mtp://'"].
Proof.
  unfold find_mtp_device. exec. rewrite stdout_completed.
  destruct (decide (output (gio_mounts W) = "")); exec; [discriminate|].
  rewrite item_unfold.
  destruct (Py.split "mtp://" (output (gio_mounts W)) !! 1%nat) as [after|] eqn:Ha;
    [exec|discriminate].
  rewrite item_unfold.
  destruct (Py.split "'" after !! 0%nat) as [quoted|] eqn:Hq; [exec|discriminate].
  rewrite item_unfold.
  destruct (Py.split_ws quoted !! 0%nat) as [first|] eqn:Hf; [exec|discriminate].
  intros [= <- <-]. exists after, quoted, first. cbn. rewrite <- app_assoc. by repeat split.
Qed.

(** X5: a device name that discovery returns holds no blank and no single
    quote, so it stays inside the single quotes of the [gio] commands built
    from it; it does not end with a slash; and the last line logged is the
    "MTP device" line for that name, with the PASS tag. *)
Theorem discovered_name_is_one_bare_word (W : World) (st st' : Tester) (name : string) :
  find_mtp_device W st = Ok (Some name, st') ->
  bare_word name = true /\
  Py.rstrip_slash name = name /\
  last (journal st') = Some ("PASS", "MTP device: mtp://" +:+ name).
Proof.
  intros Hrun.
  apply find_mtp_device_word in Hrun
    as (after & quoted & first & _ & Hq & Hf & -> & Hlog & _).
  split; [|split].
  - apply rstrip_by_class.
    apply split_head_quote in Hq. apply split_ws_go_class in Hq.
    unfold Py.split_ws in Hf. rewrite Forall_forall in Hq.
    apply list_elem_of_lookup_2, Hq in Hf as [_ Hf]. exact Hf.
  - apply rstrip_by_idem.
  - rewrite Hlog, app_assoc. apply last_snoc.
Qed.

(** The scheme has no border: an occurrence that starts before another one
    ends before it. *)
Lemma scheme_overlap (u t : string) :
  String.prefix "mtp://" (u +:+ "mtp://" +:+ t) = true ->
  u = "" \/ String.prefix "mtp://" u = true.
Proof.
  intros H. destruct u as [|a0 u]; [by left|right].
  do 5 (destruct u as [|? u];
        [exfalso; rewrite !PyFacts.app_cons, ?str_app_nil_l, ?PyFacts.app_cons in H;
         repeat (rewrite prefix_eqb in H; apply andb_true_iff in H as [? H]);
         repeat match goal with
                | E : Ascii.eqb _ ?x = true |- _ =>
                    apply Ascii.eqb_eq in E; first [subst x | discriminate E]
                end|]).
  rewrite !PyFacts.app_cons in H. rewrite !prefix_eqb in H |- *.
  rewrite !prefix_nil in H |- *. exact H.
Qed.

Lemma partition_first (label t : string) :
  Py.contains "mtp://" label = false ->
  Py.partition "mtp://" (label +:+ "mtp://" +:+ t) = Some (label, t).
Proof.
  induction label as [|c label IH]; intros Hfree.
  { rewrite str_app_nil_l, !PyFacts.app_cons, str_app_nil_l.
    cbn [Py.partition]. rewrite !prefix_eqb, prefix_nil. reflexivity. }
  apply contains_false_cons in Hfree as [Hhead Hfree].
  rewrite PyFacts.app_cons. cbn [Py.partition]. rewrite <- PyFacts.app_cons.
  destruct (String.prefix "mtp://" (String c label +:+ "mtp://" +:+ t)) eqn:Hp.
  - apply scheme_overlap in Hp as [Hp|Hp]; [discriminate|congruence].
  - rewrite (IH Hfree). reflexivity.
Qed.

(** A cut at [sep] leaves a leading word and the blank after it in place
    when neither holds the separator. *)
Lemma partition_keeps_word (sep w : string) (c : ascii) (t : string) :
  sep <> "" ->
  Py.forallb_str (fun d => negb (Ascii.eqb d c)) sep = true ->
  Py.contains sep w = false ->
  match Py.partition sep (w +:+ String c t) with
  | Some (a, _) => exists a', a = w +:+ String c a'
  | None => True
  end.
Proof.
  intros Hne Hsep. induction w as [|d w IH]; intros Hfree.
  - rewrite str_app_nil_l. cbn [Py.partition].
    destruct (String.prefix sep (String c t)) eqn:Hp.
    + apply (prefix_cut sep "" c t Hsep) in Hp. by destruct sep.
    + destruct (Py.partition sep t) as [[a b]|]; [|done]. by exists a.
  - apply contains_false_cons in Hfree as [Hhead Hfree].
    rewrite PyFacts.app_cons. cbn [Py.partition]. rewrite <- PyFacts.app_cons.
    destruct (String.prefix sep (String d w +:+ String c t)) eqn:Hp.
    + apply prefix_cut in Hp; [congruence|exact Hsep].
    + specialize (IH Hfree).
      destruct (Py.partition sep (w +:+ String c t)) as [[a b]|]; [|done].
      destruct IH as [a' ->]. by exists a'.
Qed.

Lemma split_go_head_keeps_word (fuel : nat) (sep w : string) (c : ascii) (t : string) :
  sep <> "" ->
  Py.forallb_str (fun d => negb (Ascii.eqb d c)) sep = true ->
  Py.contains sep w = false ->
  exists a', Py.split_go fuel sep (w +:+ String c t) !! 0%nat = Some (w +:+ String c a').
Proof.
  intros Hne Hsep Hfree. destruct fuel as [|fuel]; [by exists t|].
  cbn [Py.split_go].
  pose proof (partition_keeps_word sep w c t Hne Hsep Hfree) as H.
  destruct (Py.partition sep (w +:+ String c t)) as [[a b]|]; [|by exists t].
  destruct H as [a' ->]. by exists a'.
Qed.

Lemma split_ws_go_word (w : string) (c : ascii) (t : string) :
  w <> "" -> Py.forallb_str (fun d => negb (Py.is_space d)) w = true ->
  Py.is_space c = true ->
  Py.split_ws_go (w +:+ String c t) = (true, w :: snd (Py.split_ws_go t)).
Proof.
  intros Hne Hw Hc. induction w as [|d w IH]; [done|].
  cbn [Py.forallb_str] in Hw. apply andb_true_iff in Hw as [Hd Hw].
  apply negb_true_iff in Hd.
  rewrite PyFacts.app_cons. cbn [Py.split_ws_go].
  destruct w as [|e w].
  - rewrite str_app_nil_l. cbn [Py.split_ws_go].
    destruct (Py.split_ws_go t) as [inside ws]. by rewrite Hc, Hd.
  - rewrite IH by done. by rewrite Hd.
Qed.

Lemma prefix_scheme_slash (u : string) :
  Py.forallb_str (fun c => negb (is_slash c)) u = true ->
  String.prefix "mtp://" (u +:+ "/") = false.
Proof.
  intros Hu. destruct (String.prefix "mtp://" (u +:+ "/")) eqn:Hp; [|reflexivity].
  exfalso.
  do 5 (destruct u as [|? u];
        [rewrite ?PyFacts.app_cons, str_app_nil_l in Hp;
         repeat (rewrite prefix_eqb in Hp; apply andb_true_iff in Hp as [? Hp]);
         by rewrite prefix_of_nil in Hp|]).
  rewrite !PyFacts.app_cons in Hp.
  do 5 (rewrite prefix_eqb in Hp; apply andb_true_iff in Hp as [? Hp]).
  match goal with E : Ascii.eqb "/" ?x = true |- _ => apply Ascii.eqb_eq in E; subst x end.
  cbn [Py.forallb_str] in Hu.
  do 4 (apply andb_true_iff in Hu as [_ Hu]). apply andb_true_iff in Hu as [Hu _].
  discriminate Hu.
Qed.

Lemma no_scheme_before_slash (h : string) :
  Py.forallb_str (fun c => negb (is_slash c)) h = true ->
  Py.contains "mtp://" (h +:+ "/") = false.
Proof.
  induction h as [|c h IH]; [reflexivity|].
  intros Hh. pose proof Hh as Hall.
  cbn [Py.forallb_str] in Hh. apply andb_true_iff in Hh as [_ Hh].
  rewrite PyFacts.app_cons, contains_unfold, (IH Hh), orb_false_r.
  rewrite <- PyFacts.app_cons. by apply prefix_scheme_slash.
Qed.

Lemma contains_char_false (q : ascii) (s : string) :
  Py.forallb_str (fun c => negb (Ascii.eqb c q)) s = true ->
  Py.contains (String q "") s = false.
Proof.
  induction s as [|c s IH]; [reflexivity|].
  cbn [Py.forallb_str]. intros [Hc Hs]%andb_true_iff.
  rewrite contains_unfold, (IH Hs), orb_false_r, prefix_eqb, prefix_nil, andb_true_r.
  rewrite Ascii.eqb_sym. by apply negb_true_iff.
Qed.

(** X6: on a mount list whose first MTP URI reads [mtp://host/] at the end of
    a line (the scheme does not occur before it; the host is not empty and
    holds no blank, quote or slash), discovery returns [host], whatever
    follows on later lines, and logs the "MTP device" line for it. *)
Theorem discovery_returns_the_first_host (W : World) (st : Tester)
    (label host rest : string) :
  output (gio_mounts W) = label +:+ "mtp://" +:+ host +:+ "/" +:+ Py.nl +:+ rest ->
  Py.contains "mtp://" label = false ->
  host <> "" ->
  host_name host = true ->
  exists st',
    find_mtp_device W st = Ok (Some host, st') /\
    journal st' = journal st ++
      complaints (gio_mounts W) "gio mount -l | grep 'mtp://'" false ++
      [("PASS", "MTP device: mtp://" +:+ host)].
Proof.
  intros Hout Hlabel Hne Hhost.
  assert (Hsp : Py.forallb_str (fun d => negb (Py.is_space d)) host = true).
  { revert Hhost. apply PyFacts.forallb_str_impl. intros c.
    by intros [[? _]%andb_true_iff _]%andb_true_iff. }
  assert (Hq : Py.forallb_str (fun d => negb (Ascii.eqb d "'")) host = true).
  { revert Hhost. apply PyFacts.forallb_str_impl. intros c.
    intros [[_ Hc]%andb_true_iff _]%andb_true_iff. revert Hc.
    destruct (Ascii.eqb_spec c "'") as [->|]; done. }
  assert (Hsl : Py.forallb_str (fun d => negb (is_slash d)) host = true).
  { revert Hhost. apply PyFacts.forallb_str_impl. intros c.
    by intros [_ ?]%andb_true_iff. }
  set (w := host +:+ "/").
  assert (Hw : w <> "") by (subst w; by destruct host).
  assert (Hout' : output (gio_mounts W) =
                  label +:+ "mtp://" +:+ (w +:+ String "010" rest)).
  { rewrite Hout. subst w. by rewrite str_app_assoc. }
  unfold find_mtp_device. exec. rewrite stdout_completed.
  rewrite decide_False by (rewrite Hout; by destruct label).
  rewrite bind_unfold, item_unfold.
  assert (exists t1, Py.split "mtp://" (output (gio_mounts W)) !! 1%nat =
                     Some (w +:+ String "010" t1)) as [t1 ->].
  { unfold Py.split. rewrite Hout'.
    destruct (String.length _) as [|fuel] eqn:Hlen.
    - rewrite !PyFacts.length_app in Hlen. cbn [String.length] in Hlen. lia.
    - cbn [Py.split_go]. rewrite partition_first by exact Hlabel.
      change ((label :: ?l) !! 1%nat) with (l !! 0%nat).
      apply split_go_head_keeps_word; [done|reflexivity|].
      by apply no_scheme_before_slash. }
  rewrite bind_unfold, item_unfold.
  assert (exists t2, Py.split "'" (w +:+ String "010" t1) !! 0%nat =
                     Some (w +:+ String "010" t2)) as [t2 ->].
  { apply split_go_head_keeps_word; [done|reflexivity|].
    apply contains_char_false. subst w. rewrite forallb_str_app, Hq. reflexivity. }
  rewrite bind_unfold, item_unfold. unfold Py.split_ws.
  rewrite split_ws_go_word; [|exact Hw| |reflexivity].
  2: { subst w. rewrite forallb_str_app, Hsp. reflexivity. }
  cbn [snd lookup list_lookup]. exec. subst w.
  unfold Py.rstrip_slash. rewrite PyFacts.rstrip_by_snoc by (exact Hsl || reflexivity).
  eexists. split; [reflexivity|]. cbn. by rewrite <- app_assoc.
Qed.

(** ** The speed test *)

Lemma issued_after_cycle W path i st :
  issued (after_cycle W path i st) = issued st ++ cycle_commands W path i.
Proof. reflexivity. Qed.

Lemma cycles_closed W path range success speeds st :
  fs st = ∅ ->
  if existsb (stalls W) range then
    cycles W path range (success, speeds) st = Raise ZeroDivisionError
  else
    exists st',
      cycles W path range (success, speeds) st =
      Ok ((success + Z.of_nat (length (List.filter (cycle_ok W) range)),
           speeds ++ map (cycle_speed W) (List.filter (cycle_ok W) range)), st') /\
      fs st' = ∅ /\ same_record st st' /\
      issued st' = issued st ++ flat_map (cycle_commands W path) range.
Proof.
  revert success speeds st.
  induction range as [|i range IH]; intros success speeds st Hfs.
  - exists st. cbn. rewrite Z.add_0_r, !app_nil_r. repeat split; done.
  - cbn [cycles List.filter existsb flat_map]. rewrite bind_unfold, cycle_clean by exact Hfs.
    pose proof (after_cycle_clean W path i st Hfs) as Hafter.
    unfold stalls at 1. destruct (cycle_ok W i); cbn [andb orb].
    + destruct (elapsed W i =? 0)%float; cbn [orb]; [reflexivity|].
      specialize (IH (success + 1) (speeds ++ [cycle_speed W i]) _ Hafter).
      destruct (existsb (stalls W) range); [exact IH|].
      destruct IH as (st' & -> & ? & ? & Hcmds).
      exists st'. cbn [length map]. rewrite <- app_assoc. cbn [app].
      split; [do 3 f_equal; lia|]. split; [done|]. split.
      * apply (same_record_trans _ (after_cycle W path i st)); [by split|done].
      * rewrite Hcmds, issued_after_cycle, <- app_assoc. reflexivity.
    + specialize (IH success speeds _ Hafter).
      destruct (existsb (stalls W) range); [exact IH|].
      destruct IH as (st' & -> & ? & ? & Hcmds).
      exists st'. split; [done|]. split; [done|]. split.
      * apply (same_record_trans _ (after_cycle W path i st)); [by split|done].
      * rewrite Hcmds, issued_after_cycle, <- app_assoc. reflexivity.
Qed.

(** Where two testers hold the same temp files, the loop gives the same
    counters, or raises the same exception. *)
Lemma cycles_ext W path range acc st1 st2 :
  fs st1 = fs st2 ->
  match cycles W path range acc st1, cycles W path range acc st2 with
  | Ok (acc1, st1'), Ok (acc2, st2') => acc1 = acc2 /\ fs st1' = fs st2'
  | Raise e1, Raise e2 => e1 = e2
  | _, _ => False
  end.
Proof.
  revert acc st1 st2. induction range as [|i range IH]; intros [success speeds] st1 st2 Hfs.
  - cbn. done.
  - cbn [cycles]. rewrite !bind_unfold, !cycle_unfold. unfold downloaded. rewrite Hfs.
    assert (Hafter : fs (after_cycle W path i st1) = fs (after_cycle W path i st2))
      by (unfold after_cycle; cbn; by rewrite Hfs).
    destruct (exit_code (upload W i) =? 0); [|by apply IH].
    destruct (match fetched W i with Some _ => _ | None => _ end) as [content|];
      [|by apply IH].
    destruct (decide _); [|by apply IH].
    destruct (elapsed W i =? 0)%float; [done|by apply IH].
Qed.

Lemma cycles_uploads_fail W path range acc st :
  (forall i, In i range -> exit_code (upload W i) <> 0) ->
  exists st',
    cycles W path range acc st = Ok (acc, st') /\
    same_record st st' /\
    issued st' = issued st ++ map (upload_cmd W path) range /\
    journal st' = journal st ++
      flat_map (fun i => complaints (upload W i) (upload_cmd W path i) true) range.
Proof.
  revert st. induction range as [|i range IH]; intros st Hfail.
  - exists st. cbn. rewrite !app_nil_r. repeat split.
  - cbn [cycles]. destruct acc as [success speeds]. rewrite bind_unfold, cycle_unfold.
    assert (Hi : (exit_code (upload W i) =? 0) = false)
      by (apply Z.eqb_neq, Hfail; by left).
    rewrite Hi.
    destruct (IH (after_cycle W path i st)) as (st' & -> & [Hres Hkeys] & Hcmds & Hlog).
    { intros j Hj. apply Hfail. by right. }
    exists st'. split; [reflexivity|]. unfold after_cycle in *.
    cbn [test_results assigned journal issued fs] in *. rewrite Hi in *.
    rewrite Hcmds, Hlog, app_nil_r, <- !app_assoc. by repeat split.
Qed.

Lemma complaints_failed o cmd :
  exit_code o <> 0 -> exists message, complaints o cmd true = [("FAIL", message)].
Proof.
  destruct o as [rc out err|]; cbn; [|eauto]. intros Hrc.
  apply Z.eqb_neq in Hrc. rewrite Hrc. eauto.
Qed.

(** X7: when each of the five uploads fails (non-zero exit code or timeout),
    the speed test still returns, whatever the temp directory holds: the
    result is "0Mbps (0/5)" with the warn glyph and is stored under "speed";
    the only commands issued are the five uploads; and the log gets the
    opening line, one FAIL line per upload and the closing line. *)
Theorem speed_test_when_every_upload_fails (W : World) (device_name : string)
    (st : Tester) :
  (forall i, (i < 5)%nat -> exit_code (upload W i) <> 0) ->
  let full_path :=
    "mtp://" +:+ device_name +:+ "/Interner%20gemeinsamer%20Speicher/DCIM" in
  let r := {| value := "0Mbps (0/5)"; status := "⚠️" |} in
  exists st',
    transfer_speed_test W device_name st = Ok (r, st') /\
    test_results st' !! "speed" = Some r /\
    issued st' = issued st ++ map (upload_cmd W full_path) [0; 1; 2; 3; 4]%nat /\
    journal st' = journal st ++
      [("INFO", "Transfer speed test...")] ++
      flat_map (fun i => complaints (upload W i) (upload_cmd W full_path i) true)
               [0; 1; 2; 3; 4]%nat ++
      [("PASS", "Speed: 0Mbps (0/5) ⚠️")] /\
    Forall (fun i => exists message,
              complaints (upload W i) (upload_cmd W full_path i) true =
              [("FAIL", message)]) [0; 1; 2; 3; 4]%nat.
Proof.
  intros Hfail full_path r.
  assert (Hpath : full_path = "mtp://" +:+ device_name +:+ "/" +:+
            "Interner%20gemeinsamer%20Speicher" +:+ "/" +:+ "DCIM").
  { reflexivity. }
  unfold transfer_speed_test. exec. rewrite <- Hpath.
  edestruct (cycles_uploads_fail W full_path (seq 0 TEST_CYCLES))
    as (st1 & -> & [Hres Hkeys] & Hcmds & Hlog).
  { intros i Hi. apply Hfail. apply in_seq in Hi. unfold TEST_CYCLES in Hi. lia. }
  exec. eexists. split; [reflexivity|].
  cbn [test_results assigned journal issued fs] in *.
  split; [apply lookup_insert_eq|]. split; [exact Hcmds|]. split.
  - rewrite Hlog, <- !app_assoc. reflexivity.
  - apply Forall_forall. intros i Hi. apply complaints_failed, Hfail.
    apply list_elem_of_In in Hi. cbn in Hi. lia.
Qed.

Lemma progress_closed W path a n success speeds st :
  fs st = ∅ ->
  existsb (stalls W) (seq a n) = false ->
  exists st',
    progress W path (seq a n) (success, speeds) st =
    Ok (map (fun k => progress_line k
                        (speeds ++ map (cycle_speed W)
                                       (List.filter (cycle_ok W) (seq a (S k - a)))))
            (seq a n), st').
Proof.
  revert a success speeds st. induction n as [|n IH]; intros a success speeds st Hfs Hgo.
  - exists st. reflexivity.
  - cbn [seq progress existsb map] in *. apply orb_false_iff in Hgo as [Hi Hgo].
    rewrite bind_unfold, cycle_clean by exact Hfs.
    pose proof (after_cycle_clean W path a st Hfs) as Hafter.
    replace (S a - a)%nat with 1%nat by lia. cbn [seq List.filter].
    assert (Hseq : forall k, In k (seq (S a) n) ->
              seq a (S k - a) = a :: seq (S a) (S k - S a)).
    { intros k Hk. apply in_seq in Hk.
      replace (S k - a)%nat with (S (S k - S a)) by lia. reflexivity. }
    unfold stalls in Hi. destruct (cycle_ok W a) eqn:Hok; cbn [andb] in Hi.
    + rewrite Hi, bind_unfold.
      destruct (IH (S a) (success + 1) (speeds ++ [cycle_speed W a]) _ Hafter Hgo)
        as (st' & ->).
      exists st'. unfold mret, M_ret. cbn [snd map]. unfold progress_line at 2.
      do 3 f_equal. apply map_ext_in. intros k Hk. rewrite (Hseq k Hk).
      cbn [List.filter]. rewrite Hok. cbn [map]. by rewrite <- app_assoc.
    + rewrite bind_unfold.
      destruct (IH (S a) success speeds _ Hafter Hgo) as (st' & ->).
      exists st'. unfold mret, M_ret. cbn [snd map]. rewrite app_nil_r.
      unfold progress_line at 2.
      do 3 f_equal. apply map_ext_in. intros k Hk. rewrite (Hseq k Hk).
      cbn [List.filter]. rewrite Hok. reflexivity.
Qed.

(** X8: started with an empty temp directory, in a world whose clock advances
    during the verified cycles, the five progress lines read "  i/5 "
    followed by "FAIL" as long as no cycle has verified, and from then on by
    the speed of the most recent verified cycle: a cycle that fails after a
    verified one shows that earlier speed, not "FAIL". *)
Theorem progress_shows_the_last_verified_speed (W : World) (full_path : string)
    (st : Tester) :
  fs st = ∅ ->
  (forall i, (i < 5)%nat -> cycle_ok W i = true -> (elapsed W i =? 0)%float = false) ->
  exists st',
    progress W full_path [0; 1; 2; 3; 4]%nat (0, []) st =
    Ok (map (fun i =>
               "  " +:+ Py.str (Z.of_nat i + 1) +:+ "/5 " +:+
               match last (List.filter (cycle_ok W) (seq 0 (S i))) with
               | Some j => PyFloat.format_0f (cycle_speed W j) +:+ "Mbps"
               | None => "FAIL"
               end)
            [0; 1; 2; 3; 4]%nat, st').
Proof.
  intros Hfs Hdt.
  destruct (progress_closed W full_path 0 5 0 [] st Hfs) as (st' & Hrun).
  { apply not_true_is_false. intros [i [Hi Hs]]%existsb_exists.
    apply in_seq in Hi. unfold stalls in Hs. apply andb_true_iff in Hs as [Hok Hz].
    rewrite Hdt in Hz by (lia || done). discriminate. }
  exists st'. change [0; 1; 2; 3; 4]%nat with (seq 0 5). rewrite Hrun. do 2 f_equal.
  apply map_ext. intros i. unfold progress_line, speed_display.
  rewrite Nat.sub_0_r. cbn [app]. rewrite last_map.
  by destruct (last _).
Qed.

(** ** The report *)

Lemma match_ansi_other (c : ascii) (s : string) :
  (Py.code c =? 27)%N = false -> match_ansi (String c s) = None.
Proof. intros Hc. unfold match_ansi. destruct s; [reflexivity|]. by rewrite Hc. Qed.

Lemma strip_ansi_app (a b : string) :
  esc_free a = true -> _strip_ansi (a +:+ b) = a +:+ _strip_ansi b.
Proof.
  unfold _strip_ansi, esc_free. induction a as [|c a IH]; [reflexivity|].
  cbn [Py.forallb_str]. intros [Hc Ha]%andb_true_iff. apply negb_true_iff in Hc.
  rewrite !PyFacts.app_cons. cbn [Py.erase_go].
  rewrite match_ansi_other by exact Hc. by rewrite (IH Ha).
Qed.

Lemma strip_ansi_plain (s : string) : esc_free s = true -> _strip_ansi s = s.
Proof.
  intros Hs. pose proof (strip_ansi_app s "" Hs) as H.
  assert (Hnil : forall t, t +:+ "" = t).
  { induction t as [|c t IH]; [reflexivity|]. by rewrite PyFacts.app_cons, IH. }
  by rewrite !Hnil in H.
Qed.

Lemma strip_ansi_colour (x : string) :
  _strip_ansi (YELLOW colorama +:+ x) = _strip_ansi x /\
  _strip_ansi (GREEN colorama +:+ x) = _strip_ansi x /\
  _strip_ansi (RED colorama +:+ x) = _strip_ansi x /\
  _strip_ansi (CYAN colorama +:+ x) = _strip_ansi x /\
  _strip_ansi (RESET colorama +:+ x) = _strip_ansi x.
Proof. repeat split. Qed.

(** The formatter under colorama: a colour, the status, the reset code for
    the seven statuses; the status alone for any other text. *)
Lemma format_status_colorama (s : string) :
  (In s statuses /\
   exists colour, In colour [YELLOW colorama; GREEN colorama; RED colorama] /\
                  _format_status colorama s = colour +:+ s +:+ RESET colorama) \/
  (~ In s statuses /\ _format_status colorama s = s).
Proof.
  unfold _format_status.
  repeat (destruct (decide _) as [->|?];
          [left; split; [cbn; tauto|eexists; split; [|reflexivity]; cbn; tauto]|]).
  right. split; [|reflexivity]. cbn. intuition congruence.
Qed.

Lemma format_status_dummy (s : string) : _format_status DummyColor s = s.
Proof.
  unfold _format_status. repeat (destruct (decide _) as [->|?]; [reflexivity|]).
  reflexivity.
Qed.

Lemma strip_formatted (s rest : string) :
  esc_free s = true ->
  _strip_ansi (_format_status colorama s +:+ rest) = s +:+ _strip_ansi rest.
Proof.
  intros Hs. destruct (format_status_colorama s) as [(_ & colour & Hc & ->)|[_ ->]].
  - rewrite !str_app_assoc.
    assert (Hcol : forall x, _strip_ansi (colour +:+ x) = _strip_ansi x).
    { intros x. cbn in Hc. destruct (strip_ansi_colour x) as (? & ? & ? & _).
      destruct Hc as [<-|[<-|[<-|[]]]]; assumption. }
    rewrite Hcol, strip_ansi_app by exact Hs.
    by destruct (strip_ansi_colour rest) as (_ & _ & _ & _ & ->).
  - by apply strip_ansi_app.
Qed.

Lemma strip_format_status (s : string) :
  esc_free s = true -> _strip_ansi (_format_status colorama s) = s.
Proof.
  intros Hs. rewrite <- (app_empty_r (_format_status colorama s)).
  rewrite strip_formatted by exact Hs. apply app_empty_r.
Qed.

Lemma remove_esc_pattern (p s : string) :
  esc_free s = true -> Py.remove (String "027" p) s = s.
Proof.
  unfold Py.remove, esc_free. set (m := fun r : string => _).
  induction s as [|c s IH]; [reflexivity|].
  cbn [Py.forallb_str]. intros [Hc Hs]%andb_true_iff. cbn [Py.erase_go].
  assert (Hm : m (String c s) = None).
  { subst m. cbn [String.prefix]. destruct (ascii_dec "027" c) as [<-|_]; [discriminate|done]. }
  by rewrite Hm, (IH Hs).
Qed.

Lemma remove_empty (s : string) : Py.remove "" s = s.
Proof.
  unfold Py.remove. set (m := fun r : string => _).
  induction s as [|c s IH]; [reflexivity|].
  cbn [Py.erase_go]. change (m (String c s)) with (Some 0%nat). by rewrite IH.
Qed.

Lemma plain_status_colorama (s : string) : esc_free s = true -> plain_status colorama s = s.
Proof.
  intros Hs. unfold plain_status.
  destruct (In_dec string_dec s statuses) as [Hin|Hout].
  - cbn in Hin. do 7 (destruct Hin as [<-|Hin]; [vm_compute; reflexivity|]). destruct Hin.
  - destruct (format_status_colorama s) as [[Hin _]|[_ ->]]; [done|].
    unfold colorama, Py.esc; cbn [YELLOW GREEN RED RESET].
    rewrite !PyFacts.app_cons. by rewrite !(remove_esc_pattern _ s Hs).
Qed.

Lemma plain_status_dummy (s : string) : plain_status DummyColor s = s.
Proof.
  unfold plain_status. rewrite format_status_dummy.
  cbn [DummyColor YELLOW GREEN RED RESET]. by rewrite !remove_empty.
Qed.

Lemma esc_free_app (a b : string) :
  esc_free a = true -> esc_free b = true -> esc_free (a +:+ b) = true.
Proof. unfold esc_free. intros Ha Hb. by rewrite forallb_str_app, Ha, Hb. Qed.

Lemma esc_free_blanks (n : Z) : esc_free (Py.blanks n) = true.
Proof. unfold Py.blanks. induction (Z.to_nat n) as [|k IH]; [reflexivity|exact IH]. Qed.

Lemma esc_free_ljust (w : Z) (s : string) : esc_free s = true -> esc_free (Py.ljust w s) = true.
Proof.
  intros Hs. unfold Py.ljust, esc_free. rewrite forallb_str_app.
  fold (esc_free s) (esc_free (Py.blanks (w - Py.len s))). by rewrite Hs, esc_free_blanks.
Qed.

Lemma esc_free_table_row (param value formatted_status : string) (w : Z) :
  esc_free param = true -> esc_free value = true -> esc_free formatted_status = true ->
  esc_free (table_row param value formatted_status w) = true.
Proof.
  intros Hp Hv Hs. unfold table_row.
  repeat (apply esc_free_app;
          [first [reflexivity | by apply esc_free_ljust | assumption | apply esc_free_blanks]|]).
  reflexivity.
Qed.

(** A console row, colours stripped, is the log row. *)
Lemma strip_console_row (param value status : string) :
  esc_free param = true -> esc_free value = true -> esc_free status = true ->
  _strip_ansi (console_row colorama (param, value, status)) =
  log_row colorama (param, value, status).
Proof.
  intros Hp Hv Hs. unfold console_row, log_row, table_row.
  rewrite strip_format_status, plain_status_colorama by exact Hs.
  set (padding := Py.blanks _).
  rewrite strip_ansi_app by reflexivity.
  rewrite strip_ansi_app by (by apply esc_free_ljust).
  rewrite strip_ansi_app by reflexivity.
  rewrite strip_ansi_app by (by apply esc_free_ljust).
  rewrite strip_ansi_app by reflexivity.
  rewrite strip_formatted by exact Hs.
  rewrite (strip_ansi_plain (padding +:+ " │")); [reflexivity|].
  unfold esc_free. rewrite forallb_str_app. fold (esc_free padding).
  subst padding. by rewrite esc_free_blanks.
Qed.

Lemma console_row_dummy (param value status : string) :
  esc_free status = true ->
  console_row DummyColor (param, value, status) = log_row DummyColor (param, value, status).
Proof.
  intros Hs. unfold console_row, log_row.
  by rewrite plain_status_dummy, format_status_dummy, strip_ansi_plain.
Qed.

Lemma strip_console_row_dummy (param value status : string) :
  esc_free param = true -> esc_free value = true -> esc_free status = true ->
  _strip_ansi (console_row DummyColor (param, value, status)) =
  log_row DummyColor (param, value, status).
Proof.
  intros Hp Hv Hs. rewrite console_row_dummy by exact Hs.
  apply strip_ansi_plain. unfold log_row. rewrite plain_status_dummy.
  by apply esc_free_table_row.
Qed.

Lemma strip_rows (Fore : Palette) (ts : list (string * string * string)) :
  Fore = colorama \/ Fore = DummyColor ->
  Forall (fun '(param, value, status) =>
            esc_free param = true /\ esc_free value = true /\ esc_free status = true) ts ->
  map _strip_ansi (map (console_row Fore) ts) = map (log_row Fore) ts.
Proof.
  intros HFore.
  induction 1 as [|[[param value] status] ts (Hp & Hv & Hs) _ IH]; [done|].
  cbn [map]. rewrite IH. f_equal.
  destruct HFore as [-> | ->];
    [by apply strip_console_row|by apply strip_console_row_dummy].
Qed.

(** The aggregator reads its six keys in table order, and the first one the
    record does not hold raises. *)
Lemma print_perfect_table_cases (Fore : Palette) (st : Tester) :
  match List.find (missing st) metric_keys with
  | Some key => print_perfect_table Fore st = Raise (KeyError key)
  | None => exists rep, print_perfect_table Fore st = Ok (rep, st)
  end.
Proof.
  unfold print_perfect_table, tests, metric_keys, missing, result_of. cbn [List.find].
  do 6 (rewrite ?bind_unfold; cbn beta iota;
        match goal with
        | |- context [bool_decide (test_results st !! ?k = None)] =>
            destruct (test_results st !! k) eqn:?;
              [rewrite bool_decide_eq_false_2 by done; cbn beta iota|
               rewrite bool_decide_eq_true_2 by done; reflexivity]
        end).
  eexists. reflexivity.
Qed.

(** X9: the aggregator raises KeyError for a key exactly when that key is
    the first of the six, in table order (usb_version, power, speed,
    stability, pinout, quality), that the record does not hold; it returns
    exactly when the record holds all six; it never raises anything else, and
    it leaves the tester as it found it. *)
Theorem table_raises_for_the_first_missing_key (Fore : Palette) (st : Tester) :
  (forall key, print_perfect_table Fore st = Raise (KeyError key) <->
               List.find (missing st) metric_keys = Some key) /\
  ((exists rep, print_perfect_table Fore st = Ok (rep, st)) <->
   List.find (missing st) metric_keys = None) /\
  (forall rep st', print_perfect_table Fore st = Ok (rep, st') -> st' = st) /\
  (forall e, print_perfect_table Fore st = Raise e ->
             exists key, e = KeyError key /\ In key metric_keys /\
                         test_results st !! key = None).
Proof.
  pose proof (print_perfect_table_cases Fore st) as H.
  destruct (List.find (missing st) metric_keys) as [k|] eqn:Hfind.
  - rewrite H. split; [|split; [|split]].
    + intros key. split; [by intros [= ->]|by intros [= ->]].
    + split; [by intros [rep [=]]|discriminate].
    + discriminate.
    + intros e [= <-]. exists k. split; [reflexivity|].
      apply find_some in Hfind as [Hin Hmiss]. split; [exact Hin|].
      unfold missing in Hmiss. by apply bool_decide_eq_true in Hmiss.
  - destruct H as [rep Hrun]. rewrite Hrun. split; [|split; [|split]].
    + intros key. split; discriminate.
    + split; [done|eauto].
    + by intros rep' st' [= _ <-].
    + discriminate.
Qed.

Lemma print_perfect_table_report Fore st v p s t d q :
  test_results st !! "usb_version" = Some v ->
  test_results st !! "power" = Some p ->
  test_results st !! "speed" = Some s ->
  test_results st !! "stability" = Some t ->
  test_results st !! "pinout" = Some d ->
  test_results st !! "quality" = Some q ->
  exists rep,
    print_perfect_table Fore st = Ok (rep, st) /\
    passed_count rep = count_passed (rows_of v p s t d q) /\
    percentage rep = percentage_of (passed_count rep) /\
    console rep =
      [Py.nl +:+ rule; "🏆 USB-A ↔  C CERTIFICATION TEST"; rule;
       top_border; header; separator] ++
      map (console_row Fore) (rows_of v p s t d q) ++
      [bottom_border;
       Py.nl +:+ "📊 " +:+ overall (passed_count rep) (percentage rep)] ++
      verdict Fore (percentage rep) /\
    logfile rep =
      [Py.nl +:+ rule; "USB-A ↔  C CERTIFICATION TEST"; rule;
       top_border; header; separator] ++
      map (log_row Fore) (rows_of v p s t d q) ++
      [bottom_border; overall (passed_count rep) (percentage rep)].
Proof.
  intros Hv Hp Hs Ht Hd Hq. unfold print_perfect_table.
  rewrite bind_unfold, (tests_unfold st v p s t d q) by assumption.
  eexists. split; [reflexivity|]. repeat split.
Qed.

Lemma count_passed_range (ts : list (string * string * string)) :
  0 <= count_passed ts <= Z.of_nat (length ts).
Proof.
  unfold count_passed. rewrite count_passed_from.
  match goal with
  | |- context [length (List.filter ?f ts)] => pose proof (filter_length_le f ts)
  end. lia.
Qed.

(** X10: whenever the aggregator returns, [passed_count] lies between 0 and 6
    and the last line of the log file reads "OVERALL: <n>/6 TESTS PASSED
    (<p>%)" with [p] the percentage rounded to an integer: 0, 17, 33, 50, 67,
    83, 100 for 0 to 6 passes.  The tier is decided on the unrounded value:
    with four passes the line shows 67%, while the test [percentage >= 67]
    fails and the verdict is the bottom tier. *)
Theorem overall_line_rounds_the_percentage (Fore : Palette) (st : Tester) (rep : Report)
    (st' : Tester) :
  print_perfect_table Fore st = Ok (rep, st') ->
  0 <= passed_count rep <= 6 /\
  last (logfile rep) =
    Some ("OVERALL: " +:+ Py.str (passed_count rep) +:+ "/6 TESTS PASSED (" +:+
          PyFloat.format_0f (percentage rep) +:+ "%)") /\
  PyFloat.format_0f (percentage rep) =
    nth (Z.to_nat (passed_count rep)) ["0"; "17"; "33"; "50"; "67"; "83"; "100"] "" /\
  (passed_count rep = 4 ->
   PyFloat.format_0f (percentage rep) = "67" /\
   (67 <=? percentage rep)%float = false /\
   verdict Fore (percentage rep) =
     [RED Fore +:+ "⚠️ POWER-ONLY CABLE DETECTED" +:+ RESET Fore;
      "   → RECOMMENDED: USB-IF certified cables"]).
Proof.
  intros Hrun.
  pose proof (print_perfect_table_cases Fore st) as Hkeys.
  unfold metric_keys, missing in Hkeys. cbn [List.find] in Hkeys.
  destruct (test_results st !! "usb_version") as [v|] eqn:Hv;
    [rewrite bool_decide_eq_false_2 in Hkeys by done|
     rewrite bool_decide_eq_true_2 in Hkeys by done; congruence].
  destruct (test_results st !! "power") as [p|] eqn:Hp;
    [rewrite bool_decide_eq_false_2 in Hkeys by done|
     rewrite bool_decide_eq_true_2 in Hkeys by done; congruence].
  destruct (test_results st !! "speed") as [s|] eqn:Hs;
    [rewrite bool_decide_eq_false_2 in Hkeys by done|
     rewrite bool_decide_eq_true_2 in Hkeys by done; congruence].
  destruct (test_results st !! "stability") as [t|] eqn:Ht;
    [rewrite bool_decide_eq_false_2 in Hkeys by done|
     rewrite bool_decide_eq_true_2 in Hkeys by done; congruence].
  destruct (test_results st !! "pinout") as [d|] eqn:Hd;
    [rewrite bool_decide_eq_false_2 in Hkeys by done|
     rewrite bool_decide_eq_true_2 in Hkeys by done; congruence].
  destruct (test_results st !! "quality") as [q|] eqn:Hq;
    [rewrite bool_decide_eq_false_2 in Hkeys by done|
     rewrite bool_decide_eq_true_2 in Hkeys by done; congruence].
  clear Hkeys.
  destruct (print_perfect_table_report Fore st v p s t d q)
    as (rep' & Hrun' & Hcount & Hpct & _ & Hlog); try assumption.
  rewrite Hrun in Hrun'. injection Hrun' as <- _.
  assert (Hrange : 0 <= passed_count rep <= 6).
  { rewrite Hcount. apply (count_passed_range (rows_of v p s t d q)). }
  split; [exact Hrange|]. split.
  { rewrite Hlog. reflexivity. }
  rewrite Hpct. clear -Hrange.
  assert (passed_count rep = 0 \/ passed_count rep = 1 \/ passed_count rep = 2 \/
          passed_count rep = 3 \/ passed_count rep = 4 \/ passed_count rep = 5 \/
          passed_count rep = 6) as Hcases by lia.
  split.
  - repeat destruct Hcases as [-> | Hcases]; try rewrite Hcases; reflexivity.
  - intros ->. repeat split.
Qed.

Lemma len_app (a b : string) : Py.len (a +:+ b) = Py.len a + Py.len b.
Proof.
  induction a as [|c a IH]; [reflexivity|].
  rewrite PyFacts.app_cons. cbn [Py.len]. rewrite IH. lia.
Qed.

Lemma len_nonneg (s : string) : 0 <= Py.len s.
Proof. induction s as [|c s IH]; cbn [Py.len]; [lia|]. destruct (Py.in_range _ _ c); lia. Qed.

Lemma len_blanks (n : Z) : Py.len (Py.blanks n) = Z.max 0 n.
Proof.
  unfold Py.blanks. rewrite <- (Z2Nat.id (Z.max 0 n)) by lia.
  replace (Z.to_nat (Z.max 0 n)) with (Z.to_nat n) by lia.
  induction (Z.to_nat n) as [|k IH]; [reflexivity|].
  cbn [Py.spaces Py.len]. rewrite IH. 
  change (Py.in_range 128 191 " ") with false. cbv iota. lia.
Qed.

Lemma len_ljust (w : Z) (s : string) : Py.len (Py.ljust w s) = Z.max w (Py.len s).
Proof. unfold Py.ljust. rewrite len_app, len_blanks. pose proof (len_nonneg s). lia. Qed.

Lemma len_table_row (param value formatted_status : string) (visual_width : Z) :
  Py.len (table_row param value formatted_status visual_width) =
  10 + Z.max 20 (Py.len param) + Z.max 20 (Py.len value) +
  Py.len formatted_status + Z.max 0 (12 - visual_width).
Proof.
  unfold table_row. rewrite !len_app, !len_ljust, len_blanks.
  unfold param_width, value_width, status_width.
  change (Py.len "│ ") with 2. change (Py.len " │ ") with 3. change (Py.len " │") with 2.
  lia.
Qed.

(** X11: a row of the log table has, once its status is counted at the width
    the width table gives it instead of its length in code points, 22
    columns plus the widths of the parameter and value cells, each 20 or the
    length of its text if that is longer (cells are padded, never cut).
    When both texts fit in 20 columns the row is as wide as the three border
    lines and the header: 62 columns. *)
Theorem rows_are_as_wide_as_the_borders (Fore : Palette) (param value status : string) :
  Fore = DummyColor \/ Fore = colorama ->
  In status statuses ->
  let row := log_row Fore (param, value, status) in
  Py.len row - Py.len status + _get_status_width status =
    22 + Z.max 20 (Py.len param) + Z.max 20 (Py.len value) /\
  (Py.len param <= 20 -> Py.len value <= 20 ->
   Py.len row - Py.len status + _get_status_width status = Py.len top_border) /\
  Py.len top_border = 62 /\ Py.len header = 62 /\
  Py.len separator = 62 /\ Py.len bottom_border = 62.
Proof.
  intros HFore Hin row.
  assert (Hrow : Py.len row - Py.len status + _get_status_width status =
                 22 + Z.max 20 (Py.len param) + Z.max 20 (Py.len value)).
  { subst row. unfold log_row. rewrite len_table_row.
    assert (Hplain : plain_status Fore status = status).
    { destruct HFore as [-> | ->]; [apply plain_status_dummy|].
      apply plain_status_colorama. cbn in Hin.
      do 7 (destruct Hin as [<-|Hin]; [reflexivity|]). destruct Hin. }
    rewrite Hplain. cbn in Hin.
    do 7 (destruct Hin as [<-|Hin]; [vm_compute (_get_status_width _); lia|]).
    destruct Hin. }
  split; [exact Hrow|]. split; [|repeat split].
  intros Hp Hv. rewrite Hrow. change (Py.len top_border) with 62. lia.
Qed.

(** ** The whole run, step by step *)

Lemma detect_usb_version_issued W st :
  exists st',
    detect_usb_version W st = Ok (version_of (output (lsusb_bcd W)), st') /\
    stores "usb_version" (version_of (output (lsusb_bcd W))) st st' /\
    issued st' = issued st ++ ["lsusb -v 2>/dev/null | grep -E 'bcdUSB' | tail -3"].
Proof.
  unfold detect_usb_version. exec. rewrite stdout_completed.
  unfold version_of. destruct (search_bcdUSB _) as [ver|]; exec; eexists; repeat split.
Qed.

Lemma detect_power_sysfs_issued W st :
  exists st',
    detect_power_sysfs W st = Ok (scan_power W (usb_devices W), st') /\
    stores "power" (scan_power W (usb_devices W)) st st' /\
    issued st' = issued st.
Proof. unfold detect_power_sysfs. exec. eexists. repeat split. Qed.

Lemma check_pinout_data_issued W st :
  exists st',
    check_pinout_data W st = Ok (pinout_of (output (lsusb_endpoints W)), st') /\
    stores "pinout" (pinout_of (output (lsusb_endpoints W))) st st' /\
    issued st' = issued st ++
      ["lsusb -v 2>/dev/null | grep -E 'bEndpointAddress.*(BULK|INTERRUPT)' | tail -5"].
Proof.
  unfold check_pinout_data. exec. rewrite stdout_completed. eexists. repeat split.
Qed.

Lemma estimate_cable_quality_issued W st :
  exists st',
    estimate_cable_quality W st = Ok (quality_of (output (lsusb_configs W)), st') /\
    stores "quality" (quality_of (output (lsusb_configs W))) st st' /\
    issued st' = issued st ++ ["lsusb -v 2>/dev/null | grep -c 'bConfigurationValue'"].
Proof.
  unfold estimate_cable_quality. exec. rewrite stdout_completed. eexists. repeat split.
Qed.

Lemma run_complete_test_probes W Fore st :
  exists st6,
    run_complete_test W Fore st = finish W Fore st6 /\
    test_results st6 = five_probes W (test_results st) /\
    assigned st6 =
      assigned st ++ ["usb_version"; "power"; "stability"; "pinout"; "quality"] /\
    fs st6 = fs st /\
    issued st6 = issued st ++ probe_commands W.
Proof.
  unfold run_complete_test. fold (finish W Fore).
  rewrite bind_unfold. cbn [truncate_log].
  rewrite bind_unfold.
  match goal with |- context [detect_usb_version W ?s0] =>
    destruct (detect_usb_version_issued W s0) as (st1 & -> & (Hr1 & Hk1 & Hf1) & Hc1) end.
  rewrite bind_unfold.
  destruct (detect_power_sysfs_issued W st1) as (st2 & -> & (Hr2 & Hk2 & Hf2) & Hc2).
  rewrite bind_unfold.
  destruct (usb_stability_test_count W st2) as (st3 & -> & (Hr3 & Hk3 & Hf3) & Hc3).
  rewrite bind_unfold.
  destruct (check_pinout_data_issued W st3) as (st4 & -> & (Hr4 & Hk4 & Hf4) & Hc4).
  rewrite bind_unfold.
  destruct (estimate_cable_quality_issued W st4) as (st5 & -> & (Hr5 & Hk5 & Hf5) & Hc5).
  unfold kill_gvfs. exec.
  eexists. split; [reflexivity|].
  cbn [test_results assigned journal issued fs] in *.
  unfold five_probes, probe_commands. fold (stability_count W) in Hr3.
  rewrite Hr5, Hr4, Hr3, Hr2, Hr1, Hk5, Hk4, Hk3, Hk2, Hk1, Hf5, Hf4, Hf3, Hf2, Hf1.
  rewrite Hc5, Hc4, Hc3, Hc2, Hc1, <- !app_assoc. repeat split.
Qed.

Lemma find_mtp_device_issued W st device st' :
  find_mtp_device W st = Ok (device, st') ->
  issued st' = issued st ++ ["gio mount -l | grep 'mtp://'"].
Proof.
  unfold find_mtp_device. exec. rewrite stdout_completed.
  destruct (decide (output (gio_mounts W) = "")).
  - exec. by intros [= _ <-].
  - intros H.
    apply bind_Ok in H as (a & st1 & H1 & H). apply item_Ok in H1 as ->.
    apply bind_Ok in H as (b & st2 & H2 & H). apply item_Ok in H2 as ->.
    apply bind_Ok in H as (c & st3 & H3 & H). apply item_Ok in H3 as ->.
    revert H. exec. by intros [= _ <-].
Qed.

Lemma find_mtp_device_raises W st e :
  find_mtp_device W st = Raise e -> e = IndexError.
Proof.
  unfold find_mtp_device. exec. rewrite stdout_completed.
  destruct (decide (output (gio_mounts W) = "")); exec; [discriminate|].
  rewrite item_unfold.
  destruct (Py.split "mtp://" (output (gio_mounts W)) !! 1%nat) as [after|];
    [exec|by intros [= <-]].
  rewrite item_unfold.
  destruct (Py.split "'" after !! 0%nat) as [quoted|]; [exec|by intros [= <-]].
  rewrite item_unfold.
  destruct (Py.split_ws quoted !! 0%nat) as [first|]; [exec|by intros [= <-]].
  discriminate.
Qed.

Lemma find_mtp_device_closed W st :
  match discovered W with
  | Ok device =>
      exists st',
        find_mtp_device W st = Ok (device, st') /\
        same_record st st' /\ fs st' = fs st /\
        issued st' = issued st ++ ["gio mount -l | grep 'mtp://'"]
  | Raise e => find_mtp_device W st = Raise e /\ e = IndexError
  end.
Proof.
  pose proof (find_mtp_device_discovered W st) as Hd.
  destruct (find_mtp_device W st) as [[device st']|e] eqn:Hrun; rewrite Hd.
  - exists st'. split; [reflexivity|].
    destruct (find_mtp_device_Ok _ _ _ _ Hrun) as (? & ? & _).
    by rewrite (find_mtp_device_issued _ _ _ _ Hrun).
  - split; [reflexivity|]. by apply find_mtp_device_raises in Hrun.
Qed.

Lemma transfer_speed_test_ext W device st1 st2 :
  fs st1 = fs st2 ->
  match transfer_speed_test W device st1, transfer_speed_test W device st2 with
  | Ok (r1, st1'), Ok (r2, st2') =>
      r1 = r2 /\
      test_results st1' = <["speed" := r1]> (test_results st1) /\
      test_results st2' = <["speed" := r2]> (test_results st2)
  | Raise e1, Raise e2 => e1 = e2
  | _, _ => False
  end.
Proof.
  intros Hfs. unfold transfer_speed_test. rewrite !bind_unfold. cbn [log].
  rewrite !bind_unfold.
  match goal with
  | |- context [cycles W ?path ?range ?acc ?s1] =>
      match goal with
      | |- context [cycles W path range acc ?s2] =>
          assert_fails (constr_eq s1 s2);
          pose proof (cycles_ext W path range acc s1 s2 Hfs) as Hloop;
          pose proof (cycles_Ok W path range acc s1) as Hrec1;
          pose proof (cycles_Ok W path range acc s2) as Hrec2
      end
  end.
  destruct (cycles W _ _ _ _) as [[acc1 s1']|e1];
    destruct (cycles W _ _ _ _) as [[acc2 s2']|e2]; try done.
  destruct Hloop as [-> _].
  destruct (Hrec1 _ _ eq_refl) as [Hr1 _]. destruct (Hrec2 _ _ eq_refl) as [Hr2 _].
  cbn in Hr1, Hr2. exec. rewrite Hr1, Hr2. done.
Qed.

Lemma transfer_speed_test_closed W device st :
  fs st = ∅ ->
  if existsb (stalls W) (seq 0 5) then
    transfer_speed_test W device st = Raise ZeroDivisionError
  else
    let good := List.filter (cycle_ok W) (seq 0 5) in
    let r := speed_result (Z.of_nat (length good), map (cycle_speed W) good) in
    exists st',
      transfer_speed_test W device st = Ok (r, st') /\
      test_results st' = <["speed" := r]> (test_results st) /\
      assigned st' = assigned st ++ ["speed"] /\
      fs st' = ∅ /\
      issued st' = issued st ++ flat_map (cycle_commands W (speed_path device)) (seq 0 5).
Proof.
  intros Hfs. unfold transfer_speed_test. rewrite !bind_unfold. cbn [log].
  rewrite !bind_unfold.
  match goal with
  | |- context [cycles W ?path ?range (?a, ?b) ?s1] =>
      pose proof (cycles_closed W path range a b s1 Hfs) as Hloop
  end.
  change (seq 0 TEST_CYCLES) with (seq 0 5) in *.
  destruct (existsb (stalls W) (seq 0 5)).
  - fold (speed_path device). unfold speed_path. by rewrite Hloop.
  - destruct Hloop as (st' & Hrun & Hclean & [Hres Hkeys] & Hcmds).
    fold (speed_path device). unfold speed_path at 1. rewrite Hrun.
    cbn [app] in *. rewrite Z.add_0_l.
    eexists. split; [reflexivity|]. cbn in *. rewrite Hres, Hkeys, Hcmds. done.
Qed.

Lemma print_perfect_table_ext Fore st1 st2 :
  (forall key, In key metric_keys -> test_results st1 !! key = test_results st2 !! key) ->
  outcome (print_perfect_table Fore st1) = outcome (print_perfect_table Fore st2).
Proof.
  intros Hsame. unfold print_perfect_table, tests, result_of.
  do 6 (rewrite !bind_unfold; cbn beta iota;
        match goal with
        | |- context [test_results st1 !! ?k] =>
            rewrite (Hsame k) by (cbn; tauto);
            destruct (test_results st2 !! k); [cbn beta iota|reflexivity]
        end).
  reflexivity.
Qed.

Lemma lookup_with_speed W (held1 held2 : gmap string ProbeResult) (s : ProbeResult)
    (key : string) :
  In key metric_keys ->
  <["speed" := s]> (five_probes W held1) !! key =
  <["speed" := s]> (five_probes W held2) !! key.
Proof.
  intros Hkey. unfold five_probes. cbn in Hkey.
  destruct Hkey as [<-|[<-|[<-|[<-|[<-|[<-|[]]]]]]];
    rewrite !lookup_insert; repeat case_decide; done.
Qed.

(** The six keys are there once "speed" is stored over the five probes. *)
Lemma print_after_six W Fore st (s : ProbeResult) (held : gmap string ProbeResult) :
  test_results st = <["speed" := s]> (five_probes W held) ->
  exists rep,
    print_perfect_table Fore st = Ok (rep, st) /\
    passed_count rep =
      count_passed (rows_of (version_of (output (lsusb_bcd W)))
                            (scan_power W (usb_devices W)) s
                            (stability_of (stability_count W))
                            (pinout_of (output (lsusb_endpoints W)))
                            (quality_of (output (lsusb_configs W)))) /\
    percentage rep = percentage_of (passed_count rep) /\
    last (logfile rep) = Some (overall (passed_count rep) (percentage rep)) /\
    exists above, console rep = above ++ verdict Fore (percentage rep).
Proof.
  intros Hrec.
  destruct (print_perfect_table_report Fore st
              (version_of (output (lsusb_bcd W))) (scan_power W (usb_devices W)) s
              (stability_of (stability_count W))
              (pinout_of (output (lsusb_endpoints W)))
              (quality_of (output (lsusb_configs W))))
    as (rep & Hrun & Hcount & Hpct & Hcon & Hlog);
    try (rewrite Hrec; unfold five_probes; rewrite !lookup_insert;
         repeat case_decide; done).
  exists rep. split; [exact Hrun|]. split; [exact Hcount|]. split; [exact Hpct|].
  split; [rewrite Hlog; reflexivity|].
  eexists. rewrite Hcon, !app_assoc. reflexivity.
Qed.

(** A run from a fresh tester, case by case. *)
Lemma main_closed (W : World) (Fore : Palette) :
  match discovered W with
  | Raise e => main W Fore = Raise e /\ e = IndexError
  | Ok None => ends_without_speed W Fore
  | Ok (Some name) =>
      if decide (name = "") then ends_without_speed W Fore
      else if existsb (stalls W) (seq 0 5) then
        main W Fore = Raise ZeroDivisionError
      else
        let good := List.filter (cycle_ok W) (seq 0 5) in
        let r := speed_result (Z.of_nat (length good), map (cycle_speed W) good) in
        exists rep st,
          main W Fore = Ok (rep, st) /\
          print_perfect_table Fore st = Ok (rep, st) /\
          test_results st = <["speed" := r]> (five_probes W ∅) /\
          issued st = probe_commands W ++ ["gio mount -l | grep 'mtp://'"] ++
                      flat_map (cycle_commands W (speed_path name)) (seq 0 5)
  end.
Proof.
  unfold ends_without_speed, main.
  destruct (run_complete_test_probes W Fore init) as (a & -> & Hr & _ & Hf & Hc).
  cbn [init test_results fs issued app] in Hr, Hf, Hc.
  unfold finish. rewrite bind_unfold.
  pose proof (find_mtp_device_closed W a) as Hfind.
  destruct (discovered W) as [device|e]; [|by destruct Hfind as [-> ->]].
  destruct Hfind as (b & -> & [Hb _] & Hg & Hcb).
  assert (Hsentinel : exists rep st,
            (store "speed" unavailable ≫= fun _ => print_perfect_table Fore) b =
              Ok (rep, st) /\
            print_perfect_table Fore st = Ok (rep, st) /\
            test_results st = <["speed" := unavailable]> (five_probes W ∅) /\
            issued st = probe_commands W ++ ["gio mount -l | grep 'mtp://'"]).
  { exec.
    edestruct (print_after_six W Fore) as (rep & Hrun & _);
      [|exists rep; eexists; split; [exact Hrun|split; [exact Hrun|]]].
    - cbn. rewrite Hb, Hr. reflexivity.
    - cbn. by rewrite Hb, Hr, Hcb, Hc. }
  destruct device as [name|]; [|exact Hsentinel].
  destruct (decide (name = "")); [exact Hsentinel|].
  rewrite !bind_unfold.
  pose proof (transfer_speed_test_closed W name b ltac:(congruence)) as Hspeed.
  destruct (existsb (stalls W) (seq 0 5)); [by rewrite Hspeed|].
  destruct Hspeed as (c & -> & Hrc & _ & _ & Hcc). exec.
  edestruct (print_after_six W Fore c) as (rep & Hrun & _);
    [|exists rep, c; split; [exact Hrun|split; [exact Hrun|]]].
  - rewrite Hrc, Hb, Hr. reflexivity.
  - by rewrite Hrc, Hcc, Hcb, Hb, Hr, Hc, <- app_assoc.
Qed.


(** X13: a complete run on a tester that already holds results gives the
    report (or raises the exception) that it gives on any other tester with
    the same temp files: each of the six keys is assigned anew before the
    table reads it, so nothing of an earlier run shows in the report. *)
Theorem report_ignores_earlier_results (W : World) (Fore : Palette) (st1 st2 : Tester) :
  fs st1 = fs st2 ->
  outcome (run_complete_test W Fore st1) = outcome (run_complete_test W Fore st2).
Proof.
  intros Hfs.
  destruct (run_complete_test_probes W Fore st1) as (a1 & -> & Hr1 & _ & Hf1 & _).
  destruct (run_complete_test_probes W Fore st2) as (a2 & -> & Hr2 & _ & Hf2 & _).
  unfold finish. rewrite !bind_unfold.
  pose proof (find_mtp_device_closed W a1) as H1.
  pose proof (find_mtp_device_closed W a2) as H2.
  destruct (discovered W) as [device|e].
  2: { destruct H1 as [-> _], H2 as [-> _]. reflexivity. }
  destruct H1 as (b1 & -> & [Hb1 _] & Hg1 & _), H2 as (b2 & -> & [Hb2 _] & Hg2 & _).
  assert (Hsentinel :
    outcome ((store "speed" unavailable ≫= fun _ => print_perfect_table Fore) b1) =
    outcome ((store "speed" unavailable ≫= fun _ => print_perfect_table Fore) b2)).
  { exec. apply print_perfect_table_ext. intros key Hkey. cbn.
    rewrite Hb1, Hb2, Hr1, Hr2. by apply lookup_with_speed. }
  destruct device as [name|]; [|exact Hsentinel].
  destruct (decide (name = "")); [exact Hsentinel|].
  rewrite !bind_unfold.
  pose proof (transfer_speed_test_ext W name b1 b2 ltac:(congruence)) as Hspeed.
  destruct (transfer_speed_test W name b1) as [[r1 c1]|e1];
    destruct (transfer_speed_test W name b2) as [[r2 c2]|e2]; try done.
  - destruct Hspeed as (-> & Hc1 & Hc2). exec.
    apply print_perfect_table_ext. intros key Hkey.
    rewrite Hc1, Hc2, Hb1, Hb2, Hr1, Hr2. by apply lookup_with_speed.
  - by rewrite Hspeed.
Qed.

(** X14: the commands a completed run has handed to the shell are, in order:
    the bcdUSB listing, the baseline dmesg and one dmesg per poll, the
    endpoint listing, the configuration count, the two pkill commands and
    the mount listing; then, when a device with a non-empty name was found,
    for each of the five cycles its upload followed, if the upload exited
    with 0, by its download and the removal of the remote copy; and nothing
    else. *)
Theorem run_issues_a_fixed_command_list (W : World) (Fore : Palette) (rep : Report)
    (st : Tester) :
  main W Fore = Ok (rep, st) ->
  issued st =
    probe_commands W ++ ["gio mount -l | grep 'mtp://'"] ++
    match discovered W with
    | Ok (Some name) =>
        if decide (name = "") then []
        else flat_map (cycle_commands W (speed_path name)) [0; 1; 2; 3; 4]%nat
    | _ => []
    end.
Proof.
  intros Hrun. pose proof (main_closed W Fore) as H. rewrite Hrun in H.
  unfold ends_without_speed in H. rewrite Hrun in H.
  destruct (discovered W) as [[name|]|e].
  - destruct (decide (name = "")).
    + destruct H as (? & ? & [= <- <-] & _ & _ & ->). reflexivity.
    + destruct (existsb (stalls W) (seq 0 5)); [discriminate|].
      destruct H as (? & ? & [= <- <-] & _ & _ & ->). reflexivity.
  - destruct H as (? & ? & [= <- <-] & _ & _ & ->). reflexivity.
  - destruct H as [[=] _].
Qed.

Lemma count_two (p : ProbeResult) :
  p = {| value := "500mA"; status := "⭐ (1/3)" |} \/
  p = {| value := "900mA"; status := "⭐⭐ (2/3)" |} ->
  count_passed (rows_of {| value := "Unknown"; status := "❓" |} p unavailable
                        {| value := "0 Errors"; status := "✅" |}
                        {| value := "Power-only?"; status := "⚠️" |}
                        {| value := "1 Configs"; status := "⚠️" |}) = 2.
Proof. intros [-> | ->]; reflexivity. Qed.

(** X15: on a machine where the bcdUSB listing, the dmesg polls, the endpoint
    listing, the configuration count and the mount listing print nothing (or
    time out), the program completes and stores "Unknown", "0 Errors",
    "Power-only?", "1 Configs" and "No MTP"; together with the power result,
    which is a star tier either way, that makes exactly two passes: the log
    ends with "OVERALL: 2/6 TESTS PASSED (33%)" and the verdict is the
    bottom tier. *)
Theorem silent_machine_scores_two_of_six (W : World) (Fore : Palette) :
  output (lsusb_bcd W) = "" ->
  Forall (fun o => output o = "") (dmesg_polls W) ->
  output (lsusb_endpoints W) = "" ->
  output (lsusb_configs W) = "" ->
  output (gio_mounts W) = "" ->
  exists rep st,
    main W Fore = Ok (rep, st) /\
    test_results st !! "usb_version" = Some {| value := "Unknown"; status := "❓" |} /\
    test_results st !! "stability" = Some {| value := "0 Errors"; status := "✅" |} /\
    test_results st !! "pinout" = Some {| value := "Power-only?"; status := "⚠️" |} /\
    test_results st !! "quality" = Some {| value := "1 Configs"; status := "⚠️" |} /\
    test_results st !! "speed" = Some {| value := "No MTP"; status := "❓" |} /\
    passed_count rep = 2 /\
    last (logfile rep) = Some "OVERALL: 2/6 TESTS PASSED (33%)" /\
    verdict Fore (percentage rep) =
      [RED Fore +:+ "⚠️ POWER-ONLY CABLE DETECTED" +:+ RESET Fore;
       "   → RECOMMENDED: USB-IF certified cables"].
Proof.
  intros Hbcd Hpolls Hend Hcfg Hgio.
  pose proof (main_closed W Fore) as H.
  destruct (find_mtp_device_none W init Hgio) as [st0 Hnone].
  unfold discovered in H. rewrite Hnone in H.
  destruct H as (rep & st & Hrun & Hprint & Hrec & _).
  assert (Hcount : stability_count W = 0).
  { unfold stability_count. clear -Hpolls.
    induction Hpolls as [|o polls Ho _ IH]; [reflexivity|].
    cbn [flat_map]. by rewrite (fresh_errors_silent _ _ Ho). }
  unfold five_probes in Hrec. rewrite Hbcd, Hend, Hcfg, Hcount in Hrec.
  change (version_of "") with {| value := "Unknown"; status := "❓" |} in Hrec.
  change (pinout_of "") with {| value := "Power-only?"; status := "⚠️" |} in Hrec.
  change (quality_of "") with {| value := "1 Configs"; status := "⚠️" |} in Hrec.
  change (stability_of 0) with {| value := "0 Errors"; status := "✅" |} in Hrec.
  exists rep, st. split; [exact Hrun|].
  do 5 (split; [rewrite Hrec; reflexivity|]).
  destruct (print_perfect_table_report Fore st
              {| value := "Unknown"; status := "❓" |} (scan_power W (usb_devices W))
              unavailable {| value := "0 Errors"; status := "✅" |}
              {| value := "Power-only?"; status := "⚠️" |}
              {| value := "1 Configs"; status := "⚠️" |})
    as (rep' & Hrun' & Hn & Hpct & _ & Hlog); try (rewrite Hrec; reflexivity).
  rewrite Hprint in Hrun'. injection Hrun' as <-.
  rewrite (count_two _ (scan_power_cases W _)) in Hn.
  split; [exact Hn|]. rewrite Hlog, Hpct, Hn. split; reflexivity.
Qed.

(** ** The table in the log file *)

Lemma digit_esc_free (s : string) : Py.forallb_str Py.is_digit s = true -> esc_free s = true.
Proof.
  apply PyFacts.forallb_str_impl. intros c. unfold Py.is_digit, Py.in_range.
  intros [H1 _]%andb_true_iff. apply N.leb_le in H1.
  apply negb_true_iff, N.eqb_neq. lia.
Qed.

Lemma esc_free_str (n : Z) : esc_free (Py.str n) = true.
Proof.
  assert (Hd : forall fuel m, 0 <= m -> esc_free (Py.digits_go fuel m "") = true).
  { intros fuel m Hm. apply digit_esc_free.
    by rewrite PyFacts.digits_go_all_digits. }
  unfold Py.str. destruct (n <? 0); [|apply Hd; lia].
  unfold esc_free. cbn [Py.forallb_str]. apply Hd. lia.
Qed.

Lemma esc_free_format_0f (x : float) : esc_free (PyFloat.format_0f x) = true.
Proof.
  unfold PyFloat.format_0f. destruct (Prim2SF x) as [[]|[]| |s m e]; try reflexivity.
  apply esc_free_app; [by destruct s|apply esc_free_str].
Qed.

Lemma esc_free_version (lsusb : string) : esc_free (value (version_of lsusb)) = true.
Proof.
  unfold version_of. destruct (search_bcdUSB lsusb) as [ver|] eqn:Hm; [|reflexivity].
  apply PyFacts.search_bcdUSB_token in Hm as (major & minor & -> & Hma & Hmi).
  unfold classify_version. repeat case_match; try reflexivity. cbn [value].
  assert (Hdigits : forall s, Py.isdigit s = true -> esc_free s = true).
  { intros s Hs. apply digit_esc_free. by destruct s. }
  apply (esc_free_app "USB "); [reflexivity|].
  apply esc_free_app; [by apply Hdigits|].
  apply (esc_free_app "."); [reflexivity|by apply Hdigits].
Qed.

Lemma esc_free_statuses (s : string) : In s statuses -> esc_free s = true.
Proof. cbn. intros H. do 7 (destruct H as [<-|H]; [reflexivity|]). destruct H. Qed.

(** What the probes store has no escape character in it. *)
Lemma esc_free_probes (W : World) :
  Forall (fun r => esc_free (value r) = true /\ esc_free (status r) = true)
    [ version_of (output (lsusb_bcd W)); scan_power W (usb_devices W);
      stability_of (stability_count W); pinout_of (output (lsusb_endpoints W));
      quality_of (output (lsusb_configs W)) ].
Proof.
  repeat constructor.
  - apply esc_free_version.
  - apply esc_free_statuses, version_of_status.
  - by destruct (scan_power_cases W (usb_devices W)) as [-> | ->].
  - by destruct (scan_power_cases W (usb_devices W)) as [-> | ->].
  - unfold stability_of. cbn [value]. destruct (_ =? 0); [reflexivity|].
    apply esc_free_app; [apply esc_free_str|reflexivity].
  - unfold stability_of. cbn [status]. by destruct (_ =? 0).
  - unfold pinout_of. cbn [value]. by destruct (Py.contains _ _).
  - unfold pinout_of. cbn [status]. by destruct (Py.contains _ _).
  - unfold quality_of. cbn [value]. apply esc_free_app; [apply esc_free_str|reflexivity].
  - apply esc_free_statuses, quality_of_status.
Qed.

Lemma esc_free_speed_result (acc : Z * list float) :
  esc_free (value (speed_result acc)) = true /\ esc_free (status (speed_result acc)) = true.
Proof.
  destruct acc as [success speeds]. unfold speed_result. cbn [value status]. split.
  - apply esc_free_app; [apply esc_free_format_0f|].
    apply (esc_free_app "Mbps ("); [reflexivity|].
    apply esc_free_app; [apply esc_free_str|reflexivity].
  - apply esc_free_statuses, statuses_of_stars, speed_rating_cases.
Qed.

Lemma strip_table (Fore : Palette) (st : Tester) (rep : Report) (v p s t d q : ProbeResult) :
  Fore = colorama \/ Fore = DummyColor ->
  Forall (fun r => esc_free (value r) = true /\ esc_free (status r) = true)
         [v; p; s; t; d; q] ->
  console rep =
    [Py.nl +:+ rule; "🏆 USB-A ↔  C CERTIFICATION TEST"; rule;
     top_border; header; separator] ++
    map (console_row Fore) (rows_of v p s t d q) ++
    [bottom_border;
     Py.nl +:+ "📊 " +:+ overall (passed_count rep) (percentage rep)] ++
    verdict Fore (percentage rep) ->
  logfile rep =
    [Py.nl +:+ rule; "USB-A ↔  C CERTIFICATION TEST"; rule;
     top_border; header; separator] ++
    map (log_row Fore) (rows_of v p s t d q) ++
    [bottom_border; overall (passed_count rep) (percentage rep)] ->
  map _strip_ansi (take 10 (drop 3 (console rep))) = take 10 (drop 3 (logfile rep)) /\
  take 10 (drop 3 (logfile rep)) =
    [top_border; header; separator] ++ map (log_row Fore) (rows_of v p s t d q) ++
    [bottom_border].
Proof.
  intros HFore Hfree -> ->. split; [|reflexivity].
  assert (Hrows : Forall (fun '(param, value, status) =>
            esc_free param = true /\ esc_free value = true /\ esc_free status = true)
            (rows_of v p s t d q)).
  { unfold rows_of. repeat (apply Forall_cons_1 in Hfree as [[? ?] Hfree]).
    repeat constructor; assumption. }
  change (take 10 (drop 3 (?a ++ map ?f (rows_of v p s t d q) ++ ?b)))
    with ([top_border; header; separator] ++ map f (rows_of v p s t d q) ++ [bottom_border]).
  rewrite !map_app, (strip_rows Fore _ HFore Hrows). reflexivity.
Qed.

(** X16: in the report of a completed run, under either palette, the ten
    lines of the table (top border, header, separator, six rows, bottom
    border) written to the log file are the ten lines printed on the
    console with the ANSI colour codes removed. *)
Theorem log_table_is_the_console_table_without_colours (W : World) (Fore : Palette)
    (rep : Report) (st : Tester) :
  Fore = colorama \/ Fore = DummyColor ->
  main W Fore = Ok (rep, st) ->
  map _strip_ansi (take 10 (drop 3 (console rep))) = take 10 (drop 3 (logfile rep)) /\
  length (take 10 (drop 3 (logfile rep))) = 10%nat /\
  nth_error (take 10 (drop 3 (logfile rep))) 0 = Some top_border /\
  nth_error (take 10 (drop 3 (logfile rep))) 9 = Some bottom_border.
Proof.
  intros HFore Hrun.
  assert (exists s, test_results st = <["speed" := s]> (five_probes W ∅) /\
                    esc_free (value s) = true /\ esc_free (status s) = true /\
                    print_perfect_table Fore st = Ok (rep, st))
    as (s & Hrec & Hv & Hs & Hprint).
  { pose proof (main_closed W Fore) as H. unfold ends_without_speed in H.
    rewrite Hrun in H.
    destruct (discovered W) as [[name|]|e].
    - destruct (decide (name = "")).
      + destruct H as (? & ? & [= <- <-] & ? & ? & _). by exists unavailable.
      + destruct (existsb (stalls W) (seq 0 5)); [discriminate|].
        destruct H as (? & ? & [= <- <-] & ? & ? & _).
        eexists. split; [eassumption|].
        destruct (esc_free_speed_result
                    (Z.of_nat (length (List.filter (cycle_ok W) (seq 0 5))),
                     map (cycle_speed W) (List.filter (cycle_ok W) (seq 0 5)))).
        done.
    - destruct H as (? & ? & [= <- <-] & ? & ? & _). by exists unavailable.
    - destruct H as [[=] _]. }
  destruct (print_perfect_table_report Fore st
              (version_of (output (lsusb_bcd W))) (scan_power W (usb_devices W)) s
              (stability_of (stability_count W))
              (pinout_of (output (lsusb_endpoints W)))
              (quality_of (output (lsusb_configs W))))
    as (rep' & Hrun' & _ & _ & Hcon & Hlog);
    try (rewrite Hrec; reflexivity).
  rewrite Hprint in Hrun'. injection Hrun' as <-.
  pose proof (esc_free_probes W) as Hfree.
  apply Forall_cons_1 in Hfree as [Hfv Hfree]. apply Forall_cons_1 in Hfree as [Hfp Hfree].
  apply Forall_cons_1 in Hfree as [Hft Hfree]. apply Forall_cons_1 in Hfree as [Hfd Hfree].
  apply Forall_cons_1 in Hfree as [Hfq _].
  edestruct (strip_table Fore st rep) as [Hstrip Htable]; [exact HFore| |exact Hcon|exact Hlog|].
  { constructor; [exact Hfv|]. constructor; [exact Hfp|]. constructor; [by split|].
    constructor; [exact Hft|]. constructor; [exact Hfd|]. constructor; [exact Hfq|].
    constructor. }
  split; [exact Hstrip|]. rewrite Htable. repeat split.
Qed.

(** ** The log *)

Lemma logs_known_refl st : logs_known st st.
Proof. exists []. by rewrite app_nil_r. Qed.

Lemma logs_known_trans st1 st2 st3 :
  logs_known st1 st2 -> logs_known st2 st3 -> logs_known st1 st3.
Proof.
  intros (l1 & H1 & F1) (l2 & H2 & F2). exists (l1 ++ l2).
  rewrite H2, H1, app_assoc. split; [reflexivity|]. by apply Forall_app.
Qed.

Lemma complaints_known o cmd check : Forall known_line (complaints o cmd check).
Proof.
  destruct o as [rc out err|]; cbn.
  - destruct (check && negb (rc =? 0)); [|constructor].
    apply Forall_cons; split; [|constructor].
    do 3 right. split; [reflexivity|]. exists cmd. right. by exists err.
  - apply Forall_cons; split; [|constructor].
    do 3 right. split; [reflexivity|]. exists cmd. by left.
Qed.

Lemma flat_map_known {A} (f : A -> list (string * string)) (xs : list A) :
  (forall x, Forall known_line (f x)) -> Forall known_line (flat_map f xs).
Proof.
  intros Hf. induction xs as [|x xs IH]; [constructor|].
  cbn [flat_map]. apply Forall_app. split; [apply Hf|exact IH].
Qed.

Lemma info_known message : known_line ("INFO", message).
Proof. by left. Qed.

Lemma pass_known message : known_line ("PASS", message).
Proof. right. by left. Qed.

(** Closes a goal [logs_known st st'] where [journal st'] is [journal st]
    followed by explicit lines and complaints. *)
Ltac known :=
  eexists; split;
  [cbn [journal]; rewrite <- ?app_assoc; reflexivity|
   rewrite ?Forall_app; repeat split;
   first [apply complaints_known
         | apply Forall_cons; split; [first [apply info_known | apply pass_known]|constructor]
         | constructor]].

Lemma detect_usb_version_logs W st r st' :
  detect_usb_version W st = Ok (r, st') -> logs_known st st'.
Proof.
  unfold detect_usb_version. exec.
  destruct (search_bcdUSB _) as [ver|]; exec; intros [= _ <-]; known.
Qed.

Lemma detect_power_sysfs_logs W st r st' :
  detect_power_sysfs W st = Ok (r, st') -> logs_known st st'.
Proof. unfold detect_power_sysfs. exec. intros [= _ <-]. known. Qed.

Lemma usb_stability_test_logs W st r st' :
  usb_stability_test W st = Ok (r, st') -> logs_known st st'.
Proof.
  unfold usb_stability_test. exec.
  edestruct poll_dmesg_count as (st1 & -> & _ & _ & _ & Hlog).
  cbn [journal] in Hlog. exec. intros [= _ <-]. cbn [journal]. rewrite Hlog.
  eexists. split; [rewrite <- !app_assoc; reflexivity|].
  rewrite !Forall_app. repeat split.
  - apply Forall_cons; split; [apply info_known|constructor].
  - apply complaints_known.
  - apply flat_map_known. intros o. apply complaints_known.
  - apply Forall_cons; split; [apply pass_known|constructor].
Qed.

Lemma check_pinout_data_logs W st r st' :
  check_pinout_data W st = Ok (r, st') -> logs_known st st'.
Proof. unfold check_pinout_data. exec. intros [= _ <-]. known. Qed.

Lemma estimate_cable_quality_logs W st r st' :
  estimate_cable_quality W st = Ok (r, st') -> logs_known st st'.
Proof. unfold estimate_cable_quality. exec. intros [= _ <-]. known. Qed.

Lemma kill_gvfs_logs W st r st' : kill_gvfs W st = Ok (r, st') -> logs_known st st'.
Proof. unfold kill_gvfs. exec. intros [= _ <-]. known. Qed.

Lemma find_mtp_device_logs W st device st' :
  find_mtp_device W st = Ok (device, st') -> logs_known st st'.
Proof.
  unfold find_mtp_device. exec. rewrite stdout_completed.
  destruct (decide (output (gio_mounts W) = "")).
  - exec. intros [= _ <-]. eexists. split; [cbn [journal]; rewrite <- app_assoc; reflexivity|].
    apply Forall_app. split; [apply complaints_known|].
    apply Forall_cons; split; [|constructor]. do 2 right. by left.
  - intros H.
    apply bind_Ok in H as (a & st1 & H1 & H). apply item_Ok in H1 as ->.
    apply bind_Ok in H as (b & st2 & H2 & H). apply item_Ok in H2 as ->.
    apply bind_Ok in H as (c & st3 & H3 & H). apply item_Ok in H3 as ->.
    revert H. exec. intros [= _ <-]. known.
Qed.

Lemma after_cycle_logs W path i st : logs_known st (after_cycle W path i st).
Proof.
  unfold after_cycle. eexists. split; [cbn [journal]; reflexivity|].
  apply Forall_app. split; [apply complaints_known|].
  destruct (exit_code (upload W i) =? 0); [|constructor].
  apply Forall_app. split; apply complaints_known.
Qed.

Lemma cycles_logs W path range acc st acc' st' :
  cycles W path range acc st = Ok (acc', st') -> logs_known st st'.
Proof.
  revert acc st. induction range as [|i range IH]; intros acc st H.
  - injection H as _ <-. apply logs_known_refl.
  - cbn [cycles] in H. apply bind_Ok in H as (acc1 & st1 & H1 & H2).
    apply cycle_Ok in H1 as ->. apply IH in H2.
    eapply logs_known_trans; [apply after_cycle_logs|exact H2].
Qed.

Lemma transfer_speed_test_logs W device st r st' :
  transfer_speed_test W device st = Ok (r, st') -> logs_known st st'.
Proof.
  unfold transfer_speed_test. rewrite bind_unfold. cbn [log].
  intros H. apply bind_Ok in H as (acc & st1 & Hloop & H).
  apply cycles_logs in Hloop. revert H. exec. intros [= _ <-].
  eapply logs_known_trans; [|eapply logs_known_trans; [exact Hloop|]].
  - eexists. split; [cbn [journal]; reflexivity|].
    apply Forall_cons; split; [apply info_known|constructor].
  - eexists. split; [cbn [journal]; reflexivity|].
    apply Forall_cons; split; [apply pass_known|constructor].
Qed.

Lemma store_logs key r st u st' : store key r st = Ok (u, st') -> logs_known st st'.
Proof. intros [= _ <-]. exists []. split; [cbn; by rewrite app_nil_r|constructor]. Qed.

Lemma emoji_known (status : string) :
  In status ["PASS"; "FAIL"; "WARN"; "INFO"] -> emoji status <> emoji "".
Proof.
  cbn [In]. intros [<-|[<-|[<-|[<-|[]]]]]; vm_compute; discriminate.
Qed.

Lemma emoji_other (status : string) :
  ~ In status ["PASS"; "FAIL"; "WARN"; "INFO"] -> emoji status = emoji "".
Proof.
  intros Hout. unfold emoji, emojis.
  replace (list_to_map _ !! status) with (@None string); [reflexivity|].
  symmetry. apply not_elem_of_list_to_map_1. cbn [fmap list_fmap fst].
  intros Hin. apply Hout. by apply list_elem_of_In.
Qed.

Lemma emoji_cases (status : string) :
  In (emoji status) [emoji "PASS"; emoji "FAIL"; emoji "WARN"; emoji "INFO"; emoji ""].
Proof.
  destruct (In_dec string_dec status ["PASS"; "FAIL"; "WARN"; "INFO"]) as [Hin|Hout].
  - cbn [In] in Hin. destruct Hin as [<-|[<-|[<-|[<-|[]]]]]; cbn [In]; tauto.
  - rewrite (emoji_other _ Hout). cbn [In]. tauto.
Qed.

Lemma known_line_tag tag message :
  known_line (tag, message) -> In tag ["INFO"; "PASS"; "FAIL"; "WARN"].
Proof. cbn. intros [->|[->|[[-> _]|[-> _]]]]; tauto. Qed.

(** X17: every line a completed run has logged carries one of the tags INFO,
    PASS, FAIL and WARN, so [log] never falls back to its default emoji; a
    WARN line is the missing-device warning; and a FAIL line is one of the
    two complaints of [run_cmd], a timeout or a failed command. *)
Theorem run_logs_under_four_tags (W : World) (Fore : Palette) (rep : Report)
    (st : Tester) :
  main W Fore = Ok (rep, st) ->
  Forall (fun '(tag, message) =>
            In tag ["INFO"; "PASS"; "FAIL"; "WARN"] /\
            emoji tag <> emoji "" /\
            (tag = "WARN" -> message = "No MTP device found") /\
            (tag = "FAIL" ->
             exists cmd, message = "Timeout: " +:+ cmd \/
                         exists err, message = "Command error: " +:+ cmd +:+ Py.nl +:+ err))
         (journal st).
Proof.
  intros H.
  assert (Hknown : Forall known_line (journal st)).
  { unfold main, run_complete_test in H.
    apply bind_Ok in H as ([] & s0 & H0 & H). injection H0 as <-.
    apply bind_Ok in H as (? & s1 & H1%detect_usb_version_logs & H).
    apply bind_Ok in H as (? & s2 & H2%detect_power_sysfs_logs & H).
    apply bind_Ok in H as (? & s3 & H3%usb_stability_test_logs & H).
    apply bind_Ok in H as (? & s4 & H4%check_pinout_data_logs & H).
    apply bind_Ok in H as (? & s5 & H5%estimate_cable_quality_logs & H).
    apply bind_Ok in H as (? & s6 & H6%kill_gvfs_logs & H).
    apply bind_Ok in H as (device & s7 & H7%find_mtp_device_logs & H).
    apply bind_Ok in H as ([] & s8 & H8 & H).
    apply print_perfect_table_Ok in H as ->.
    assert (H8' : logs_known s7 s8).
    { destruct device as [name|].
      - destruct (decide (name = "")).
        + by apply store_logs in H8.
        + apply bind_Ok in H8 as (r & s9 & H9%transfer_speed_test_logs & [= <-]). exact H9.
      - by apply store_logs in H8. }
    pose proof (logs_known_trans _ _ _ H1 (logs_known_trans _ _ _ H2
                 (logs_known_trans _ _ _ H3 (logs_known_trans _ _ _ H4
                 (logs_known_trans _ _ _ H5 (logs_known_trans _ _ _ H6
                 (logs_known_trans _ _ _ H7 H8'))))))) as (lines & Hlines & Hall).
    cbn [journal app] in Hlines. by rewrite Hlines. }
  eapply Forall_impl; [exact Hknown|]. intros [tag message] Hline.
  pose proof (known_line_tag _ _ Hline) as Htag. split; [exact Htag|].
  split.
  { apply emoji_known. cbn [In] in Htag |- *. tauto. }
  cbn in Hline. split.
  - intros ->. destruct Hline as [[=]|[[=]|[[_ ->]|[[=] _]]]]. reflexivity.
  - intros ->. destruct Hline as [[=]|[[=]|[[[=] _]|[_ Hmsg]]]]. exact Hmsg.
Qed.

Lemma emoji_esc_free (status : string) : esc_free (emoji status) = true.
Proof.
  pose proof (emoji_cases status) as H. cbn [In] in H.
  destruct H as [<-|[<-|[<-|[<-|[<-|[]]]]]]; reflexivity.
Qed.

(** X18: for a time stamp and a message without escape characters, and any
    status tag, the line [log] appends to the log file is the line it prints
    with the colour codes removed, followed by a line break; without
    colorama the two lines are the same text. *)
Theorem log_file_line_is_the_console_line_without_colour
    (timestamp message status : string) :
  esc_free timestamp = true -> esc_free message = true ->
  _strip_ansi (colored_msg colorama timestamp message status) +:+ Py.nl =
    log_line timestamp message status /\
  colored_msg DummyColor timestamp message status +:+ Py.nl =
    log_line timestamp message status.
Proof.
  intros Hts Hmsg. unfold colored_msg, log_line. split.
  - destruct (strip_ansi_colour ("[" +:+ timestamp +:+ "]" +:+ RESET colorama +:+ " " +:+
                                 emoji status +:+ message)) as (_ & _ & _ & -> & _).
    rewrite (strip_ansi_app "[") by reflexivity.
    rewrite (strip_ansi_app timestamp) by exact Hts.
    rewrite (strip_ansi_app "]") by reflexivity.
    destruct (strip_ansi_colour (" " +:+ emoji status +:+ message)) as (_ & _ & _ & _ & ->).
    rewrite strip_ansi_plain.
    + rewrite !str_app_assoc. reflexivity.
    + apply (esc_free_app " "); [reflexivity|].
      apply esc_free_app; [apply emoji_esc_free|exact Hmsg].
  - cbn [DummyColor CYAN RESET]. rewrite !str_app_nil_l, !str_app_assoc. reflexivity.
Qed.

(** ** The further properties at the sample worlds *)

(** After the replug every poll shows the disconnect, and the count stays
    at zero: the baseline holds the word already. *)
Lemma baseline_words_are_never_counted_witness :
  Forall (fun o => Py.contains "disconnect" (Py.lower (output o)) = true)
         (dmesg_polls replugged) /\
  exists st',
    usb_stability_test replugged init = Ok ({| value := "0 Errors"; status := "✅" |}, st').
Proof.
  split; [repeat constructor|].
  destruct (baseline_words_are_never_counted replugged init) as [_ Hmasked].
  apply Hmasked. intros error Hin. cbn in Hin.
  destruct Hin as [<-|[<-|[<-|[<-|[]]]]]; reflexivity.
Defined.

(** The bench lists a 2.00 hub before the 3.10 device: USB 2.0 it is. *)
Lemma first_match_decides_the_version_witness :
  exists st',
    detect_usb_version bench init = Ok ({| value := "USB 2.0"; status := "⭐ (1/3)" |}, st').
Proof.
  destruct (first_match_decides_the_version bench init
              "  bcdUSB               2.00" ("  bcdUSB               3.10" +:+ Py.nl) "2.00")
    as (st' & Hrun & _); [reflexivity|reflexivity|].
  exists st'. exact Hrun.
Defined.

Lemma discovered_name_is_one_bare_word_witness :
  exists st',
    find_mtp_device bench init = Ok (Some "Google_Pixel_1234", st') /\
    bare_word "Google_Pixel_1234" = true /\
    last (journal st') = Some ("PASS", "MTP device: mtp://Google_Pixel_1234").
Proof.
  assert (exists st', find_mtp_device bench init = Ok (Some "Google_Pixel_1234", st'))
    as [st' Hrun] by (eexists; vm_compute; reflexivity).
  exists st'. split; [exact Hrun|].
  destruct (discovered_name_is_one_bare_word bench init st' _ Hrun) as (Hword & _ & Hlog).
  split; [exact Hword|exact Hlog].
Defined.

Lemma discovery_returns_the_first_host_witness :
  output (gio_mounts bench) = "Mount(0): Pixel -> mtp://Google_Pixel_1234/" +:+ Py.nl /\
  exists st', find_mtp_device bench init = Ok (Some "Google_Pixel_1234", st').
Proof.
  split; [reflexivity|].
  destruct (discovery_returns_the_first_host bench init
              "Mount(0): Pixel -> " "Google_Pixel_1234" "")
    as (st' & Hrun & _); [reflexivity|reflexivity|discriminate|reflexivity|].
  exists st'. exact Hrun.
Defined.

(** The phone that refuses every upload: five commands, no speed. *)
Lemma speed_test_when_every_upload_fails_witness :
  exists st',
    transfer_speed_test locked_phone "Google_Pixel_1234" init =
      Ok ({| value := "0Mbps (0/5)"; status := "⚠️" |}, st') /\
    length (issued st') = 5%nat.
Proof.
  destruct (speed_test_when_every_upload_fails locked_phone "Google_Pixel_1234" init)
    as (st' & Hrun & _ & Hcmds & _); [intros i _; discriminate|].
  exists st'. split; [exact Hrun|]. rewrite Hcmds. reflexivity.
Defined.

(** On the bench cycle 0 verifies at 512 Mbps, cycles 1 to 3 fail and show
    that speed again, and cycle 4 verifies at 256 Mbps. *)
Lemma progress_shows_the_last_verified_speed_witness :
  exists st',
    progress bench bench_path [0; 1; 2; 3; 4]%nat (0, []) init =
    Ok (["  1/5 512Mbps"; "  2/5 512Mbps"; "  3/5 512Mbps"; "  4/5 512Mbps";
         "  5/5 256Mbps"], st').
Proof.
  destruct (progress_shows_the_last_verified_speed bench bench_path init)
    as (st' & Hrun).
  - reflexivity.
  - intros i Hi _. do 5 (destruct i as [|i]; [vm_compute; reflexivity|]). lia.
  - exists st'. rewrite Hrun. vm_compute. reflexivity.
Defined.

(** Four passes out of six: the line says 67%, the verdict is the bottom
    tier. *)
Lemma overall_line_rounds_the_percentage_witness :
  exists rep,
    print_perfect_table DummyColor four_of_six = Ok (rep, four_of_six) /\
    passed_count rep = 4 /\
    last (logfile rep) = Some "OVERALL: 4/6 TESTS PASSED (67%)" /\
    verdict DummyColor (percentage rep) =
      ["⚠️ POWER-ONLY CABLE DETECTED"; "   → RECOMMENDED: USB-IF certified cables"].
Proof.
  assert (exists rep, print_perfect_table DummyColor four_of_six = Ok (rep, four_of_six) /\
                      passed_count rep = 4)
    as (rep & Hrun & Hn) by (eexists; split; vm_compute; reflexivity).
  exists rep. split; [exact Hrun|]. split; [exact Hn|].
  destruct (overall_line_rounds_the_percentage DummyColor four_of_six rep four_of_six Hrun)
    as (_ & Hlast & _ & Hfour).
  destruct (Hfour Hn) as (H67 & _ & Hverdict).
  split; [|exact Hverdict]. rewrite Hlast, Hn, H67. reflexivity.
Defined.

(** The speed row of the bench report: 60 code points, 62 columns. *)
Lemma rows_are_as_wide_as_the_borders_witness :
  let row := log_row DummyColor ("Data Speed", "384Mbps (2/5)", "⭐⭐ (2/3)") in
  Py.len row = 60 /\
  Py.len row - Py.len "⭐⭐ (2/3)" + _get_status_width "⭐⭐ (2/3)" = Py.len top_border.
Proof.
  intros row. split; [reflexivity|].
  destruct (rows_are_as_wide_as_the_borders DummyColor "Data Speed" "384Mbps (2/5)"
              "⭐⭐ (2/3)") as (_ & Hfit & _); [by left|cbn; tauto|].
  apply Hfit; vm_compute; discriminate.
Defined.

(** A second run on a tester that holds five results of an earlier one. *)
Lemma report_ignores_earlier_results_witness :
  outcome (run_complete_test no_phone DummyColor five_of_six) =
  outcome (run_complete_test no_phone DummyColor init).
Proof. apply (report_ignores_earlier_results no_phone DummyColor five_of_six init). reflexivity. Defined.

(** Without a phone the run issues its fifteen probe commands and stops. *)
Lemma run_issues_a_fixed_command_list_witness :
  exists rep st,
    main no_phone DummyColor = Ok (rep, st) /\
    issued st = probe_commands no_phone ++ ["gio mount -l | grep 'mtp://'"] /\
    length (issued st) = 15%nat.
Proof.
  assert (exists rep st, main no_phone DummyColor = Ok (rep, st))
    as (rep & st & Hrun) by (vm_compute; eauto).
  exists rep, st. split; [exact Hrun|].
  rewrite (run_issues_a_fixed_command_list no_phone DummyColor rep st Hrun).
  split; vm_compute; reflexivity.
Defined.

Lemma silent_machine_scores_two_of_six_witness :
  exists rep st,
    main unplugged DummyColor = Ok (rep, st) /\
    passed_count rep = 2 /\
    last (logfile rep) = Some "OVERALL: 2/6 TESTS PASSED (33%)".
Proof.
  destruct (silent_machine_scores_two_of_six unplugged DummyColor)
    as (rep & st & Hrun & _ & _ & _ & _ & _ & Hn & Hlast & _);
    try reflexivity; [repeat constructor|].
  exists rep, st. split; [exact Hrun|]. split; [exact Hn|exact Hlast].
Defined.

Lemma log_table_is_the_console_table_without_colours_witness :
  exists rep st,
    main no_phone colorama = Ok (rep, st) /\
    map _strip_ansi (take 10 (drop 3 (console rep))) = take 10 (drop 3 (logfile rep)).
Proof.
  assert (exists rep st, main no_phone colorama = Ok (rep, st))
    as (rep & st & Hrun) by (vm_compute; eauto).
  exists rep, st. split; [exact Hrun|].
  destruct (log_table_is_the_console_table_without_colours no_phone colorama rep st)
    as (Hstrip & _); [by left|exact Hrun|exact Hstrip].
Defined.

Lemma run_logs_under_four_tags_witness :
  exists rep st,
    main no_phone DummyColor = Ok (rep, st) /\
    Forall (fun line => In (fst line) ["INFO"; "PASS"; "FAIL"; "WARN"]) (journal st).
Proof.
  assert (exists rep st, main no_phone DummyColor = Ok (rep, st))
    as (rep & st & Hrun) by (vm_compute; eauto).
  exists rep, st. split; [exact Hrun|].
  eapply Forall_impl; [exact (run_logs_under_four_tags no_phone DummyColor rep st Hrun)|].
  intros [tag message] (Htag & _). exact Htag.
Defined.

Lemma log_file_line_is_the_console_line_without_colour_witness :
  _strip_ansi (colored_msg colorama "2024-05-01 10:00:00" "Scanning USB version..." "INFO")
    +:+ Py.nl =
  log_line "2024-05-01 10:00:00" "Scanning USB version..." "INFO".
Proof.
  destruct (log_file_line_is_the_console_line_without_colour
              "2024-05-01 10:00:00" "Scanning USB version..." "INFO")
    as [Hline _]; [reflexivity|reflexivity|exact Hline].
Defined.
